(** * The Pulsar MCP bridge and its stdio front end

    A shallow embedding of the protocol core of the package:

    - [tools]: the tool catalog (tools.js);
    - the stdio JSON-RPC server (server.js): [callBridge], [checkBridge],
      [send], [handleRequest] and the ["line"] listener [on_line];
    - the HTTP bridge (bridge.js): the editor functions, [executeTool],
      [parseBody], the request listener [request_listener] (and
      [handle_http], what it does once the URL is read), [startBridge] and
      [stopBridge];
    - of the editor package around them, the path utilities
      [getRelativePath], [normalizePath], [pathsEqual] and [hasMatchingPath]
      (path-utils.js) and the result parsers [truncate], [truncateWithCount],
      [truncatePath], [parseJsonResult] and [safeParseJson]
      (result-parsers.js).

    JavaScript values are a data type, exceptions and mutable state are a
    state-and-exception monad, and everything outside the package (the
    editor's [atom] global, the loopback network, the operating system's port
    table, [JSON.parse] and [JSON.stringify]) is an explicit interface.
    Console output of the bridge's editor functions is left out.

    bridge.js comes in two variants with the same HTTP server code.  In one,
    [executeTool] is a [switch] over the tool names; that is [executeTool]
    here.  In the other, [executeTool] looks the name up in [toolRegistry]
    through [executeFromRegistry], of a module that the sources do not
    contain; of that variant, the keys of the registry
    ([toolRegistry_names]) and the functions of [toolImpls] that differ from
    the switch variant's are here ([toolImpls.splitPane], which looks the
    direction up in an object, is not).

    Strings are sequences of one-byte characters; lengths and slices of a
    text count those, as JavaScript does for text of one-unit characters. *)

From Stdlib Require Import ZArith List String Ascii Bool Lia.
From Stdlib Require Import Decimal DecimalString.
Import ListNotations.
Set Warnings "-register-all".
Local Open Scope string_scope.
Local Open Scope Z_scope.

(** ** JavaScript values *)

(** The values that JSON texts denote, plus [undefined].  Numbers are
    integers here: the package never computes with a number it receives, it
    only tests [typeof], passes the number on, or echoes it. *)
Inductive JsVal : Type :=
| VUndefined
| VNull
| VBool (b : bool)
| VNum (n : Z)
| VStr (s : string)
| VArr (items : list JsVal)
| VObj (fields : list (string * JsVal)).

(** What a [throw] carries: an instance of [Error] (with its [name] and
    [message]; such an object has no [code] property here), or any other
    value, as in [throw { code, message }]. *)
Inductive Thrown : Type :=
| ErrorInst (name message : string)
| Raw (v : JsVal).

Definition TypeError (message : string) : Thrown := ErrorInst "TypeError" message.
Definition new_Error (message : string) : Thrown := ErrorInst "Error" message.

(** ** The state-and-exception monad *)

Inductive Outcome (A : Type) : Type :=
| Returned (a : A)
| Threw (e : Thrown).
Arguments Returned {A} a.
Arguments Threw {A} e.

Definition JS (S A : Type) : Type := S -> Outcome A * S.

Definition ret {S A} (a : A) : JS S A := fun s => (Returned a, s).

Definition throw {S A} (e : Thrown) : JS S A := fun s => (Threw e, s).

Definition bind {S A B} (m : JS S A) (k : A -> JS S B) : JS S B :=
  fun s =>
    match m s with
    | (Returned a, s') => k a s'
    | (Threw e, s') => (Threw e, s')
    end.

(** [try { m } catch (e) { handler e }] *)
Definition try_catch {S A} (m : JS S A) (handler : Thrown -> JS S A) : JS S A :=
  fun s =>
    match m s with
    | (Returned a, s') => (Returned a, s')
    | (Threw e, s') => handler e s'
    end.

Definition get_state {S} : JS S S := fun s => (Returned s, s).
Definition modify {S} (f : S -> S) : JS S unit := fun s => (Returned tt, f s).

Declare Scope js_scope.
Delimit Scope js_scope with js.
Notation "x <- m ;; k" := (bind m (fun x => k))
  (at level 61, m at next level, right associativity) : js_scope.
Notation "m ;;; k" := (bind m (fun _ => k))
  (at level 61, right associativity) : js_scope.
Local Open Scope js_scope.

(** ** Runtime operations on values *)

(** The decimal digits of an integer, as JavaScript prints it (below 10^21). *)
Definition Z_to_string (n : Z) : string := NilZero.string_of_int (Z.to_int n).

(** ToBoolean *)
Definition truthy (v : JsVal) : bool :=
  match v with
  | VUndefined | VNull => false
  | VBool b => b
  | VNum n => negb (n =? 0)
  | VStr s => negb (s =? "")%string
  | VArr _ | VObj _ => true
  end.

(** [a || b] *)
Definition js_or (a b : JsVal) : JsVal := if truthy a then a else b.

(** [a ?? b] *)
Definition js_nullish (a b : JsVal) : JsVal :=
  match a with
  | VUndefined | VNull => b
  | _ => a
  end.

(** Own-property lookup in an object literal or a parsed object. *)
Fixpoint lookup (k : string) (fields : list (string * JsVal)) : JsVal :=
  match fields with
  | [] => VUndefined
  | (k', v) :: rest => if (k =? k')%string then v else lookup k rest
  end.

Definition has_own (k : string) (fields : list (string * JsVal)) : bool :=
  existsb (fun kv => (k =? fst kv)%string) fields.

Definition describe_nullish (v : JsVal) : string :=
  match v with
  | VNull => "null"
  | _ => "undefined"
  end.

(** [v === undefined || v === null] *)
Definition nullish (v : JsVal) : bool :=
  match v with
  | VUndefined | VNull => true
  | _ => false
  end.

(** The value of [v.k] when [v] is neither [null] nor [undefined], for the
    property names this package reads ([id], [method], [params], [text],
    [path], ...): own properties of objects, [length] of arrays and strings,
    [undefined] on every other value. *)
Definition field (v : JsVal) (k : string) : JsVal :=
  match v with
  | VObj fields => lookup k fields
  | VArr items =>
      if (k =? "length")%string then VNum (Z.of_nat (List.length items)) else VUndefined
  | VStr s =>
      if (k =? "length")%string then VNum (Z.of_nat (String.length s)) else VUndefined
  | _ => VUndefined
  end.

(** [v.k]: a [TypeError] on [null] and [undefined]. *)
Definition get_prop {S} (v : JsVal) (k : string) : JS S JsVal :=
  if nullish v
  then throw (TypeError ("Cannot read properties of " ++ describe_nullish v
                           ++ " (reading '" ++ k ++ "')"))
  else ret (field v k).

Definition join_with (sep : string) (parts : list string) : string :=
  match parts with
  | [] => ""
  | p :: ps => fold_left (fun acc q => acc ++ sep ++ q) ps p
  end.

(** ToString, as a template literal or [String(v)] applies it.  [None] is the
    [TypeError] of an object that cannot be converted to a primitive: a parsed
    object whose own [toString] property hides [Object.prototype.toString]. *)
Fixpoint to_string_opt (v : JsVal) : option string :=
  match v with
  | VUndefined => Some "undefined"
  | VNull => Some "null"
  | VBool true => Some "true"
  | VBool false => Some "false"
  | VNum n => Some (Z_to_string n)
  | VStr s => Some s
  | VArr items =>
      let fix elems (l : list JsVal) : option (list string) :=
        match l with
        | [] => Some []
        | x :: rest =>
            let sx := match x with
                      | VUndefined | VNull => Some ""
                      | _ => to_string_opt x
                      end in
            match sx, elems rest with
            | Some a, Some b => Some (a :: b)
            | _, _ => None
            end
        end in
      option_map (join_with ",") (elems items)
  | VObj fields =>
      if has_own "toString" fields then None else Some "[object Object]"
  end.

Definition to_string {S} (v : JsVal) : JS S string :=
  match to_string_opt v with
  | Some s => ret s
  | None => throw (TypeError "Cannot convert object to primitive value")
  end.

(** [String(e)] and [e.message], [e.code] for a caught value. *)
Definition thrown_to_string {S} (e : Thrown) : JS S string :=
  match e with
  | ErrorInst name message =>
      ret (if (message =? "")%string then name
           else if (name =? "")%string then message
           else name ++ ": " ++ message)
  | Raw v => to_string v
  end.

Definition thrown_prop {S} (e : Thrown) (k : string) : JS S JsVal :=
  match e with
  | ErrorInst name message =>
      ret (if (k =? "message")%string then VStr message
           else if (k =? "name")%string then VStr name
           else VUndefined)
  | Raw v => get_prop v k
  end.

(** [typeof v === "string"], [typeof v === "number"], [Array.isArray(v)] *)
Definition is_string (v : JsVal) : bool :=
  match v with VStr _ => true | _ => false end.
Definition is_number (v : JsVal) : bool :=
  match v with VNum _ => true | _ => false end.
Definition is_array (v : JsVal) : bool :=
  match v with VArr _ => true | _ => false end.

(** [a === b] against a string literal. *)
Definition strict_eq_str (v : JsVal) (s : string) : bool :=
  match v with
  | VStr s' => (s' =? s)%string
  | _ => false
  end.

(** ** The tool catalog (tools.js) *)

Record ToolDefinition : Type := {
  name : string;
  description : string;
  inputSchema : JsVal
}.

Definition object_schema (properties : list (string * JsVal))
    (required : list string) : JsVal :=
  VObj [("type", VStr "object");
        ("properties", VObj properties);
        ("required", VArr (map VStr required))].

Definition property (type description : string) : JsVal :=
  VObj [("type", VStr type); ("description", VStr description)].

Definition range_item_schema : JsVal :=
  VObj [("type", VStr "object");
        ("properties",
          VObj [("startRow", property "number" "Start line (0-indexed)");
                ("startColumn", property "number" "Start column (0-indexed)");
                ("endRow", property "number" "End line (0-indexed)");
                ("endColumn", property "number" "End column (0-indexed)")]);
        ("required",
          VArr [VStr "startRow"; VStr "startColumn"; VStr "endRow"; VStr "endColumn"])].

Definition tools : list ToolDefinition :=
  [ (* P0 - Must Have *)
    {| name := "GetActiveEditor";
       description := "Get the active editor state. Returns {path: string|null, content: string, cursorPosition: {row, column} (0-indexed), grammar: string, modified: boolean}, or null if no editor is open.";
       inputSchema := object_schema [] [] |};
    {| name := "InsertText";
       description := "Insert text at cursor or replace selection. If text is selected, replaces it; otherwise inserts at cursor. Works with multi-cursor. Returns true on success, false if no editor.";
       inputSchema :=
         object_schema
           [("text", property "string" "The text to insert (replaces selection if any)")]
           ["text"] |};
    (* P1 - Important *)
    {| name := "OpenFile";
       description := "Open a file in editor. All positions are 0-indexed. Returns true on success. Creates new file if path doesn't exist.";
       inputSchema :=
         object_schema
           [("path", property "string" "File path (absolute or relative to project root)");
            ("row", property "number" "Row to navigate to (0-indexed, optional)");
            ("column", property "number" "Column to navigate to (0-indexed, optional)")]
           ["path"] |};
    {| name := "GetProjectPaths";
       description := "Get project root folders. Returns string[] of absolute paths. Empty array if no project open.";
       inputSchema := object_schema [] [] |};
    {| name := "SaveFile";
       description := "Save a file. Returns true on success, false if file not found or no editor. If path omitted, saves active editor.";
       inputSchema :=
         object_schema
           [("path", property "string" "File path to save (optional, defaults to active editor)")]
           [] |};
    (* P2 - Editor Enhancement *)
    {| name := "SetSelections";
       description := "Set multi-cursor selections. All positions are 0-indexed. Example: [{startRow:0, startColumn:0, endRow:0, endColumn:5}] selects first 5 chars of line 1. Returns false if no editor.";
       inputSchema :=
         object_schema
           [("ranges",
              VObj [("type", VStr "array");
                    ("description", VStr "Array of selection ranges");
                    ("items", range_item_schema)])]
           ["ranges"] |};
    {| name := "GetSelections";
       description := "Get all selections/cursors. Returns array of {text: string, isEmpty: boolean, range: {start: {row, column}, end: {row, column}}} (0-indexed). First element is primary selection. Returns null if no editor.";
       inputSchema := object_schema [] [] |};
    {| name := "CloseFile";
       description := "Close an editor tab. Returns true on success, false if file not found. If path omitted, closes active editor. Unsaved changes are discarded unless save=true.";
       inputSchema :=
         object_schema
           [("path", property "string" "File path to close (optional, defaults to active editor)");
            ("save", property "boolean" "Save before closing if modified (default: false)")]
           [] |};
    (* P3 - Text Operations *)
    {| name := "FindText";
       description := "Find all matches in active editor. Returns {matches: [{text, range: {start: {row, column}, end: {row, column}}}], count}. All positions 0-indexed. Uses JavaScript regex. Returns null if no editor.";
       inputSchema :=
         object_schema
           [("pattern", property "string" "Search text or JavaScript regex pattern");
            ("isRegex", property "boolean" "Treat pattern as regex (default: false)");
            ("caseSensitive", property "boolean" "Case sensitive search (default: true)")]
           ["pattern"] |};
    (* P4 - Project Management *)
    {| name := "AddProjectPath";
       description := "Add a folder to project roots without removing existing paths. Returns true on success, false if path invalid.";
       inputSchema :=
         object_schema [("path", property "string" "Absolute folder path to add")] ["path"] |}
  ].

Definition tool_to_js (t : ToolDefinition) : JsVal :=
  VObj [("name", VStr (name t));
        ("description", VStr (description t));
        ("inputSchema", inputSchema t)].

Definition tools_js : JsVal := VArr (map tool_to_js tools).

(** [tools.find((t) => t.name === name)] *)
Definition find_tool (n : JsVal) : option ToolDefinition :=
  find (fun t => strict_eq_str n (name t)) tools.

Definition getToolByName (n : JsVal) : option ToolDefinition := find_tool n.

Definition catalog_names : list string := map name tools.

(** ** The stdio JSON-RPC server (server.js) *)

(** [parseInt(s, 10)]: leading white space, an optional sign, then the longest
    run of decimal digits; [None] is [NaN].  A character stands for the code
    unit of its number.  The number read is exact, where JavaScript rounds to
    a double: the two agree, also in how the number prints, below 2^53. *)
Definition is_digit (c : ascii) : bool :=
  let n := nat_of_ascii c in (48 <=? n)%nat && (n <=? 57)%nat.

Definition digit_value (c : ascii) : Z := Z.of_nat (nat_of_ascii c - 48).

(** The white space that [parseInt] skips, among the code units below 256:
    tab, line feed, vertical tab, form feed, carriage return, space and the
    no-break space. *)
Definition is_space (c : ascii) : bool :=
  let n := nat_of_ascii c in
  (n =? 32)%nat || ((9 <=? n)%nat && (n <=? 13)%nat) || (n =? 160)%nat.

Fixpoint skip_spaces (s : string) : string :=
  match s with
  | String c rest => if is_space c then skip_spaces rest else s
  | EmptyString => s
  end.

Fixpoint read_digits (acc : option Z) (s : string) : option Z :=
  match s with
  | String c rest =>
      if is_digit c
      then read_digits (Some (10 * match acc with Some a => a | None => 0 end
                              + digit_value c)) rest
      else acc
  | EmptyString => acc
  end.

Definition parseInt (s : string) : option Z :=
  match skip_spaces s with
  | String "-" rest => option_map Z.opp (read_digits None rest)
  | String "+" rest => read_digits None rest
  | t => read_digits None t
  end.

(** A number in a template literal. *)
Definition number_text (n : option Z) : string :=
  match n with
  | Some z => Z_to_string z
  | None => "NaN"
  end.

(** [process.env.X || fallback] *)
Definition env_or (x : option string) (fallback : string) : string :=
  match x with
  | Some s => if (s =? "")%string then fallback else s
  | None => fallback
  end.

(** A call of [fetch] and what comes back: the promise rejects, or resolves
    to a response with a status and a body text. *)
Record HttpCall : Type := {
  call_method : string;
  call_url : string;
  call_body : option string
}.

Inductive FetchResult : Type :=
| NetFail (name message : string)
| Resp (status : Z) (body : string).

Record Response : Type := {
  resp_status : Z;
  resp_text : string
}.

(** [response.ok] *)
Definition ok (r : Response) : bool :=
  (200 <=? resp_status r) && (resp_status r <=? 299).

(** The process: what it has written to standard output, one entry per
    [write], and the requests it has sent, oldest first. *)
Record Stdio : Type := {
  stdout : list string;
  fetched : list HttpCall
}.

Definition stdio_start : Stdio := {| stdout := []; fetched := [] |}.

Section StdioServer.

(** The environment of the process, read once at startup. *)
Variable PULSAR_BRIDGE_PORT : option string.
Variable PULSAR_BRIDGE_HOST : option string.

(** The JavaScript runtime: [JSON.parse] ([None] is a [SyntaxError], with
    the runtime's message), [JSON.stringify(v)] and
    [JSON.stringify(v, null, 2)] ([None] is [undefined]). *)
Variable JSON_parse : string -> option JsVal.
Variable SyntaxError_message : string -> string.
Variable JSON_stringify : JsVal -> option string.
Variable JSON_stringify_2 : JsVal -> option string.

(** The loopback network: the answer to a request, given the requests sent
    before it. *)
Variable network : list HttpCall -> HttpCall -> FetchResult.

Definition BRIDGE_PORT : option Z := parseInt (env_or PULSAR_BRIDGE_PORT "3000").
Definition BRIDGE_HOST : string := env_or PULSAR_BRIDGE_HOST "127.0.0.1".

Definition bridge_base : string :=
  "http://" ++ BRIDGE_HOST ++ ":" ++ number_text BRIDGE_PORT.

Definition fetch (c : HttpCall) : JS Stdio Response :=
  fun s =>
    let s' := {| stdout := stdout s; fetched := fetched s ++ [c] |} in
    match network (fetched s) c with
    | NetFail name message => (Threw (ErrorInst name message), s')
    | Resp status body =>
        (Returned {| resp_status := status; resp_text := body |}, s')
    end.

(** [response.json()] *)
Definition json (r : Response) : JS Stdio JsVal :=
  match JSON_parse (resp_text r) with
  | Some v => ret v
  | None => throw (ErrorInst "SyntaxError" (SyntaxError_message (resp_text r)))
  end.

(** The request that [callBridge] sends. *)
Definition tool_post (tool_text : string) (args : JsVal) : HttpCall :=
  {| call_method := "POST";
     call_url := bridge_base ++ "/tools/" ++ tool_text;
     call_body := JSON_stringify args |}.

(** Call the Pulsar bridge HTTP server to execute a tool *)
Definition callBridge (toolName : JsVal) (args : JsVal) : JS Stdio JsVal :=
  tool_text <- to_string toolName ;;
  response <- fetch (tool_post tool_text args) ;;
  result <- json response ;;
  failed <- (if negb (ok response) then ret true
             else success <- get_prop result "success" ;;
                  ret (negb (truthy success))) ;;
  if failed : bool
  then
    error <- get_prop result "error" ;;
    message <- to_string (js_or error (VStr ("Tool call failed: " ++ tool_text))) ;;
    throw (new_Error message)
  else get_prop result "data".

(** The request that [checkBridge] sends. *)
Definition health_probe : HttpCall :=
  {| call_method := "GET"; call_url := bridge_base ++ "/health"; call_body := None |}.

(** Whether the probe succeeds, given the requests sent before it. *)
Definition probe_ok (history : list HttpCall) : bool :=
  match network history health_probe with
  | NetFail _ _ => false
  | Resp status _ => (200 <=? status) && (status <=? 299)
  end.

(** Check if the bridge is available *)
Definition checkBridge : JS Stdio bool :=
  try_catch (response <- fetch health_probe ;; ret (ok response))
    (fun _ => ret false).

(** The line that [send] writes for a message. *)
Definition serialized (msg : JsVal) : string :=
  match JSON_stringify msg with
  | Some s => s
  | None => "undefined"
  end ++ String "010" "".

(** Send JSON-RPC response to stdout *)
Definition send (msg : JsVal) : JS Stdio unit :=
  modify (fun s => {| stdout := stdout s ++ [serialized msg];
                      fetched := fetched s |}).

(** [const { a, ... } = v]: a [TypeError] when [v] is [null] or [undefined]. *)
Definition destructure (v : JsVal) (first variable : string) : JS Stdio unit :=
  if nullish v
  then throw (TypeError ("Cannot destructure property '" ++ first ++ "' of '"
                           ++ variable ++ "' as it is " ++ describe_nullish v ++ "."))
  else ret tt.

Definition bridge_unavailable_message : string :=
  "Pulsar bridge not available at " ++ bridge_base ++ ". "
  ++ "Make sure Pulsar is running with the claude-chat package activated.".

Definition rpc_failure (code : Z) (message : string) : Thrown :=
  Raw (VObj [("code", VNum code); ("message", VStr message)]).

(** Handle incoming JSON-RPC request *)
Definition handleRequest (req : JsVal) : JS Stdio JsVal :=
  destructure req "method" "req" ;;;
  method <- get_prop req "method" ;;
  params <- get_prop req "params" ;;
  if strict_eq_str method "initialize" then
    ret (VObj [("protocolVersion", VStr "2024-11-05");
               ("capabilities", VObj [("tools", VObj [])]);
               ("serverInfo", VObj [("name", VStr "pulsar");
                                    ("version", VStr "0.1.0")])])
  else if strict_eq_str method "tools/list" then
    ret (VObj [("tools", tools_js)])
  else if strict_eq_str method "tools/call" then
    destructure params "name" "params" ;;;
    tool_name <- get_prop params "name" ;;
    args <- get_prop params "arguments" ;;
    bridgeAvailable <- checkBridge ;;
    if negb bridgeAvailable then
      throw (rpc_failure (-32603) bridge_unavailable_message)
    else
      match find_tool tool_name with
      | None =>
          name_text <- to_string tool_name ;;
          throw (rpc_failure (-32601) ("Unknown tool: " ++ name_text))
      | Some _ =>
          result <- callBridge tool_name (js_or args (VObj [])) ;;
          ret (VObj [("content",
                      VArr [VObj [("type", VStr "text");
                                  ("text", match JSON_stringify_2 result with
                                           | Some s => VStr s
                                           | None => VUndefined
                                           end)]])])
      end
  else
    method_text <- to_string method ;;
    throw (rpc_failure (-32601) ("Method not found: " ++ method_text)).

Definition rpc_result (id result : JsVal) : JsVal :=
  VObj [("jsonrpc", VStr "2.0"); ("id", id); ("result", result)].

Definition rpc_error (id code message : JsVal) : JsVal :=
  VObj [("jsonrpc", VStr "2.0"); ("id", id);
        ("error", VObj [("code", code); ("message", message)])].

(** The ["line"] listener of the readline interface.  An outcome [Threw] is
    a rejection of the listener's promise, which nothing handles. *)
Definition on_line (line : string) : JS Stdio unit :=
  match JSON_parse line with
  | None => send (rpc_error VNull (VNum (-32700)) (VStr "Parse error"))
  | Some req =>
      (* Ignore notifications (no id) *)
      id <- get_prop req "id" ;;
      match id with
      | VUndefined => ret tt
      | _ =>
          try_catch
            (result <- handleRequest req ;;
             send (rpc_result id result))
            (fun e =>
               code <- thrown_prop e "code" ;;
               message <- thrown_prop e "message" ;;
               message' <- (if truthy message then ret message
                            else text <- thrown_to_string e ;; ret (VStr text)) ;;
               send (rpc_error id (js_or code (VNum (-32603))) message'))
      end
  end.

(** The lines of standard input when each arrives after the listener of the
    line before it has settled, as in a dialogue of requests and responses:
    the listeners then run one after the other, and the process ends with
    the first rejection, which nothing handles.  Lines that arrive together
    are not modelled by this: their listeners overlap at an [await], and a
    listener of the same chunk still runs after one before it rejected. *)
Fixpoint serve (lines : list string) : JS Stdio unit :=
  match lines with
  | [] => ret tt
  | line :: rest => on_line line ;;; serve rest
  end.

End StdioServer.

(** ** The editor, as the bridge sees it *)

(** References to the editor's objects (text editors, selections, panes, pane
    items, docks, views). *)
Definition Ref : Type := nat.

(** The number [v - 1], which only the editor consumes. *)
Inductive Decrement : Type :=
| MinusOne (v : JsVal).

(** The options object passed to [atom.workspace.open]. *)
Record OpenOptions : Type := {
  initialLine : option Decrement;
  initialColumn : option Decrement;
  activatePane : option bool;
  pane : option (option Ref)
}.

Definition no_options : OpenOptions :=
  {| initialLine := None; initialColumn := None; activatePane := None; pane := None |}.

Definition Point : Type := (Z * Z)%type.

(** The part of the [atom] global that bridge.js calls.  Every call may change
    the editor's state [W] and may throw.  A result [None] is [undefined]. *)
Record Atom (W : Type) : Type := {
  (* atom.workspace *)
  getActiveTextEditor : JS W (option Ref);
  getTextEditors : JS W (list Ref);
  getActivePane : JS W (option Ref);
  paneForItem : Ref -> JS W (option Ref);
  workspace_open : JsVal -> OpenOptions -> JS W unit;
  getLeftDock : JS W Ref;
  getRightDock : JS W Ref;
  getBottomDock : JS W Ref;
  getPanes : JS W (list Ref);
  (* atom.views, atom.commands, atom.project *)
  getView : JS W Ref;
  dispatch : Ref -> string -> JS W unit;
  getPaths : JS W (list string);
  (* TextEditor *)
  getCursorBufferPosition : Ref -> JS W Point;
  getPath : Ref -> JS W (option string);
  getText : Ref -> JS W string;
  getGrammarName : Ref -> JS W (option string);
  isModified : Ref -> JS W bool;
  editor_insertText : Ref -> JsVal -> JS W unit;
  getLastSelection : Ref -> JS W (option Ref);
  getSelections : Ref -> JS W (list Ref);
  save : Ref -> JS W unit;
  setCursorBufferPosition : Ref -> Decrement -> Decrement -> JS W unit;
  scrollToCursorPosition : Ref -> JS W unit;
  setSelectedBufferRanges : Ref -> JsVal -> JS W unit;
  (* Selection *)
  selection_isEmpty : Ref -> JS W bool;
  selection_getBufferRange : Ref -> JS W (Point * Point);
  selection_getText : Ref -> JS W string;
  selection_insertText : Ref -> JsVal -> JS W unit;
  (* Pane *)
  destroyItem : Ref -> Ref -> JS W unit;
  splitLeft : Ref -> JS W Ref;
  splitRight : Ref -> JS W Ref;
  splitUp : Ref -> JS W Ref;
  splitDown : Ref -> JS W Ref;
  getItems : Ref -> JS W (list Ref);
  destroy : Ref -> JS W unit;
  (* a pane item: [item.isModified] may be missing, and so may [item.save] *)
  item_isModified : Ref -> JS W (option bool);
  item_has_save : Ref -> JS W bool;
  item_save : Ref -> JS W unit;
  (* Dock *)
  isVisible : Ref -> JS W bool;
  getPaneItems_length : Ref -> JS W Z
}.

Arguments getActiveTextEditor {W}.
Arguments getTextEditors {W}.
Arguments getActivePane {W}.
Arguments paneForItem {W}.
Arguments workspace_open {W}.
Arguments getLeftDock {W}.
Arguments getRightDock {W}.
Arguments getBottomDock {W}.
Arguments getPanes {W}.
Arguments getView {W}.
Arguments dispatch {W}.
Arguments getPaths {W}.
Arguments getCursorBufferPosition {W}.
Arguments getPath {W}.
Arguments getText {W}.
Arguments getGrammarName {W}.
Arguments isModified {W}.
Arguments editor_insertText {W}.
Arguments getLastSelection {W}.
Arguments getSelections {W}.
Arguments save {W}.
Arguments setCursorBufferPosition {W}.
Arguments scrollToCursorPosition {W}.
Arguments setSelectedBufferRanges {W}.
Arguments selection_isEmpty {W}.
Arguments selection_getBufferRange {W}.
Arguments selection_getText {W}.
Arguments selection_insertText {W}.
Arguments destroyItem {W}.
Arguments splitLeft {W}.
Arguments splitRight {W}.
Arguments splitUp {W}.
Arguments splitDown {W}.
Arguments getItems {W}.
Arguments destroy {W}.
Arguments item_isModified {W}.
Arguments item_has_save {W}.
Arguments item_save {W}.
Arguments isVisible {W}.
Arguments getPaneItems_length {W}.

(** [{ success, data, error }], a missing property being [None]. *)
Record ExecutionResult : Type := {
  success : bool;
  data : option JsVal;
  error : option string
}.

Definition succeeded (d : JsVal) : ExecutionResult :=
  {| success := true; data := Some d; error := None |}.

Definition failed (message : string) : ExecutionResult :=
  {| success := false; data := None; error := Some message |}.

(** [{ success: result, data: { ... } }] *)
Definition reported (result : bool) (d : JsVal) : ExecutionResult :=
  {| success := result; data := Some d; error := None |}.

Definition result_to_js (r : ExecutionResult) : JsVal :=
  VObj ([("success", VBool (success r))]
        ++ match data r with Some d => [("data", d)] | None => [] end
        ++ match error r with Some e => [("error", VStr e)] | None => [] end).

Definition point_to_js (p : Point) : JsVal :=
  VObj [("row", VNum (fst p)); ("column", VNum (snd p))].

Definition range_to_js (r : Point * Point) : JsVal :=
  VObj [("start", point_to_js (fst r)); ("end", point_to_js (snd r))].

(** [x || null] and [x || "Plain Text"] for a string or [undefined]. *)
Definition string_or (x : option string) (fallback : JsVal) : JsVal :=
  match x with
  | Some s => if (s =? "")%string then fallback else VStr s
  | None => fallback
  end.

(** [e.getPath() === filePath] *)
Definition path_eq (p : option string) (filePath : JsVal) : bool :=
  match p, filePath with
  | Some s, VStr s' => (s =? s')%string
  | None, VUndefined => true
  | _, _ => false
  end.

(** [list.indexOf(x)] *)
Fixpoint indexOf (x : option Ref) (l : list Ref) (i : Z) : Z :=
  match l with
  | [] => -1
  | y :: rest =>
      match x with
      | Some r => if Nat.eqb r y then i else indexOf x rest (i + 1)
      | None => indexOf x rest (i + 1)
      end
  end.

(** [l.map(f)] with a callback that has effects. *)
Fixpoint map_js {S A B} (f : A -> JS S B) (l : list A) : JS S (list B) :=
  match l with
  | [] => ret []
  | x :: rest => y <- f x ;; ys <- map_js f rest ;; ret (y :: ys)
  end.

(** [for (const x of l) { body x }] *)
Fixpoint for_of {S A} (l : list A) (body : A -> JS S unit) : JS S unit :=
  match l with
  | [] => ret tt
  | x :: rest => body x ;;; for_of rest body
  end.

(** [l.find(p)] with a callback that has effects. *)
Fixpoint find_js {S A} (p : A -> JS S bool) (l : list A) : JS S (option A) :=
  match l with
  | [] => ret None
  | x :: rest => b <- p x ;; if b : bool then ret (Some x) else find_js p rest
  end.

(** A method call on [undefined]. *)
Definition method_of {S A} (receiver : option Ref) (method : string)
    (call : Ref -> JS S A) : JS S A :=
  match receiver with
  | Some r => call r
  | None => throw (TypeError ("Cannot read properties of undefined (reading '"
                                ++ method ++ "')"))
  end.

(** ** The HTTP bridge (bridge.js) *)

Definition DEFAULT_PORT : Z := 3000.
Definition DEFAULT_HOST : string := "127.0.0.1".

Section Bridge.

Context {W : Type}.
Variable atom : Atom W.

(** *** Pulsar API implementation (direct atom access) *)

(** Get information about the active text editor *)
Definition getActiveEditor : JS W JsVal :=
  active <- getActiveTextEditor atom ;;
  match active with
  | None => ret VNull
  | Some editor =>
      cursor <- getCursorBufferPosition atom editor ;;
      path <- getPath atom editor ;;
      content <- getText atom editor ;;
      grammar <- getGrammarName atom editor ;;
      modified <- isModified atom editor ;;
      ret (VObj [("path", string_or path VNull);
                 ("content", VStr content);
                 ("cursorPosition", point_to_js cursor);
                 ("grammar", string_or grammar (VStr "Plain Text"));
                 ("modified", VBool modified)])
  end.

(** Get the current selection in the active editor *)
Definition getSelection : JS W JsVal :=
  active <- getActiveTextEditor atom ;;
  match active with
  | None => ret VNull
  | Some editor =>
      last <- getLastSelection atom editor ;;
      match last with
      | None => ret VNull
      | Some selection =>
          empty <- selection_isEmpty atom selection ;;
          if empty : bool then ret VNull
          else
            range <- selection_getBufferRange atom selection ;;
            text <- selection_getText atom selection ;;
            ret (VObj [("text", VStr text); ("range", range_to_js range)])
      end
  end.

(** Insert text at the current cursor position *)
Definition insertText (text : string) : JS W bool :=
  active <- getActiveTextEditor atom ;;
  match active with
  | None => ret false
  | Some editor => editor_insertText atom editor (VStr text) ;;; ret true
  end.

(** Replace the current selection with new text *)
Definition replaceSelection (text : string) : JS W bool :=
  active <- getActiveTextEditor atom ;;
  match active with
  | None => ret false
  | Some editor =>
      last <- getLastSelection atom editor ;;
      match last with
      | None => ret false
      | Some selection => selection_insertText atom selection (VStr text) ;;; ret true
      end
  end.

(** Open a file in the editor *)
Definition openFile (filePath : string) (line column : JsVal) : JS W bool :=
  try_catch
    (let options :=
       match line with
       | VUndefined => no_options
       | _ => {| initialLine := Some (MinusOne line);
                 initialColumn := match column with
                                  | VUndefined => None
                                  | _ => Some (MinusOne column)
                                  end;
                 activatePane := None;
                 pane := None |}
       end in
     workspace_open atom (VStr filePath) options ;;;
     ret true)
    (fun _ => ret false).

(** Navigate to a specific position in the active editor *)
Definition goToPosition (line column : JsVal) : JS W bool :=
  let column := match column with VUndefined => VNum 1 | _ => column end in
  active <- getActiveTextEditor atom ;;
  match active with
  | None => ret false
  | Some editor =>
      try_catch
        (setCursorBufferPosition atom editor (MinusOne line) (MinusOne column) ;;;
         scrollToCursorPosition atom editor ;;;
         ret true)
        (fun _ => ret false)
  end.

(** Get list of all open editor tabs *)
Definition getOpenEditors : JS W JsVal :=
  editors <- getTextEditors atom ;;
  activeEditor <- getActiveTextEditor atom ;;
  entries <- map_js
    (fun editor =>
       path <- getPath atom editor ;;
       modified <- isModified atom editor ;;
       ret (VObj [("path", string_or path VNull);
                  ("modified", VBool modified);
                  ("active", VBool (match activeEditor with
                                    | Some a => Nat.eqb editor a
                                    | None => false
                                    end))]))
    editors ;;
  ret (VArr entries).

(** Get list of project root paths *)
Definition getProjectPaths : JS W JsVal :=
  paths <- getPaths atom ;;
  ret (VArr (map VStr paths)).

Definition find_editor_by_path (filePath : JsVal) : JS W (option Ref) :=
  editors <- getTextEditors atom ;;
  find_js (fun e => p <- getPath atom e ;; ret (path_eq p filePath)) editors.

(** Save the current or specified file *)
Definition saveFile (filePath : JsVal) : JS W bool :=
  try_catch
    (if truthy filePath then
       found <- find_editor_by_path filePath ;;
       match found with
       | Some editor => save atom editor ;;; ret true
       | None => ret false
       end
     else
       active <- getActiveTextEditor atom ;;
       match active with
       | None => ret false
       | Some editor => save atom editor ;;; ret true
       end)
    (fun _ => ret false).

Definition buffer_range (r : JsVal) : JS W JsVal :=
  startRow <- get_prop r "startRow" ;;
  startColumn <- get_prop r "startColumn" ;;
  endRow <- get_prop r "endRow" ;;
  endColumn <- get_prop r "endColumn" ;;
  ret (VArr [VArr [startRow; startColumn]; VArr [endRow; endColumn]]).

(** Set one or more selections in the active editor *)
Definition setSelections (ranges : list JsVal) : JS W bool :=
  active <- getActiveTextEditor atom ;;
  match active with
  | None => ret false
  | Some editor =>
      try_catch
        (bufferRanges <- map_js buffer_range ranges ;;
         setSelectedBufferRanges atom editor (VArr bufferRanges) ;;;
         ret true)
        (fun _ => ret false)
  end.

(** Get all current selections in the active editor *)
Definition getAllSelections : JS W JsVal :=
  active <- getActiveTextEditor atom ;;
  match active with
  | None => ret VNull
  | Some editor =>
      selections <- getSelections atom editor ;;
      entries <- map_js
        (fun selection =>
           range <- selection_getBufferRange atom selection ;;
           text <- selection_getText atom selection ;;
           empty <- selection_isEmpty atom selection ;;
           ret (VObj [("text", VStr text);
                      ("isEmpty", VBool empty);
                      ("range", range_to_js range)]))
        selections ;;
      ret (VArr entries)
  end.

(** Reveal a file or folder in the tree view *)
Definition revealInTreeView (filePath : string) : JS W bool :=
  try_catch
    (target <- getView atom ;;
     dispatch atom target "tree-view:reveal-active-file" ;;;
     (if negb (filePath =? "")%string then
        workspace_open atom (VStr filePath)
          {| initialLine := None; initialColumn := None;
             activatePane := Some true; pane := None |} ;;;
        dispatch atom target "tree-view:reveal-active-file"
      else ret tt) ;;;
     ret true)
    (fun _ => ret false).

(** Close an open editor tab *)
Definition closeFile (filePath save_arg : JsVal) : JS W bool :=
  let save_flag := match save_arg with VUndefined => VBool false | _ => save_arg end in
  try_catch
    (target <-
       (if truthy filePath then
          found <- find_editor_by_path filePath ;;
          match found with
          | None => ret None
          | Some editor => p <- paneForItem atom editor ;; ret (Some (editor, p))
          end
        else
          active <- getActiveTextEditor atom ;;
          match active with
          | None => ret None
          | Some editor => p <- getActivePane atom ;; ret (Some (editor, p))
          end) ;;
     match target with
     | None => ret false
     | Some (editor, the_pane) =>
         (if truthy save_flag then
            modified <- isModified atom editor ;;
            if modified : bool then save atom editor else ret tt
          else ret tt) ;;;
         method_of the_pane "destroyItem" (fun p => destroyItem atom p editor) ;;;
         ret true
     end)
    (fun _ => ret false).

(** Split the current pane in a specified direction *)
Definition splitPane (direction filePath : JsVal) : JS W bool :=
  try_catch
    (active <- getActivePane atom ;;
     let split (method : string) (call : Ref -> JS W Ref) : JS W (option Ref) :=
       newPane <- method_of active method call ;; ret (Some newPane) in
     newPane <-
       (if strict_eq_str direction "left" then split "splitLeft" (splitLeft atom)
        else if strict_eq_str direction "right" then split "splitRight" (splitRight atom)
        else if strict_eq_str direction "up" then split "splitUp" (splitUp atom)
        else if strict_eq_str direction "down" then split "splitDown" (splitDown atom)
        else ret None) ;;
     match newPane with
     | None => ret false
     | Some p =>
         (if truthy filePath then
            workspace_open atom filePath
              {| initialLine := None; initialColumn := None;
                 activatePane := None; pane := Some (Some p) |}
          else ret tt) ;;;
         ret true
     end)
    (fun _ => ret false).

(** Close the active pane *)
Definition closePane (saveAll : JsVal) : JS W bool :=
  let saveAll := match saveAll with VUndefined => VBool false | _ => saveAll end in
  try_catch
    (active <- getActivePane atom ;;
     match active with
     | None => ret false
     | Some p =>
         (if truthy saveAll then
            items <- getItems atom p ;;
            for_of items
              (fun item =>
                 modified <- item_isModified atom item ;;
                 match modified with
                 | Some true =>
                     has_save <- item_has_save atom item ;;
                     if has_save : bool then item_save atom item else ret tt
                 | _ => ret tt
                 end)
          else ret tt) ;;;
         destroy atom p ;;;
         ret true
     end)
    (fun _ => ret false).

Definition dock_state (dock : JS W Ref) : JS W JsVal :=
  d <- dock ;;
  visible <- isVisible atom d ;;
  d' <- dock ;;
  items <- getPaneItems_length atom d' ;;
  ret (VObj [("visible", VBool visible); ("items", VNum items)]).

(** Get the visibility state of all docks *)
Definition getPanelState : JS W JsVal :=
  left <- dock_state (getLeftDock atom) ;;
  right <- dock_state (getRightDock atom) ;;
  bottom <- dock_state (getBottomDock atom) ;;
  panes <- getPanes atom ;;
  panes' <- getPanes atom ;;
  active <- getActivePane atom ;;
  ret (VObj [("left", left); ("right", right); ("bottom", bottom);
             ("panes", VObj [("count", VNum (Z.of_nat (List.length panes)));
                             ("activeIndex", VNum (indexOf active panes' 0))])]).

End Bridge.

(** *** The registry variant's executors

    The functions of [toolImpls] that differ from the functions above: they
    take the argument object and have no [try] of their own.  The parameter
    is destructured; on [null] or [undefined] that is the [TypeError] of the
    first property read here, whose message differs from the
    destructuring's. *)

Module toolImpls.

(** [insertText({ text })] *)
Definition insertText {W} (atom : Atom W) (args : JsVal) : JS W bool :=
  text <- get_prop args "text" ;;
  active <- getActiveTextEditor atom ;;
  match active with
  | None => ret false
  | Some editor => editor_insertText atom editor text ;;; ret true
  end.

(** [replaceSelection({ text })] *)
Definition replaceSelection {W} (atom : Atom W) (args : JsVal) : JS W bool :=
  text <- get_prop args "text" ;;
  active <- getActiveTextEditor atom ;;
  match active with
  | None => ret false
  | Some editor =>
      last <- getLastSelection atom editor ;;
      match last with
      | None => ret false
      | Some selection => selection_insertText atom selection text ;;; ret true
      end
  end.

(** [openFile({ path, line, column })] *)
Definition openFile {W} (atom : Atom W) (args : JsVal) : JS W bool :=
  path <- get_prop args "path" ;;
  line <- get_prop args "line" ;;
  column <- get_prop args "column" ;;
  let options :=
    match line with
    | VUndefined => no_options
    | _ => {| initialLine := Some (MinusOne line);
              initialColumn := match column with
                               | VUndefined => None
                               | _ => Some (MinusOne column)
                               end;
              activatePane := None;
              pane := None |}
    end in
  workspace_open atom path options ;;;
  ret true.

(** [goToPosition({ line, column = 1 })] *)
Definition goToPosition {W} (atom : Atom W) (args : JsVal) : JS W bool :=
  line <- get_prop args "line" ;;
  column <- get_prop args "column" ;;
  let column := match column with VUndefined => VNum 1 | _ => column end in
  active <- getActiveTextEditor atom ;;
  match active with
  | None => ret false
  | Some editor =>
      setCursorBufferPosition atom editor (MinusOne line) (MinusOne column) ;;;
      scrollToCursorPosition atom editor ;;;
      ret true
  end.

(** [saveFile({ path })] *)
Definition saveFile {W} (atom : Atom W) (args : JsVal) : JS W bool :=
  path <- get_prop args "path" ;;
  if truthy path then
    found <- find_editor_by_path atom path ;;
    match found with
    | None => ret false
    | Some editor => save atom editor ;;; ret true
    end
  else
    active <- getActiveTextEditor atom ;;
    match active with
    | None => ret false
    | Some editor => save atom editor ;;; ret true
    end.

(** [setSelections({ ranges })] *)
Definition setSelections {W} (atom : Atom W) (args : JsVal) : JS W bool :=
  ranges <- get_prop args "ranges" ;;
  active <- getActiveTextEditor atom ;;
  match active with
  | None => ret false
  | Some editor =>
      bufferRanges <-
        match ranges with
        | VArr items => map_js (buffer_range (W := W)) items
        | VUndefined | VNull =>
            throw (TypeError ("Cannot read properties of " ++ describe_nullish ranges
                                ++ " (reading 'map')"))
        | _ => throw (TypeError "ranges.map is not a function")
        end ;;
      setSelectedBufferRanges atom editor (VArr bufferRanges) ;;;
      ret true
  end.

(** [revealInTreeView({ path })] *)
Definition revealInTreeView {W} (atom : Atom W) (args : JsVal) : JS W bool :=
  path <- get_prop args "path" ;;
  target <- getView atom ;;
  dispatch atom target "tree-view:reveal-active-file" ;;;
  (if truthy path then
     workspace_open atom path
       {| initialLine := None; initialColumn := None;
          activatePane := Some true; pane := None |} ;;;
     dispatch atom target "tree-view:reveal-active-file"
   else ret tt) ;;;
  ret true.

(** [closeFile({ path, save = false })] *)
Definition closeFile {W} (atom : Atom W) (args : JsVal) : JS W bool :=
  path <- get_prop args "path" ;;
  save_arg <- get_prop args "save" ;;
  let save_flag := match save_arg with VUndefined => VBool false | _ => save_arg end in
  target <-
    (if truthy path then
       found <- find_editor_by_path atom path ;;
       match found with
       | None => ret None
       | Some editor => p <- paneForItem atom editor ;; ret (Some (editor, p))
       end
     else
       active <- getActiveTextEditor atom ;;
       match active with
       | None => ret None
       | Some editor => p <- getActivePane atom ;; ret (Some (editor, p))
       end) ;;
  match target with
  | None => ret false
  | Some (editor, the_pane) =>
      (if truthy save_flag then
         modified <- isModified atom editor ;;
         if modified : bool then save atom editor else ret tt
       else ret tt) ;;;
      method_of the_pane "destroyItem" (fun p => destroyItem atom p editor) ;;;
      ret true
  end.

(** [closePane({ saveAll = false })] *)
Definition closePane {W} (atom : Atom W) (args : JsVal) : JS W bool :=
  saveAll <- get_prop args "saveAll" ;;
  let saveAll := match saveAll with VUndefined => VBool false | _ => saveAll end in
  active <- getActivePane atom ;;
  match active with
  | None => ret false
  | Some p =>
      (if truthy saveAll then
         items <- getItems atom p ;;
         for_of items
           (fun item =>
              modified <- item_isModified atom item ;;
              match modified with
              | Some true =>
                  has_save <- item_has_save atom item ;;
                  if has_save : bool then item_save atom item else ret tt
              | _ => ret tt
              end)
       else ret tt) ;;;
      destroy atom p ;;;
      ret true
  end.

End toolImpls.

(** *** Tool execution and the HTTP server *)

Record HttpRequest : Type := {
  req_method : string;
  (** [new URL(req.url, base).pathname] *)
  req_pathname : string;
  (** the chunks of the request body, concatenated *)
  req_body : string
}.

(** An incoming request as Node hands it to the listener: [req.method],
    [req.url] ([None]: [undefined]) and the chunks of the body,
    concatenated. *)
Record IncomingMessage : Type := {
  incoming_method : string;
  incoming_url : option string;
  incoming_body : string
}.

Record HttpResponse : Type := {
  status : Z;
  headers : list (string * string);
  (** [None]: [res.end()] without a body *)
  body : option string
}.

Definition is_upper (c : ascii) : bool :=
  let n := nat_of_ascii c in (65 <=? n)%nat && (n <=? 90)%nat.

Definition is_letter (c : ascii) : bool :=
  let n := nat_of_ascii c in is_upper c || ((97 <=? n)%nat && (n <=? 122)%nat).

Fixpoint all_letters (s : string) : bool :=
  match s with
  | EmptyString => true
  | String c rest => is_letter c && all_letters rest
  end.

Fixpoint strip_prefix (p s : string) : option string :=
  match p, s with
  | EmptyString, _ => Some s
  | String a p', String b s' => if Ascii.eqb a b then strip_prefix p' s' else None
  | String _ _, EmptyString => None
  end.

(** The route pattern of a tool call: the prefix [/tools/], then one capital
    letter followed by letters only, to the end of the path.  The result is
    the captured tool name. *)
Definition tool_route (pathname : string) : option string :=
  match strip_prefix "/tools/" pathname with
  | Some (String c rest) =>
      if is_upper c && all_letters rest then Some (String c rest) else None
  | _ => None
  end.

(** The headers that [sendJson] writes. *)
Definition json_headers : list (string * string) :=
  [("Content-Type", "application/json"); ("Access-Control-Allow-Origin", "*")].

(** [[a, b, c, d].includes(v)] *)
Definition includes (l : list string) (v : JsVal) : bool :=
  existsb (strict_eq_str v) l.

Section BridgeServer.

Context {W : Type}.
Variable atom : Atom W.
Variable JSON_parse : string -> option JsVal.
Variable JSON_stringify : JsVal -> option string.
Variable Date_now : JS W Z.

(** The [switch] of [executeTool], inside its [try]. *)
Definition executeTool_switch (toolName : string) (args : JsVal)
    : JS W ExecutionResult :=
  if (toolName =? "GetActiveEditor")%string then
    editor <- getActiveEditor atom ;;
    ret (succeeded editor)
  else if (toolName =? "GetSelection")%string then
    selection <- getSelection atom ;;
    ret (succeeded selection)
  else if (toolName =? "InsertText")%string then
    text <- get_prop args "text" ;;
    match text with
    | VStr s =>
        result <- insertText atom s ;;
        ret (reported result (VObj [("inserted", VBool result)]))
    | _ => ret (failed "text is required")
    end
  else if (toolName =? "ReplaceSelection")%string then
    text <- get_prop args "text" ;;
    match text with
    | VStr s =>
        result <- replaceSelection atom s ;;
        ret (reported result (VObj [("replaced", VBool result)]))
    | _ => ret (failed "text is required")
    end
  else if (toolName =? "OpenFile")%string then
    path <- get_prop args "path" ;;
    match path with
    | VStr p =>
        line <- get_prop args "line" ;;
        column <- get_prop args "column" ;;
        result <- openFile atom p line column ;;
        ret (reported result (VObj [("opened", VBool result)]))
    | _ => ret (failed "path is required")
    end
  else if (toolName =? "GoToPosition")%string then
    line <- get_prop args "line" ;;
    if is_number line then
      column <- get_prop args "column" ;;
      result <- goToPosition atom line column ;;
      ret (reported result (VObj [("navigated", VBool result)]))
    else ret (failed "line is required")
  else if (toolName =? "GetOpenEditors")%string then
    editors <- getOpenEditors atom ;;
    ret (succeeded editors)
  else if (toolName =? "GetProjectPaths")%string then
    paths <- getProjectPaths atom ;;
    ret (succeeded paths)
  else if (toolName =? "SaveFile")%string then
    path <- get_prop args "path" ;;
    result <- saveFile atom path ;;
    ret (reported result (VObj [("saved", VBool result)]))
  else if (toolName =? "SetSelections")%string then
    ranges <- get_prop args "ranges" ;;
    match ranges with
    | VArr (r :: rs) =>
        result <- setSelections atom (r :: rs) ;;
        ret (reported result
               (VObj [("selectionsSet", VBool result);
                      ("count", VNum (Z.of_nat (List.length (r :: rs))))]))
    | _ => ret (failed "ranges array is required")
    end
  else if (toolName =? "GetAllSelections")%string then
    selections <- getAllSelections atom ;;
    ret (succeeded selections)
  else if (toolName =? "RevealInTreeView")%string then
    path <- get_prop args "path" ;;
    match path with
    | VStr p =>
        result <- revealInTreeView atom p ;;
        ret (reported result (VObj [("revealed", VBool result)]))
    | _ => ret (failed "path is required")
    end
  else if (toolName =? "CloseFile")%string then
    path <- get_prop args "path" ;;
    save_arg <- get_prop args "save" ;;
    result <- closeFile atom path save_arg ;;
    ret (reported result (VObj [("closed", VBool result)]))
  else if (toolName =? "SplitPane")%string then
    direction <- get_prop args "direction" ;;
    if includes ["left"; "right"; "up"; "down"] direction then
      path <- get_prop args "path" ;;
      result <- splitPane atom direction path ;;
      ret (reported result (VObj [("split", VBool result); ("direction", direction)]))
    else ret (failed "direction must be one of: left, right, up, down")
  else if (toolName =? "ClosePane")%string then
    saveAll <- get_prop args "saveAll" ;;
    result <- closePane atom saveAll ;;
    ret (reported result (VObj [("closed", VBool result)]))
  else if (toolName =? "GetPanelState")%string then
    state <- getPanelState atom ;;
    ret (succeeded state)
  else
    ret (failed ("Unknown tool: " ++ toolName)).

(** [error instanceof Error ? error.message : String(error)] *)
Definition caught_message (e : Thrown) : JS W string :=
  match e with
  | ErrorInst _ message => ret message
  | Raw v => to_string v
  end.

(** Execute a tool call using direct atom access *)
Definition executeTool (toolName : string) (args : JsVal) : JS W ExecutionResult :=
  try_catch (executeTool_switch toolName args)
    (fun e => message <- caught_message e ;; ret (failed message)).

(** Parse JSON body from request *)
Definition parseBody (req : HttpRequest) : JS W JsVal :=
  if (req_body req =? "")%string then ret (VObj [])
  else match JSON_parse (req_body req) with
       | Some v => ret v
       | None => throw (new_Error "Invalid JSON body")
       end.

(** Send JSON response *)
Definition sendJson (payload : JsVal) (statusCode : Z) : JS W HttpResponse :=
  ret {| status := statusCode;
         headers := json_headers;
         body := JSON_stringify payload |}.

(** The request listener given to [http.createServer], from the pathname on:
    [req_pathname] is what [new URL(req.url ?? "/", base).pathname] gave (an
    OPTIONS request is answered before the URL is read).  The result is the
    response written. *)
Definition handle_http (req : HttpRequest) : JS W HttpResponse :=
  if (req_method req =? "OPTIONS")%string then
    ret {| status := 204;
           headers := [("Access-Control-Allow-Origin", "*");
                       ("Access-Control-Allow-Methods", "GET, POST, OPTIONS");
                       ("Access-Control-Allow-Headers", "Content-Type")];
           body := None |}
  else
    try_catch
      (if (req_method req =? "GET")%string && (req_pathname req =? "/health")%string then
         now <- Date_now ;;
         sendJson (VObj [("status", VStr "ok"); ("timestamp", VNum now)]) 200
       else if (req_method req =? "GET")%string && (req_pathname req =? "/tools")%string then
         sendJson (VObj [("tools", tools_js)]) 200
       else
         match tool_route (req_pathname req) with
         | Some toolName =>
             if (req_method req =? "POST")%string then
               args <- parseBody req ;;
               result <- executeTool toolName args ;;
               if success result then sendJson (result_to_js result) 200
               else sendJson (result_to_js result) 400
             else sendJson (VObj [("error", VStr "Not found")]) 404
         | None => sendJson (VObj [("error", VStr "Not found")]) 404
         end)
      (fun e =>
         message <- caught_message e ;;
         sendJson (VObj [("error", VStr message)]) 500).

(** [new URL(input, base).pathname]; [None] when the constructor throws, as
    it does for an input that is no URL against the base. *)
Variable URL_pathname : string -> string -> option string.

(** The request listener as a whole, in the server that [startBridge] makes
    for [host] and [port].  An outcome [Threw] is a rejection of the
    listener's promise: no response is written. *)
Definition request_listener (host : string) (port : Z) (msg : IncomingMessage)
    : JS W HttpResponse :=
  let request pathname :=
    {| req_method := incoming_method msg;
       req_pathname := pathname;
       req_body := incoming_body msg |} in
  if (incoming_method msg =? "OPTIONS")%string then handle_http (request "/")
  else
    match URL_pathname
            match incoming_url msg with Some target => target | None => "/" end
            ("http://" ++ host ++ ":" ++ Z_to_string port) with
    | Some pathname => handle_http (request pathname)
    | None => throw (TypeError "Invalid URL")
    end.

End BridgeServer.

(** The names that [executeTool] has a [case] for. *)
Definition executable_names : list string :=
  ["GetActiveEditor"; "GetSelection"; "InsertText"; "ReplaceSelection"; "OpenFile";
   "GoToPosition"; "GetOpenEditors"; "GetProjectPaths"; "SaveFile"; "SetSelections";
   "GetAllSelections"; "RevealInTreeView"; "CloseFile"; "SplitPane"; "ClosePane";
   "GetPanelState"].

(** The keys of [toolRegistry] in the registry-based variant of bridge.js. *)
Definition toolRegistry_names : list string :=
  ["GetActiveEditor"; "GetSelection"; "InsertText"; "ReplaceSelection"; "OpenFile";
   "GoToPosition"; "GetOpenEditors"; "GetProjectPaths"; "SaveFile"; "SetSelections";
   "GetAllSelections"; "RevealInTreeView"; "CloseFile"; "SplitPane"; "ClosePane";
   "GetPanelState"].

(** *** Starting and stopping the server *)

(** [config = {}]: a missing, [undefined] or [null] property is [None]. *)
Record Config : Type := {
  port : option Z;
  host : option string
}.

(** The process that runs the bridge: which ports other sockets hold, the
    address the bridge's server listens on ([None]: it has no open handle),
    the ['error'] events the server emitted (it has no listener for them, so
    each is an uncaught exception), and the console. *)
Record Process : Type := {
  ports_in_use : Z -> bool;
  listening : option (Z * string);
  uncaught : list Thrown;
  console : list string
}.

Definition EADDRINUSE (p : Z) (h : string) : Thrown :=
  new_Error ("listen EADDRINUSE: address already in use " ++ h ++ ":" ++ Z_to_string p).

Definition ERR_SERVER_NOT_RUNNING : Thrown := new_Error "Server is not running.".

(** [server.listen(port, host)], for a port from 1 to 65535, and with the
    process seen once the bind has been tried (the bind itself and the
    ['error'] event come after the call returns). *)
Definition listen (p : Z) (h : string) : JS Process unit :=
  modify (fun s =>
            if ports_in_use s p
            then {| ports_in_use := ports_in_use s; listening := listening s;
                    uncaught := uncaught s ++ [EADDRINUSE p h];
                    console := console s |}
            else {| ports_in_use := ports_in_use s; listening := Some (p, h);
                    uncaught := uncaught s; console := console s |}).

(** [new Promise((resolve, reject) => server.close((err) => ...))]: the
    callback of [close] gets an error when the server was not open. *)
Definition close_server : JS Process unit :=
  fun s =>
    match listening s with
    | Some _ =>
        (Returned tt,
         {| ports_in_use := ports_in_use s; listening := None;
            uncaught := uncaught s; console := console s |})
    | None => (Threw ERR_SERVER_NOT_RUNNING, s)
    end.

Definition console_log (line : string) : JS Process unit :=
  modify (fun s => {| ports_in_use := ports_in_use s; listening := listening s;
                      uncaught := uncaught s; console := console s ++ [line] |}).

(** What [startBridge] returns: [{ port, host, stop }]. *)
Record BridgeHandle : Type := {
  bridge_port : Z;
  bridge_host : string;
  stop : JS Process unit
}.

(** [x ?? fallback] *)
Definition default_to {A} (x : option A) (fallback : A) : A :=
  match x with
  | Some a => a
  | None => fallback
  end.

(** Start the HTTP bridge server *)
Definition startBridge (config : Config) : JS Process BridgeHandle :=
  let p := default_to (port config) DEFAULT_PORT in
  let h := default_to (host config) DEFAULT_HOST in
  listen p h ;;;
  console_log ("[claude-chat] MCP bridge listening on http://" ++ h ++ ":"
                 ++ Z_to_string p) ;;;
  ret {| bridge_port := p; bridge_host := h; stop := close_server |}.

(** Stop the bridge server *)
Definition stopBridge (bridge : BridgeHandle) : JS Process unit :=
  stop bridge ;;;
  console_log "[claude-chat] MCP bridge stopped".

(** A process in which the ports [taken] are held by other sockets. *)
Definition fresh_process (taken : list Z) : Process :=
  {| ports_in_use := fun p => existsb (Z.eqb p) taken;
     listening := None; uncaught := []; console := [] |}.

(** ** A reference runtime

    [JSON.stringify] and [JSON.parse] for the values above.  Strings are byte
    strings (a JavaScript string stands for its UTF-8 bytes) and number
    literals are integers. *)
Module Json.

Definition quote : string := String (ascii_of_nat 34) "".
Definition backslash : string := String (ascii_of_nat 92) "".
Definition newline : string := String (ascii_of_nat 10) "".

Definition hex_digit (n : nat) : ascii :=
  if (n <? 10)%nat then ascii_of_nat (48 + n) else ascii_of_nat (87 + n).

Definition escape_char (c : ascii) : string :=
  let n := nat_of_ascii c in
  if (n =? 34)%nat then backslash ++ quote
  else if (n =? 92)%nat then backslash ++ backslash
  else if (n =? 8)%nat then backslash ++ "b"
  else if (n =? 12)%nat then backslash ++ "f"
  else if (n =? 10)%nat then backslash ++ "n"
  else if (n =? 13)%nat then backslash ++ "r"
  else if (n =? 9)%nat then backslash ++ "t"
  else if (n <? 32)%nat then
    backslash ++ "u00" ++ String (hex_digit (n / 16)) (String (hex_digit (n mod 16)) "")
  else String c "".

Fixpoint escape (s : string) : string :=
  match s with
  | EmptyString => ""
  | String c rest => escape_char c ++ escape rest
  end.

Definition quoted (s : string) : string := quote ++ escape s ++ quote.

(** [JSON.stringify(v)]; [None] is [undefined]. *)
Fixpoint stringify (v : JsVal) : option string :=
  match v with
  | VUndefined => None
  | VNull => Some "null"
  | VBool true => Some "true"
  | VBool false => Some "false"
  | VNum n => Some (Z_to_string n)
  | VStr s => Some (quoted s)
  | VArr items =>
      let fix elems (l : list JsVal) : list string :=
        match l with
        | [] => []
        | x :: rest =>
            match stringify x with
            | Some t => t
            | None => "null"
            end :: elems rest
        end in
      Some ("[" ++ join_with "," (elems items) ++ "]")
  | VObj fields =>
      let fix members (l : list (string * JsVal)) : list string :=
        match l with
        | [] => []
        | (k, x) :: rest =>
            match stringify x with
            | Some t => (quoted k ++ ":" ++ t) :: members rest
            | None => members rest
            end
        end in
      Some ("{" ++ join_with "," (members fields) ++ "}")
  end.

Fixpoint spaces (n : nat) : string :=
  match n with
  | O => ""
  | S m => " " ++ spaces m
  end.

(** [JSON.stringify(v, null, 2)] at nesting depth [depth]. *)
Fixpoint stringify_at (depth : nat) (v : JsVal) : option string :=
  let inner := newline ++ spaces (2 * S depth) in
  let outer := newline ++ spaces (2 * depth) in
  match v with
  | VArr items =>
      let fix elems (l : list JsVal) : list string :=
        match l with
        | [] => []
        | x :: rest =>
            match stringify_at (S depth) x with
            | Some t => t
            | None => "null"
            end :: elems rest
        end in
      match elems items with
      | [] => Some "[]"
      | parts => Some ("[" ++ inner ++ join_with ("," ++ inner) parts ++ outer ++ "]")
      end
  | VObj fields =>
      let fix members (l : list (string * JsVal)) : list string :=
        match l with
        | [] => []
        | (k, x) :: rest =>
            match stringify_at (S depth) x with
            | Some t => (quoted k ++ ": " ++ t) :: members rest
            | None => members rest
            end
        end in
      match members fields with
      | [] => Some "{}"
      | parts => Some ("{" ++ inner ++ join_with ("," ++ inner) parts ++ outer ++ "}")
      end
  | _ => stringify v
  end.

Definition stringify_2 (v : JsVal) : option string := stringify_at 0 v.

(** *** Parsing *)

Definition is_ws (c : ascii) : bool :=
  let n := nat_of_ascii c in
  (n =? 32)%nat || (n =? 9)%nat || (n =? 10)%nat || (n =? 13)%nat.

Fixpoint skip_ws (s : string) : string :=
  match s with
  | String c rest => if is_ws c then skip_ws rest else s
  | EmptyString => s
  end.

Definition hex_value (c : ascii) : option nat :=
  let n := nat_of_ascii c in
  if (48 <=? n)%nat && (n <=? 57)%nat then Some (n - 48)%nat
  else if (65 <=? n)%nat && (n <=? 70)%nat then Some (n - 55)%nat
  else if (97 <=? n)%nat && (n <=? 102)%nat then Some (n - 87)%nat
  else None.

(** The UTF-8 bytes of a code unit. *)
Definition utf8 (u : nat) : string :=
  if (u <? 128)%nat then String (ascii_of_nat u) ""
  else if (u <? 2048)%nat then
    String (ascii_of_nat (192 + u / 64)) (String (ascii_of_nat (128 + u mod 64)) "")
  else
    String (ascii_of_nat (224 + u / 4096))
      (String (ascii_of_nat (128 + (u / 64) mod 64))
         (String (ascii_of_nat (128 + u mod 64)) "")).

(** The characters of a string literal after its opening quote, up to the
    closing quote; gives the string and what follows it. *)
Fixpoint parse_chars (s : string) : option (string * string) :=
  match s with
  | EmptyString => None
  | String c rest =>
      let n := nat_of_ascii c in
      if (n =? 34)%nat then Some ("", rest)
      else if (n <? 32)%nat then None
      else if (n =? 92)%nat then
        match rest with
        | String e rest' =>
            let simple (t : string) :=
              match parse_chars rest' with
              | Some (u, tail) => Some (t ++ u, tail)
              | None => None
              end in
            match nat_of_ascii e with
            | 34%nat => simple quote
            | 92%nat => simple backslash
            | 47%nat => simple "/"
            | 98%nat => simple (String (ascii_of_nat 8) "")
            | 102%nat => simple (String (ascii_of_nat 12) "")
            | 110%nat => simple newline
            | 114%nat => simple (String (ascii_of_nat 13) "")
            | 116%nat => simple (String (ascii_of_nat 9) "")
            | 117%nat =>
                match rest' with
                | String h1 (String h2 (String h3 (String h4 rest''))) =>
                    match hex_value h1, hex_value h2, hex_value h3, hex_value h4,
                          parse_chars rest'' with
                    | Some a, Some b, Some c', Some d, Some (u, tail) =>
                        Some (utf8 (((a * 16 + b) * 16 + c') * 16 + d) ++ u, tail)
                    | _, _, _, _, _ => None
                    end
                | _ => None
                end
            | _ => None
            end
        | EmptyString => None
        end
      else
        match parse_chars rest with
        | Some (u, tail) => Some (String c u, tail)
        | None => None
        end
  end.

Fixpoint take_digits (s : string) : string * string :=
  match s with
  | String c rest =>
      if is_digit c then let (d, tail) := take_digits rest in (String c d, tail)
      else ("", s)
  | EmptyString => ("", s)
  end.

Fixpoint digits_value (acc : Z) (s : string) : Z :=
  match s with
  | String c rest => digits_value (10 * acc + digit_value c) rest
  | EmptyString => acc
  end.

(** An integer literal: [0], or a non-zero digit followed by digits. *)
Definition parse_int (s : string) : option (Z * string) :=
  match take_digits s with
  | ("", _) => None
  | (String "0" (String _ _), _) => None
  | (d, tail) => Some (digits_value 0 d, tail)
  end.

(** [fields] with [k] set to [v]: a repeated key keeps its first place and
    takes the last value. *)
Fixpoint set_field (k : string) (v : JsVal) (fields : list (string * JsVal))
    : list (string * JsVal) :=
  match fields with
  | [] => [(k, v)]
  | (k', v') :: rest =>
      if (k =? k')%string then (k, v) :: rest else (k', v') :: set_field k v rest
  end.

Fixpoint parse_value (fuel : nat) (s : string) : option (JsVal * string) :=
  match fuel with
  | O => None
  | S fuel' =>
      match skip_ws s with
      | String "[" rest =>
          match skip_ws rest with
          | String "]" tail => Some (VArr [], tail)
          | _ => parse_elements fuel' [] rest
          end
      | String "{" rest =>
          match skip_ws rest with
          | String "}" tail => Some (VObj [], tail)
          | _ => parse_members fuel' [] rest
          end
      | String "-" rest =>
          match parse_int rest with
          | Some (n, tail) => Some (VNum (- n), tail)
          | None => None
          end
      | String c rest as t =>
          if (nat_of_ascii c =? 34)%nat then
            match parse_chars rest with
            | Some (u, tail) => Some (VStr u, tail)
            | None => None
            end
          else if is_digit c then
            match parse_int t with
            | Some (n, tail) => Some (VNum n, tail)
            | None => None
            end
          else
            match strip_prefix "null" t, strip_prefix "true" t, strip_prefix "false" t with
            | Some tail, _, _ => Some (VNull, tail)
            | _, Some tail, _ => Some (VBool true, tail)
            | _, _, Some tail => Some (VBool false, tail)
            | _, _, _ => None
            end
      | EmptyString => None
      end
  end

with parse_elements (fuel : nat) (acc : list JsVal) (s : string)
    : option (JsVal * string) :=
  match fuel with
  | O => None
  | S fuel' =>
      match parse_value fuel' s with
      | Some (v, tail) =>
          match skip_ws tail with
          | String "," tail' => parse_elements fuel' (acc ++ [v]) tail'
          | String "]" tail' => Some (VArr (acc ++ [v]), tail')
          | _ => None
          end
      | None => None
      end
  end

with parse_members (fuel : nat) (acc : list (string * JsVal)) (s : string)
    : option (JsVal * string) :=
  match fuel with
  | O => None
  | S fuel' =>
      match skip_ws s with
      | String q rest =>
          if (nat_of_ascii q =? 34)%nat then
            match parse_chars rest with
            | Some (k, tail) =>
                match skip_ws tail with
                | String ":" tail' =>
                    match parse_value fuel' tail' with
                    | Some (v, tail'') =>
                        match skip_ws tail'' with
                        | String "," t => parse_members fuel' (set_field k v acc) t
                        | String "}" t => Some (VObj (set_field k v acc), t)
                        | _ => None
                        end
                    | None => None
                    end
                | _ => None
                end
            | None => None
            end
          else None
      | EmptyString => None
      end
  end.

(** [JSON.parse(text)]; [None] is a [SyntaxError]. *)
Definition parse (text : string) : option JsVal :=
  match parse_value (2 * String.length text + 2) text with
  | Some (v, tail) =>
      match skip_ws tail with
      | EmptyString => Some v
      | _ => None
      end
  | None => None
  end.

Definition syntax_error_message (text : string) : string :=
  "Unexpected token in JSON".

End Json.

(** ** A small editor

    An editor with one pane and at most one text buffer.  The state is the
    text of the buffer; [opened] says whether a text editor is open. *)
Definition demo_atom (opened : bool) : Atom string :=
  {| getActiveTextEditor := ret (if opened then Some 0%nat else None);
     getTextEditors := ret (if opened then [0%nat] else []);
     getActivePane := ret (Some 1%nat);
     paneForItem := fun _ => ret (Some 1%nat);
     workspace_open := fun _ _ => ret tt;
     getLeftDock := ret 2%nat;
     getRightDock := ret 3%nat;
     getBottomDock := ret 4%nat;
     getPanes := ret [1%nat];
     getView := ret 5%nat;
     dispatch := fun _ _ => ret tt;
     getPaths := ret [];
     getCursorBufferPosition := fun _ => ret (0, 0);
     getPath := fun _ => ret None;
     getText := fun _ => get_state;
     getGrammarName := fun _ => ret None;
     isModified := fun _ => ret false;
     editor_insertText :=
       fun _ text => modify (fun buffer => buffer ++ default_to (to_string_opt text) "");
     getLastSelection := fun _ => ret (Some 6%nat);
     getSelections := fun _ => ret [6%nat];
     save := fun _ => ret tt;
     setCursorBufferPosition := fun _ _ _ => ret tt;
     scrollToCursorPosition := fun _ => ret tt;
     setSelectedBufferRanges := fun _ _ => ret tt;
     selection_isEmpty := fun _ => ret true;
     selection_getBufferRange := fun _ => ret ((0, 0), (0, 0));
     selection_getText := fun _ => ret "";
     selection_insertText :=
       fun _ text => modify (fun buffer => buffer ++ default_to (to_string_opt text) "");
     destroyItem := fun _ _ => ret tt;
     splitLeft := fun _ => ret 7%nat;
     splitRight := fun _ => ret 7%nat;
     splitUp := fun _ => ret 7%nat;
     splitDown := fun _ => ret 7%nat;
     getItems := fun _ => ret (if opened then [0%nat] else []);
     destroy := fun _ => ret tt;
     item_isModified := fun _ => ret (Some false);
     item_has_save := fun _ => ret true;
     item_save := fun _ => ret tt;
     isVisible := fun _ => ret false;
     getPaneItems_length := fun _ => ret 0 |}.

(** The small editor with a document open, whose calls that change something
    ([insertText], [save], [open], [destroyItem], [destroy]) throw [failure]. *)
Definition failing_atom (failure : Thrown) : Atom string :=
  {| getActiveTextEditor := ret (Some 0%nat);
     getTextEditors := ret [0%nat];
     getActivePane := ret (Some 1%nat);
     paneForItem := fun _ => ret (Some 1%nat);
     workspace_open := fun _ _ => throw failure;
     getLeftDock := ret 2%nat;
     getRightDock := ret 3%nat;
     getBottomDock := ret 4%nat;
     getPanes := ret [1%nat];
     getView := ret 5%nat;
     dispatch := fun _ _ => ret tt;
     getPaths := ret [];
     getCursorBufferPosition := fun _ => ret (0, 0);
     getPath := fun _ => ret None;
     getText := fun _ => get_state;
     getGrammarName := fun _ => ret None;
     isModified := fun _ => ret true;
     editor_insertText := fun _ _ => throw failure;
     getLastSelection := fun _ => ret (Some 6%nat);
     getSelections := fun _ => ret [6%nat];
     save := fun _ => throw failure;
     setCursorBufferPosition := fun _ _ _ => ret tt;
     scrollToCursorPosition := fun _ => ret tt;
     setSelectedBufferRanges := fun _ _ => ret tt;
     selection_isEmpty := fun _ => ret true;
     selection_getBufferRange := fun _ => ret ((0, 0), (0, 0));
     selection_getText := fun _ => ret "";
     selection_insertText := fun _ _ => throw failure;
     destroyItem := fun _ _ => throw failure;
     splitLeft := fun _ => ret 7%nat;
     splitRight := fun _ => ret 7%nat;
     splitUp := fun _ => ret 7%nat;
     splitDown := fun _ => ret 7%nat;
     getItems := fun _ => ret [0%nat];
     destroy := fun _ => throw failure;
     item_isModified := fun _ => ret (Some true);
     item_has_save := fun _ => ret true;
     item_save := fun _ => throw failure;
     isVisible := fun _ => ret false;
     getPaneItems_length := fun _ => ret 0 |}.

(** [[[r.startRow, r.startColumn], [r.endRow, r.endColumn]]] for a range that
    is neither [null] nor [undefined]. *)
Definition buffer_range_of (r : JsVal) : JsVal :=
  VArr [VArr [field r "startRow"; field r "startColumn"];
        VArr [field r "endRow"; field r "endColumn"]].

(** A clock for [Date.now()]. *)
Definition fixed_clock {W} (now : Z) : JS W Z := ret now.

(** A loopback network with nothing listening: every [fetch] rejects. *)
Definition network_down : list HttpCall -> HttpCall -> FetchResult :=
  fun _ _ => NetFail "TypeError" "fetch failed".

(** The bridge's listener as seen through [fetch]: the path of the URL after
    [base], the body text, and the response's status and body back. *)
Definition bridge_network {W} (atom : Atom W) (world : W) (base : string)
    : list HttpCall -> HttpCall -> FetchResult :=
  fun _ c =>
    match strip_prefix base (call_url c) with
    | None => NetFail "TypeError" "fetch failed"
    | Some path =>
        match handle_http atom Json.parse Json.stringify (fixed_clock 0)
                {| req_method := call_method c;
                   req_pathname := path;
                   req_body := default_to (call_body c) "" |} world with
        | (Returned r, _) => Resp (status r) (default_to (body r) "")
        | (Threw _, _) => NetFail "TypeError" "fetch failed"
        end
    end.

(** ** Example requests *)

(** [{ jsonrpc: "2.0", id: 1, method: "tools/call", params: { name, arguments: {} } }] *)
Definition example_call (toolName : string) : JsVal :=
  VObj [("jsonrpc", VStr "2.0"); ("id", VNum 1); ("method", VStr "tools/call");
        ("params", VObj [("name", VStr toolName); ("arguments", VObj [])])].

(** [{ jsonrpc: "2.0", id: 1, method: "tools/call" }] *)
Definition example_call_without_params : JsVal :=
  VObj [("jsonrpc", VStr "2.0"); ("id", VNum 1); ("method", VStr "tools/call")].

(** [{ jsonrpc: "2.0", method: "tools/call", params: { name, arguments: {} } }] *)
Definition example_notification (toolName : string) : JsVal :=
  VObj [("jsonrpc", VStr "2.0"); ("method", VStr "tools/call");
        ("params", VObj [("name", VStr toolName); ("arguments", VObj [])])].

(** [{ jsonrpc: "2.0", id: 2, method: "initialize" }] *)
Definition example_initialize : JsVal :=
  VObj [("jsonrpc", VStr "2.0"); ("id", VNum 2); ("method", VStr "initialize")].

(** [{ jsonrpc: "2.0", id: 3, method }] *)
Definition example_request (method : string) : JsVal :=
  VObj [("jsonrpc", VStr "2.0"); ("id", VNum 3); ("method", VStr method)].

(** The text [s] between double quotes. *)
Definition quoted (s : string) : string := Json.quote ++ s ++ Json.quote.

(** The text of a message on one line of standard input. *)
Definition line_of (msg : JsVal) : string := default_to (Json.stringify msg) "".

(** The stdio server with the reference runtime and the default environment,
    on a given network. *)
Definition example_listener (network : list HttpCall -> HttpCall -> FetchResult)
    : string -> JS Stdio unit :=
  on_line None None Json.parse Json.syntax_error_message Json.stringify
    Json.stringify_2 network.


(** The line written for a message, with the reference runtime. *)
Definition example_line (msg : JsVal) : string := serialized Json.stringify msg.

(** The bridge of the small editor without a document, at the default
    address. *)
Definition example_bridge : list HttpCall -> HttpCall -> FetchResult :=
  bridge_network (demo_atom false) "" "http://127.0.0.1:3000".

(** ** String slices *)

Fixpoint take_chars (n : nat) (s : string) : string :=
  match n, s with
  | S m, String c rest => String c (take_chars m rest)
  | _, _ => ""
  end.

Fixpoint drop_chars (n : nat) (s : string) : string :=
  match n, s with
  | S m, String _ rest => drop_chars m rest
  | _, _ => s
  end.

(** The index that [slice] makes of an argument: counted from the end when
    negative, and kept within the string. *)
Definition slice_index (s : string) (n : Z) : nat :=
  let len := Z.of_nat (String.length s) in
  Z.to_nat (if n <? 0 then Z.max (len + n) 0 else Z.min n len).

(** [s.slice(0, n)] *)
Definition slice_to (s : string) (n : Z) : string := take_chars (slice_index s n) s.

(** [s.slice(n)] *)
Definition slice_from (s : string) (n : Z) : string := drop_chars (slice_index s n) s.

(** ** Path utilities (path-utils.js) *)

(** [s.replace(/\\/g, "/")]: every backslash becomes a slash. *)
Fixpoint replace_backslashes (s : string) : string :=
  match s with
  | EmptyString => ""
  | String c rest =>
      String (if (nat_of_ascii c =? 92)%nat then "/"%char else c)
        (replace_backslashes rest)
  end.

(** The [for] loop of [getRelativePath] over the project paths. *)
Fixpoint relative_to (filePath : string) (paths : list string) : string :=
  match paths with
  | [] => filePath
  | projectPath :: rest =>
      if String.prefix projectPath filePath
      then replace_backslashes
             (slice_from filePath (Z.of_nat (String.length projectPath) + 1))
      else relative_to filePath rest
  end.

(** Get relative path from project root.  [projectPaths = None] is the
    default [null], replaced by [atom.project.getPaths()]. *)
Definition getRelativePath {W} (atom : Atom W) (filePath : string)
    (projectPaths : option (list string)) : JS W string :=
  paths <- match projectPaths with
           | Some l => ret l
           | None => getPaths atom
           end ;;
  ret (relative_to filePath paths).

Section PathComparison.

(** Node's [path.normalize] and the runtime's [toLowerCase]. *)
Variable path_normalize : string -> string.
Variable toLowerCase : string -> string.

(** Normalize path for comparison (handle Windows/Unix differences) *)
Definition normalizePath (p : string) : string := toLowerCase (path_normalize p).

(** Compare two paths for equality (cross-platform) *)
Definition pathsEqual (path1 path2 : string) : bool :=
  (normalizePath path1 =? normalizePath path2)%string.

(** Check if any path in array matches target; [paths = None] is [null] or
    [undefined]. *)
Definition hasMatchingPath (paths : option (list string)) (targetPaths : list string)
    : bool :=
  match paths with
  | Some l => existsb (fun p => existsb (fun target => pathsEqual p target) targetPaths) l
  | None => false
  end.

End PathComparison.

(** ** Result parsing (result-parsers.js) *)

(** Truncate string with suffix; [text = None] is [null] or [undefined]. *)
Definition truncate (text : option string) (maxLength : option Z)
    (suffix : option string) : option string :=
  let maxLength := default_to maxLength 500 in
  let suffix := default_to suffix "..." in
  match text with
  | None => None
  | Some t =>
      if (t =? "")%string || (Z.of_nat (String.length t) <=? maxLength)
      then Some t
      else Some (slice_to t maxLength ++ suffix)
  end.

(** Truncate with character count suffix *)
Definition truncateWithCount (text : option string) (maxLength : option Z)
    : option string :=
  let maxLength := default_to maxLength 500 in
  match text with
  | None => None
  | Some t =>
      if (t =? "")%string || (Z.of_nat (String.length t) <=? maxLength)
      then Some t
      else
        let remaining := Z.of_nat (String.length t) - maxLength in
        Some (slice_to t maxLength ++ String "010" "... ("
                ++ Z_to_string remaining ++ " more chars)")
  end.

(** Truncate path from beginning, keeping end visible *)
Definition truncatePath (path : option string) (maxLength : option Z) : option string :=
  let maxLength := default_to maxLength 70 in
  match path with
  | None => None
  | Some t =>
      if (t =? "")%string || (Z.of_nat (String.length t) <=? maxLength)
      then Some t
      else Some ("..." ++ slice_from t (- (maxLength - 3)))
  end.

Section JsonResults.

Variable JSON_parse : string -> option JsVal.

(** [JSON.parse(text)] inside a [try]. *)
Definition parse_or_throw (text : string) : JS unit JsVal :=
  match JSON_parse text with
  | Some v => ret v
  | None => throw (ErrorInst "SyntaxError" "")
  end.

(** [content?.data ?? content] *)
Definition data_or_self (content : JsVal) : JsVal :=
  if nullish content then content else js_nullish (field content "data") content.

(** [(b) => b.type === "text" && b.text] *)
Definition is_text_block (b : JsVal) : JS unit bool :=
  type <- get_prop b "type" ;;
  if strict_eq_str type "text"
  then text <- get_prop b "text" ;; ret (truthy text)
  else ret false.

(** Safely parse JSON result (for MCP tools) *)
Definition parseJsonResult (result : JsVal) : JS unit JsVal :=
  if negb (truthy result) then ret VNull
  else
    try_catch
      (match result with
       | VArr blocks =>
           textBlock <- find_js is_text_block blocks ;;
           match textBlock with
           | Some b =>
               content <- match field b "text" with
                          | VStr text => parse_or_throw text
                          | other => ret other
                          end ;;
               ret (data_or_self content)
           | None => ret result
           end
       | VStr text =>
           parsed <- parse_or_throw text ;;
           ret (data_or_self parsed)
       | _ => ret (data_or_self result)
       end)
      (fun _ => ret result).

(** Parse result with error handling; the default [fallback] is [null]. *)
Definition safeParseJson (text : string) (fallback : option JsVal) : JsVal :=
  match JSON_parse text with
  | Some v => v
  | None => default_to fallback VNull
  end.

End JsonResults.

(** [{ content: [{ type: "text", text }] }.content], what [tools/call] answers. *)
Definition text_content (text : JsVal) : JsVal :=
  VArr [VObj [("type", VStr "text"); ("text", text)]].

(** ** Shapes of results *)

(** The status of the response that a request listener wrote. *)
Definition response_status (o : Outcome HttpResponse) : option Z :=
  match o with
  | Returned r => Some (status r)
  | Threw _ => None
  end.

(** What the request handler throws: an instance of [Error], or an object
    literal [{ code, message }] with a message that is not empty. *)
Definition well_formed_failure (e : Thrown) : Prop :=
  match e with
  | ErrorInst _ _ => True
  | Raw v =>
      exists code message,
        v = VObj [("code", VNum code); ("message", VStr message)] /\ message <> ""
  end.

(** A computation that writes nothing to standard output, only adds to the
    requests sent, and throws nothing but well-formed failures. *)
Definition tame {A} (m : JS Stdio A) : Prop :=
  forall s,
    (exists more,
        snd (m s) = {| stdout := stdout s; fetched := fetched s ++ more |})
    /\ (forall e, fst (m s) = Threw e -> well_formed_failure e).

(** What the request handler throws, with the codes it uses. *)
Definition protocol_failure (e : Thrown) : Prop :=
  match e with
  | ErrorInst _ _ => True
  | Raw v =>
      exists code message,
        v = VObj [("code", VNum code); ("message", VStr message)]
        /\ (code = -32603 \/ code = -32601) /\ message <> ""
  end.

(** A computation that throws nothing but values with the property [P]. *)
Definition throws_only {S A} (P : Thrown -> Prop) (m : JS S A) : Prop :=
  forall s e s', m s = (Threw e, s') -> P e.

(** The requests a computation sends are added to those sent before. *)
Definition extends_log {A} (m : JS Stdio A) : Prop :=
  forall s, exists more, fetched (snd (m s)) = (fetched s ++ more)%list.

(** ** Reasoning about computations *)

Section MonadFacts.

Context {S A B : Type}.

Lemma bind_returned (m : JS S A) (k : A -> JS S B) s b s' :
  bind m k s = (Returned b, s') ->
  exists a s1, m s = (Returned a, s1) /\ k a s1 = (Returned b, s').
Proof.
  unfold bind. destruct (m s) as [[a | e] s1]; intros H.
  - exists a, s1. split; [reflexivity | exact H].
  - discriminate H.
Qed.

Lemma bind_step (m : JS S A) (k : A -> JS S B) s a s1 :
  m s = (Returned a, s1) -> bind m k s = k a s1.
Proof. intros H. unfold bind. rewrite H. reflexivity. Qed.

Lemma bind_threw (m : JS S A) (k : A -> JS S B) s e s1 :
  m s = (Threw e, s1) -> bind m k s = (Threw e, s1).
Proof. intros H. unfold bind. rewrite H. reflexivity. Qed.

Lemma ret_returned (a b : A) (s s' : S) :
  ret a s = (Returned b, s') -> a = b /\ s = s'.
Proof. unfold ret. intros H. inversion H. split; reflexivity. Qed.

Lemma try_catch_returned (m : JS S A) (h : Thrown -> JS S A) s a s' :
  try_catch m h s = (Returned a, s') ->
  m s = (Returned a, s') \/
  exists e s1, m s = (Threw e, s1) /\ h e s1 = (Returned a, s').
Proof.
  unfold try_catch. destruct (m s) as [[a0 | e] s1]; intros H.
  - left. exact H.
  - right. exists e, s1. split; [reflexivity | exact H].
Qed.

Lemma try_catch_step (m : JS S A) (h : Thrown -> JS S A) s a s1 :
  m s = (Returned a, s1) -> try_catch m h s = (Returned a, s1).
Proof. intros H. unfold try_catch. rewrite H. reflexivity. Qed.

Lemma try_catch_threw (m : JS S A) (h : Thrown -> JS S A) s e s1 :
  m s = (Threw e, s1) -> try_catch m h s = h e s1.
Proof. intros H. unfold try_catch. rewrite H. reflexivity. Qed.

End MonadFacts.

(** Inversion of a computation that is known to have returned. *)
Ltac js_inv :=
  repeat match goal with
    | H : bind _ _ _ = (Returned _, _) |- _ =>
        apply bind_returned in H; destruct H as (? & ? & ? & H)
    | H : ret _ _ = (Returned _, _) |- _ =>
        apply ret_returned in H; destruct H; subst
    | H : (match ?x with _ => _ end) _ = (Returned _, _) |- _ => destruct x
    end.

Lemma get_prop_returned {S} (v : JsVal) (k : string) (s : S) a s' :
  get_prop v k s = (Returned a, s') -> nullish v = false /\ a = field v k /\ s' = s.
Proof.
  unfold get_prop. destruct (nullish v); intros H.
  - discriminate H.
  - apply ret_returned in H. destruct H. subst. auto.
Qed.

Lemma get_prop_value {S} (v : JsVal) (k : string) (s : S) :
  nullish v = false -> get_prop v k s = (Returned (field v k), s).
Proof. intros H. unfold get_prop. rewrite H. reflexivity. Qed.

Lemma field_nullish (v : JsVal) (k : string) :
  nullish v = true -> field v k = VUndefined.
Proof. destruct v; simpl; intros H; try discriminate H; reflexivity. Qed.

(** ** The result envelope of [executeTool] *)

Lemma string_or_not_bool x fallback b :
  (forall b', fallback <> VBool b') -> string_or x fallback <> VBool b.
Proof.
  intros Hf. unfold string_or. destruct x as [s0 |]; [destruct (s0 =? "")%string |];
    first [apply Hf | discriminate].
Qed.

Lemma executeTool_switch_mirror {W} (atom : Atom W) toolName args w r w' verb b rest :
  executeTool_switch atom toolName args w = (Returned r, w') ->
  data r = Some (VObj ((verb, VBool b) :: rest)) ->
  success r = b /\ error r = None.
Proof.
  unfold executeTool_switch. intros H Hd.
  js_inv; simpl in Hd; try discriminate Hd;
    try (injection Hd as -> -> ->; split; reflexivity).
  all: unfold getActiveEditor, getSelection, getOpenEditors, getProjectPaths,
         getAllSelections, getPanelState, dock_state in *.
  all: js_inv; try discriminate Hd.
  - exfalso. injection Hd as _ Hp _.
    exact (string_or_not_bool x3 VNull b ltac:(discriminate) Hp).
  - injection Hd as _ Hb _. subst b. split; reflexivity.
Qed.

(** [executeTool] either returns what its [switch] returned, or the failure
    built from the caught exception. *)
Lemma executeTool_cases {W} (atom : Atom W) toolName args w r w' :
  executeTool atom toolName args w = (Returned r, w') ->
  executeTool_switch atom toolName args w = (Returned r, w') \/
  exists e w0 msg,
    executeTool_switch atom toolName args w = (Threw e, w0) /\
    caught_message e w0 = (Returned msg, w') /\ r = failed msg.
Proof.
  unfold executeTool. intros H.
  apply try_catch_returned in H. destruct H as [H | (e & w0 & He & H)].
  - left. exact H.
  - right. js_inv. exists e, w0, x. auto.
Qed.

Lemma executeTool_switch_unknown {W} (atom : Atom W) toolName args :
  ~ In toolName executable_names ->
  executeTool_switch atom toolName args = ret (failed ("Unknown tool: " ++ toolName)).
Proof.
  intros Hn. unfold executeTool_switch.
  repeat match goal with
    | |- context [String.eqb toolName ?s] =>
        destruct (String.eqb_spec toolName s) as [-> | _];
        [ exfalso; apply Hn; simpl; tauto | ]
    end.
  reflexivity.
Qed.

Lemma executeTool_unknown {W} (atom : Atom W) toolName args w :
  ~ In toolName executable_names ->
  executeTool atom toolName args w
  = (Returned (failed ("Unknown tool: " ++ toolName)), w).
Proof.
  intros Hn. unfold executeTool.
  rewrite (executeTool_switch_unknown atom toolName args Hn). reflexivity.
Qed.

(** ** The bridge: results of [executeTool] *)

(** What the [switch] itself returns with [success: false]: the failure of
    an argument check or of the unknown-tool case, or the executor's [false]
    under the verb of the tool. *)
Lemma executeTool_switch_failure {W} (atom : Atom W) toolName args w r w' :
  executeTool_switch atom toolName args w = (Returned r, w') ->
  success r = false ->
  (data r = None
   /\ exists msg,
       error r = Some msg
       /\ In msg ["text is required"; "path is required"; "line is required";
                  "ranges array is required";
                  "direction must be one of: left, right, up, down";
                  "Unknown tool: " ++ toolName])
  \/ (error r = None
      /\ exists verb rest,
          In (toolName, verb)
            [("InsertText", "inserted"); ("ReplaceSelection", "replaced");
             ("OpenFile", "opened"); ("GoToPosition", "navigated");
             ("SaveFile", "saved"); ("SetSelections", "selectionsSet");
             ("RevealInTreeView", "revealed"); ("CloseFile", "closed");
             ("SplitPane", "split"); ("ClosePane", "closed")]
          /\ data r = Some (VObj ((verb, VBool false) :: rest))).
Proof.
  unfold executeTool_switch. intros H Hs.
  repeat match type of H with
    | context [String.eqb toolName ?n] =>
        destruct (String.eqb_spec toolName n) as [-> | _]
    end.
  all: cbv beta iota in H; js_inv; simpl in Hs; try discriminate Hs; subst.
  all: first
         [ left; split; [reflexivity |];
           eexists; split; [reflexivity |]; cbn [In]; tauto
         | right; split; [reflexivity |];
           eexists; eexists; split; [| reflexivity]; cbn [In]; tauto ].
Qed.

(** C1, as the code has it: when [executeTool] returns a result with
    [success: false], either the result has an [error] string and no [data],
    or it has no [error] at all and its [data] repeats the executor's [false]
    under the verb of the tool, as in [{ saved: false }] for [SaveFile].  The
    [error] is one of the five messages of the argument checks or
    ["Unknown tool: <name>"], none of them empty, or else the [switch] threw
    and the [error] is the message of the [Error] that was caught (for a
    thrown value that is no [Error], its conversion to a string). *)
Theorem executeTool_failure_envelope {W} (atom : Atom W) toolName args w r w' :
  executeTool atom toolName args w = (Returned r, w') ->
  success r = false ->
  (exists msg,
      error r = Some msg /\ data r = None /\
      ((msg <> ""
        /\ In msg ["text is required"; "path is required"; "line is required";
                   "ranges array is required";
                   "direction must be one of: left, right, up, down";
                   "Unknown tool: " ++ toolName])
       \/ exists e w0,
            executeTool_switch atom toolName args w = (Threw e, w0)
            /\ match e with
               | ErrorInst _ message => msg = message
               | Raw v => to_string_opt v = Some msg
               end))
  \/ (error r = None
      /\ exists verb rest,
          In (toolName, verb)
            [("InsertText", "inserted"); ("ReplaceSelection", "replaced");
             ("OpenFile", "opened"); ("GoToPosition", "navigated");
             ("SaveFile", "saved"); ("SetSelections", "selectionsSet");
             ("RevealInTreeView", "revealed"); ("CloseFile", "closed");
             ("SplitPane", "split"); ("ClosePane", "closed")]
          /\ data r = Some (VObj ((verb, VBool false) :: rest))).
Proof.
  intros H Hs.
  destruct (executeTool_cases atom toolName args w r w' H)
    as [Hsw | (e & w0 & msg & Hsw & Hmsg & ->)].
  - destruct (executeTool_switch_failure atom toolName args w r w' Hsw Hs)
      as [(Hd & msg & He & Hin) | Hf].
    + left. exists msg. split; [exact He | split; [exact Hd |]].
      left. split; [| exact Hin].
      cbn [In] in Hin.
      repeat (destruct Hin as [<- | Hin]; [discriminate |]).
      contradiction.
    + right. exact Hf.
  - left. exists msg. split; [reflexivity | split; [reflexivity |]].
    right. exists e, w0. split; [exact Hsw |].
    destruct e as [n m | v]; cbn [caught_message] in Hmsg.
    + apply ret_returned in Hmsg. destruct Hmsg as [-> _]. reflexivity.
    + unfold to_string in Hmsg. destruct (to_string_opt v) as [text |];
        [| discriminate Hmsg].
      apply ret_returned in Hmsg. destruct Hmsg as [-> _]. reflexivity.
Qed.

Lemma executeTool_failure_envelope_witness :
  let r := {| success := false;
              data := Some (VObj [("saved", VBool false)]);
              error := None |} in
  let thrown := {| success := false; data := None; error := Some "disk full" |} in
  executeTool (demo_atom false) "SaveFile" (VObj []) "" = (Returned r, "")
  /\ (error r = None
      /\ exists verb rest,
          In ("SaveFile", verb)
            [("InsertText", "inserted"); ("ReplaceSelection", "replaced");
             ("OpenFile", "opened"); ("GoToPosition", "navigated");
             ("SaveFile", "saved"); ("SetSelections", "selectionsSet");
             ("RevealInTreeView", "revealed"); ("CloseFile", "closed");
             ("SplitPane", "split"); ("ClosePane", "closed")]
          /\ data r = Some (VObj ((verb, VBool false) :: rest)))
  /\ executeTool (failing_atom (new_Error "disk full")) "InsertText"
       (VObj [("text", VStr "hi")]) ""
     = (Returned thrown, "")
  /\ exists msg,
      error thrown = Some msg /\ data thrown = None
      /\ exists e w0,
          executeTool_switch (failing_atom (new_Error "disk full")) "InsertText"
            (VObj [("text", VStr "hi")]) "" = (Threw e, w0)
          /\ e = new_Error msg.
Proof.
  intros r thrown.
  split; [reflexivity | split; [| split; [reflexivity |]]].
  - destruct (executeTool_failure_envelope (demo_atom false) "SaveFile" (VObj []) ""
                r "" eq_refl eq_refl) as [(msg & He & _) | Hf].
    + discriminate He.
    + exact Hf.
  - destruct (executeTool_failure_envelope (failing_atom (new_Error "disk full"))
                "InsertText" (VObj [("text", VStr "hi")]) "" thrown ""
                eq_refl eq_refl) as [(msg & He & Hd & Hwhy) | [Hn _]].
    + exists msg. split; [exact He | split; [exact Hd |]].
      injection He as <-.
      exists (new_Error "disk full"), "". split; reflexivity.
    + discriminate Hn.
Defined.

(** C1 as stated fails: saving with no editor open gives [success: false]
    and no [error] at all. *)
Lemma save_without_editor_has_no_error :
  executeTool (demo_atom false) "SaveFile" (VObj []) ""
  = (Returned {| success := false;
                 data := Some (VObj [("saved", VBool false)]);
                 error := None |}, "")
  /\ ~ (forall toolName args w r w',
          executeTool (demo_atom false) toolName args w = (Returned r, w') ->
          success r = false ->
          exists msg, error r = Some msg /\ msg <> "").
Proof.
  split; [reflexivity |].
  intros Hall.
  destruct (Hall "SaveFile" (VObj []) "" _ _ eq_refl eq_refl) as (msg & He & _).
  discriminate He.
Qed.

(** The two executors of [InsertText] agree on a string [text], and return
    [false] when no editor is open. *)
Lemma insertText_variants_agree {W} (atom : Atom W) args text w :
  nullish args = false ->
  field args "text" = VStr text ->
  toolImpls.insertText atom args w = insertText atom text w
  /\ (forall w',
        getActiveTextEditor atom w = (Returned None, w') ->
        insertText atom text w = (Returned false, w')).
Proof.
  intros Hn Ht. split.
  - unfold toolImpls.insertText, insertText, bind, get_prop.
    rewrite Hn. simpl. rewrite Ht. reflexivity.
  - intros w' Ha. unfold insertText, bind. rewrite Ha. reflexivity.
Qed.

(** C3, as the code has it: [success] repeats the executor's boolean.  For
    each of the ten tools whose executor returns a boolean, when the
    arguments pass the tool's check and the executor returns [b], the result
    is [{ success: b, data: { <verb>: b } }] with no [error] (with [count]
    and [direction] beside the verb for [SetSelections] and [SplitPane]): an
    executor's [false] gives [success: false].  And a result read back: one
    whose [data] carries a boolean first has that boolean as [success], and
    no [error]. *)
Theorem executor_false_is_reported_as_failure {W} (atom : Atom W) :
  (forall args w b w',
      nullish args = false ->
      let reports verb more :=
        (Returned {| success := b;
                     data := Some (VObj ((verb, VBool b) :: more));
                     error := None |}, w') in
      (forall text,
          field args "text" = VStr text ->
          (insertText atom text w = (Returned b, w') ->
           executeTool atom "InsertText" args w = reports "inserted" [])
          /\ (replaceSelection atom text w = (Returned b, w') ->
              executeTool atom "ReplaceSelection" args w = reports "replaced" []))
      /\ (forall path,
            field args "path" = VStr path ->
            (openFile atom path (field args "line") (field args "column") w
             = (Returned b, w') ->
             executeTool atom "OpenFile" args w = reports "opened" [])
            /\ (revealInTreeView atom path w = (Returned b, w') ->
                executeTool atom "RevealInTreeView" args w = reports "revealed" []))
      /\ (is_number (field args "line") = true ->
          goToPosition atom (field args "line") (field args "column") w
          = (Returned b, w') ->
          executeTool atom "GoToPosition" args w = reports "navigated" [])
      /\ (saveFile atom (field args "path") w = (Returned b, w') ->
          executeTool atom "SaveFile" args w = reports "saved" [])
      /\ (forall r rs,
            field args "ranges" = VArr (r :: rs) ->
            setSelections atom (r :: rs) w = (Returned b, w') ->
            executeTool atom "SetSelections" args w
            = reports "selectionsSet"
                [("count", VNum (Z.of_nat (List.length (r :: rs))))])
      /\ (closeFile atom (field args "path") (field args "save") w = (Returned b, w') ->
          executeTool atom "CloseFile" args w = reports "closed" [])
      /\ (includes ["left"; "right"; "up"; "down"] (field args "direction") = true ->
          splitPane atom (field args "direction") (field args "path") w
          = (Returned b, w') ->
          executeTool atom "SplitPane" args w
          = reports "split" [("direction", field args "direction")])
      /\ (closePane atom (field args "saveAll") w = (Returned b, w') ->
          executeTool atom "ClosePane" args w = reports "closed" []))
  /\
  (forall toolName args w r w' verb b rest,
      executeTool atom toolName args w = (Returned r, w') ->
      data r = Some (VObj ((verb, VBool b) :: rest)) ->
      success r = b /\ error r = None).
Proof.
  split.
  - intros args w b w' Hn reports.
    assert (Hget : forall k, get_prop (S := W) args k = ret (field args k)).
    { intros k. unfold get_prop. rewrite Hn. reflexivity. }
    unfold executeTool, executeTool_switch.
    cbn [String.eqb Ascii.eqb Bool.eqb].
    split; [| split; [| split; [| split; [| split; [| split; [| split]]]]]].
    + intros text Ht. split; intros H;
        rewrite Hget; unfold try_catch, bind, ret; rewrite Ht, H; reflexivity.
    + intros path Hp. split; intros H.
      * rewrite !Hget. unfold try_catch, bind, ret. rewrite Hp, H. reflexivity.
      * rewrite Hget. unfold try_catch, bind, ret. rewrite Hp, H. reflexivity.
    + intros Hl H. rewrite !Hget. unfold try_catch, bind, ret. rewrite Hl, H.
      reflexivity.
    + intros H. rewrite Hget. unfold try_catch, bind, ret. rewrite H. reflexivity.
    + intros r rs Hr H. rewrite Hget. unfold try_catch, bind, ret. rewrite Hr, H.
      reflexivity.
    + intros H. rewrite !Hget. unfold try_catch, bind, ret. rewrite H. reflexivity.
    + intros Hd H. rewrite !Hget. unfold try_catch, bind, ret. rewrite Hd, H.
      reflexivity.
    + intros H. rewrite Hget. unfold try_catch, bind, ret. rewrite H. reflexivity.
  - intros toolName args w r w' verb b rest H Hd.
    destruct (executeTool_cases atom toolName args w r w' H)
      as [Hsw | (e & w0 & msg & _ & _ & ->)].
    + exact (executeTool_switch_mirror atom toolName args w r w' verb b rest Hsw Hd).
    + discriminate Hd.
Qed.

Lemma executor_false_is_reported_as_failure_witness :
  let no_editor r := (Returned {| success := false; data := Some r; error := None |}, "") in
  insertText (demo_atom false) "hi" "" = (Returned false, "")
  /\ executeTool (demo_atom false) "InsertText" (VObj [("text", VStr "hi")]) ""
     = no_editor (VObj [("inserted", VBool false)])
  /\ saveFile (demo_atom false) VUndefined "" = (Returned false, "")
  /\ executeTool (demo_atom false) "SaveFile" (VObj []) ""
     = no_editor (VObj [("saved", VBool false)])
  /\ executeTool (demo_atom false) "SetSelections"
       (VObj [("ranges", VArr [VObj []])]) ""
     = no_editor (VObj [("selectionsSet", VBool false); ("count", VNum 1)]).
Proof.
  intros no_editor.
  split; [reflexivity | split; [| split; [reflexivity | split]]].
  - exact (proj1 (proj1 (proj1 (executor_false_is_reported_as_failure (demo_atom false))
                           (VObj [("text", VStr "hi")]) "" false "" eq_refl)
                    "hi" eq_refl) eq_refl).
  - exact (proj1 (proj2 (proj2 (proj2 (proj1 (executor_false_is_reported_as_failure
                                                (demo_atom false))
                                         (VObj []) "" false "" eq_refl))))
             eq_refl).
  - exact (proj1 (proj2 (proj2 (proj2 (proj2
             (proj1 (executor_false_is_reported_as_failure (demo_atom false))
                (VObj [("ranges", VArr [VObj []])]) "" false "" eq_refl)))))
             (VObj []) [] eq_refl eq_refl).
Defined.

(** C3 as stated fails: [InsertText] with [text: "hi"] and no editor open.
    The executor returns [false], and the result has [success: false], not
    [success: true]. *)
Lemma insert_without_editor_is_not_success :
  insertText (demo_atom false) "hi" "" = (Returned false, "")
  /\ exists r,
      executeTool (demo_atom false) "InsertText" (VObj [("text", VStr "hi")]) ""
      = (Returned r, "")
      /\ success r = false
      /\ success r <> true.
Proof.
  split; [reflexivity |].
  eexists. split; [reflexivity |]. split; [reflexivity | discriminate].
Qed.

(** ** The bridge: the request listener *)

Section ListenerFacts.

Context {W : Type}.
Variable atom : Atom W.
Variable JSON_parse : string -> option JsVal.
Variable JSON_stringify : JsVal -> option string.
Variable Date_now : JS W Z.

Local Abbreviation handle := (handle_http atom JSON_parse JSON_stringify Date_now).
Local Abbreviation reply := (sendJson (W := W) JSON_stringify).

(** What the listener does with the arguments of a tool call. *)
Local Abbreviation answer toolName args :=
  (try_catch
     (result <- executeTool atom toolName args ;;
      if success result then reply (result_to_js result) 200
      else reply (result_to_js result) 400)
     (fun e => message <- caught_message e ;;
               reply (VObj [("error", VStr message)]) 500)).

Lemma handle_http_post req toolName :
  req_method req = "POST" ->
  tool_route (req_pathname req) = Some toolName ->
  handle req
  = try_catch
      (args <- parseBody JSON_parse req ;;
       result <- executeTool atom toolName args ;;
       if success result then reply (result_to_js result) 200
       else reply (result_to_js result) 400)
      (fun e => message <- caught_message e ;;
                reply (VObj [("error", VStr message)]) 500).
Proof.
  intros Hm Hr. unfold handle_http. rewrite Hm, Hr. reflexivity.
Qed.

Lemma handle_http_parsed req toolName args w :
  req_method req = "POST" ->
  tool_route (req_pathname req) = Some toolName ->
  parseBody (W := W) JSON_parse req w = (Returned args, w) ->
  handle req w = answer toolName args w.
Proof.
  intros Hm Hr Hp. rewrite (handle_http_post req toolName Hm Hr).
  unfold try_catch, bind. rewrite Hp. reflexivity.
Qed.

Lemma parseBody_empty req w :
  req_body req = "" -> parseBody (W := W) JSON_parse req w = (Returned (VObj []), w).
Proof. intros H. unfold parseBody. rewrite H. reflexivity. Qed.

Lemma parseBody_value req args w :
  req_body req <> "" -> JSON_parse (req_body req) = Some args ->
  parseBody (W := W) JSON_parse req w = (Returned args, w).
Proof.
  intros Hne Hp. unfold parseBody.
  destruct (String.eqb_spec (req_body req) ""); [contradiction |].
  rewrite Hp. reflexivity.
Qed.

Lemma parseBody_malformed req w :
  req_body req <> "" -> JSON_parse (req_body req) = None ->
  parseBody (W := W) JSON_parse req w = (Threw (new_Error "Invalid JSON body"), w).
Proof.
  intros Hne Hp. unfold parseBody.
  destruct (String.eqb_spec (req_body req) ""); [contradiction |].
  rewrite Hp. reflexivity.
Qed.

(** C5, as the code has it: on the tool route, an empty body is handled as
    the empty argument object (the answer is that of [executeTool] on [{}],
    the same as for a body that parses to [{}]), and a body that [JSON.parse]
    rejects is answered with status 500 and [{ error: "Invalid JSON body" }]. *)
Theorem post_body_empty_or_malformed req toolName w :
  req_method req = "POST" ->
  tool_route (req_pathname req) = Some toolName ->
  (req_body req = "" -> handle req w = answer toolName (VObj []) w)
  /\
  (req_body req = "" ->
   forall req',
     req_method req' = "POST" ->
     req_pathname req' = req_pathname req ->
     req_body req' <> "" ->
     JSON_parse (req_body req') = Some (VObj []) ->
     handle req w = handle req' w)
  /\
  (req_body req <> "" -> JSON_parse (req_body req) = None ->
   handle req w
   = (Returned {| status := 500;
                  headers := json_headers;
                  body := JSON_stringify (VObj [("error", VStr "Invalid JSON body")]) |},
      w)).
Proof.
  intros Hm Hr.
  assert (Hempty : req_body req = "" -> handle req w = answer toolName (VObj []) w).
  { intros Hb. apply (handle_http_parsed req toolName (VObj []) w Hm Hr).
    apply parseBody_empty. exact Hb. }
  split; [exact Hempty | split].
  - intros Hb req' Hm' Hpath Hne Hp. rewrite (Hempty Hb). symmetry.
    apply (handle_http_parsed req' toolName (VObj []) w Hm').
    + rewrite Hpath. exact Hr.
    + apply parseBody_value; assumption.
  - intros Hne Hp. rewrite (handle_http_post req toolName Hm Hr).
    unfold try_catch, bind.
    rewrite (parseBody_malformed req w Hne Hp). reflexivity.
Qed.

(** A tool name without a [case], on the tool route, with a body that is
    empty or parses: status 400 and the unknown-tool envelope. *)
Lemma handle_http_unknown req toolName args w :
  ~ In toolName executable_names ->
  req_method req = "POST" ->
  tool_route (req_pathname req) = Some toolName ->
  parseBody (W := W) JSON_parse req w = (Returned args, w) ->
  handle req w
  = (Returned {| status := 400;
                 headers := json_headers;
                 body := JSON_stringify
                           (result_to_js (failed ("Unknown tool: " ++ toolName))) |},
     w).
Proof.
  intros Hn Hm Hr Hp.
  rewrite (handle_http_parsed req toolName args w Hm Hr Hp).
  unfold try_catch, bind. rewrite (executeTool_unknown atom toolName args w Hn).
  reflexivity.
Qed.

End ListenerFacts.

Lemma post_body_empty_or_malformed_witness :
  let empty := {| req_method := "POST"; req_pathname := "/tools/SaveFile";
                  req_body := "" |} in
  let braces := {| req_method := "POST"; req_pathname := "/tools/SaveFile";
                   req_body := "{}" |} in
  let broken := {| req_method := "POST"; req_pathname := "/tools/SaveFile";
                   req_body := "{" |} in
  let run := handle_http (demo_atom false) Json.parse Json.stringify (fixed_clock 0) in
  tool_route "/tools/SaveFile" = Some "SaveFile"
  /\ Json.parse "{}" = Some (VObj [])
  /\ Json.parse "{" = None
  /\ response_status (fst (run empty "")) = Some 400
  /\ run empty "" = run braces ""
  /\ response_status (fst (run broken "")) = Some 500.
Proof.
  intros empty braces broken run.
  split; [reflexivity | split; [reflexivity | split; [reflexivity |]]].
  pose proof (post_body_empty_or_malformed (demo_atom false) Json.parse
                Json.stringify (fixed_clock 0) empty "SaveFile" ""
                eq_refl eq_refl) as (Hdirect & Hsame & _).
  pose proof (post_body_empty_or_malformed (demo_atom false) Json.parse
                Json.stringify (fixed_clock 0) broken "SaveFile" ""
                eq_refl eq_refl) as (_ & _ & Hbroken).
  split; [| split].
  - unfold run. rewrite (Hdirect eq_refl). reflexivity.
  - exact (Hsame eq_refl braces eq_refl eq_refl ltac:(discriminate) eq_refl).
  - unfold run. rewrite (Hbroken ltac:(discriminate) eq_refl). reflexivity.
Defined.

(** C5 as stated fails: a tool call whose body is the single character [{],
    which is not valid JSON, is answered with status 500, not with a 4xx
    status. *)
Lemma malformed_body_is_answered_500 :
  Json.parse "{" = None
  /\ exists r,
      handle_http (demo_atom false) Json.parse Json.stringify (fixed_clock 0)
        {| req_method := "POST"; req_pathname := "/tools/InsertText";
           req_body := "{" |} ""
      = (Returned r, "")
      /\ status r = 500
      /\ ~ (400 <= status r <= 499).
Proof.
  split; [reflexivity |].
  eexists. split; [reflexivity |]. split; [reflexivity |].
  simpl. lia.
Qed.

(** ** The stdio server *)

Section StdioFacts.

Variable PULSAR_BRIDGE_PORT : option string.
Variable PULSAR_BRIDGE_HOST : option string.
Variable JSON_parse : string -> option JsVal.
Variable SyntaxError_message : string -> string.
Variable JSON_stringify : JsVal -> option string.
Variable JSON_stringify_2 : JsVal -> option string.
Variable network : list HttpCall -> HttpCall -> FetchResult.

Local Abbreviation line_listener :=
  (on_line PULSAR_BRIDGE_PORT PULSAR_BRIDGE_HOST JSON_parse SyntaxError_message
     JSON_stringify JSON_stringify_2 network).
Local Abbreviation server :=
  (serve PULSAR_BRIDGE_PORT PULSAR_BRIDGE_HOST JSON_parse SyntaxError_message
     JSON_stringify JSON_stringify_2 network).
Local Abbreviation handler :=
  (handleRequest PULSAR_BRIDGE_PORT PULSAR_BRIDGE_HOST JSON_parse SyntaxError_message
     JSON_stringify JSON_stringify_2 network).
Local Abbreviation call_bridge :=
  (callBridge PULSAR_BRIDGE_PORT PULSAR_BRIDGE_HOST JSON_parse SyntaxError_message
     JSON_stringify network).
Local Abbreviation check_bridge :=
  (checkBridge PULSAR_BRIDGE_PORT PULSAR_BRIDGE_HOST network).
Local Abbreviation probe := (health_probe PULSAR_BRIDGE_PORT PULSAR_BRIDGE_HOST).
Local Abbreviation post :=
  (tool_post PULSAR_BRIDGE_PORT PULSAR_BRIDGE_HOST JSON_stringify).
Local Abbreviation written := (serialized JSON_stringify).
Local Abbreviation emit := (send JSON_stringify).
Local Abbreviation unavailable :=
  (bridge_unavailable_message PULSAR_BRIDGE_PORT PULSAR_BRIDGE_HOST).

(** The state after one more line on standard output. *)
Local Abbreviation answered s msg :=
  {| stdout := stdout s ++ [written msg]; fetched := fetched s |}.

(** The [catch] block of the listener. *)
Local Abbreviation on_failure id :=
  (fun e =>
     code <- thrown_prop e "code" ;;
     message <- thrown_prop e "message" ;;
     message' <- (if truthy message then ret message
                  else text <- thrown_to_string e ;; ret (VStr text)) ;;
     emit (rpc_error id (js_or code (VNum (-32603))) message')).

(** The part of [handleRequest] for [tools/call] after the health check. *)
Local Abbreviation after_probe params :=
  (fun bridgeAvailable : bool =>
     if negb bridgeAvailable then
       throw (rpc_failure (-32603) unavailable)
     else
       match find_tool (field params "name") with
       | None =>
           name_text <- to_string (field params "name") ;;
           throw (rpc_failure (-32601) ("Unknown tool: " ++ name_text))
       | Some _ =>
           result <- call_bridge (field params "name")
                       (js_or (field params "arguments") (VObj [])) ;;
           ret (VObj [("content",
                       VArr [VObj [("type", VStr "text");
                                   ("text", match JSON_stringify_2 result with
                                            | Some s => VStr s
                                            | None => VUndefined
                                            end)]])])
       end).

Lemma checkBridge_run s :
  check_bridge s
  = (Returned (probe_ok PULSAR_BRIDGE_PORT PULSAR_BRIDGE_HOST network (fetched s)),
     {| stdout := stdout s; fetched := fetched s ++ [probe] |}).
Proof.
  unfold checkBridge, try_catch, bind, fetch, probe_ok.
  destruct (network (fetched s) probe); reflexivity.
Qed.

Lemma probe_ok_answered s :
  (exists status body,
      network (fetched s) probe = Resp status body /\ 200 <= status <= 299) ->
  probe_ok PULSAR_BRIDGE_PORT PULSAR_BRIDGE_HOST network (fetched s) = true.
Proof.
  intros (status & body & H & Hs). unfold probe_ok. rewrite H.
  apply andb_true_iff. split; apply Z.leb_le; lia.
Qed.

Lemma probe_ok_failed s :
  (forall status body,
      network (fetched s) probe = Resp status body -> ~ (200 <= status <= 299)) ->
  probe_ok PULSAR_BRIDGE_PORT PULSAR_BRIDGE_HOST network (fetched s) = false.
Proof.
  intros H. unfold probe_ok.
  destruct (network (fetched s) probe) as [name message | status body];
    [reflexivity |].
  destruct ((200 <=? status) && (status <=? 299)) eqn:E; [| reflexivity].
  exfalso. apply (H status body eq_refl).
  apply andb_true_iff in E. destruct E as [E1 E2].
  apply Z.leb_le in E1. apply Z.leb_le in E2. lia.
Qed.

Lemma has_id_not_nullish req :
  field req "id" <> VUndefined -> nullish req = false.
Proof.
  intros H. destruct (nullish req) eqn:E; [| reflexivity].
  exfalso. apply H. apply field_nullish. exact E.
Qed.

Lemma on_line_request line req s :
  JSON_parse line = Some req ->
  field req "id" <> VUndefined ->
  line_listener line s
  = try_catch
      (result <- handler req ;; emit (rpc_result (field req "id") result))
      (on_failure (field req "id")) s.
Proof.
  intros Hp Hid. unfold on_line. rewrite Hp.
  rewrite (bind_step _ _ s (field req "id") s
             (get_prop_value req "id" s (has_id_not_nullish req Hid))).
  destruct (field req "id"); [contradiction | reflexivity ..].
Qed.

Lemma handleRequest_tools_call req s :
  nullish req = false ->
  field req "method" = VStr "tools/call" ->
  nullish (field req "params") = false ->
  handler req s = (bridgeAvailable <- check_bridge ;;
                   after_probe (field req "params") bridgeAvailable) s.
Proof.
  intros Hr Hm Hp. unfold handleRequest, destructure, get_prop, bind, ret.
  rewrite Hr. cbv beta iota. rewrite Hm.
  change (strict_eq_str (VStr "tools/call") "initialize") with false.
  change (strict_eq_str (VStr "tools/call") "tools/list") with false.
  change (strict_eq_str (VStr "tools/call") "tools/call") with true.
  cbv beta iota. rewrite Hp. reflexivity.
Qed.

(** A [tools/call] request with an id and with params: the listener probes the
    bridge, then runs the rest of the request. *)
Lemma tools_call_run line req s :
  JSON_parse line = Some req ->
  field req "id" <> VUndefined ->
  field req "method" = VStr "tools/call" ->
  nullish (field req "params") = false ->
  line_listener line s
  = try_catch
      (result <- after_probe (field req "params")
                   (probe_ok PULSAR_BRIDGE_PORT PULSAR_BRIDGE_HOST network (fetched s)) ;;
       emit (rpc_result (field req "id") result))
      (on_failure (field req "id"))
      {| stdout := stdout s; fetched := fetched s ++ [probe] |}.
Proof.
  intros Hp Hid Hm Hpa.
  rewrite (on_line_request line req s Hp Hid).
  unfold try_catch at 1. unfold bind at 1.
  rewrite (handleRequest_tools_call req s (has_id_not_nullish req Hid) Hm Hpa).
  unfold bind at 1. rewrite checkBridge_run. reflexivity.
Qed.

(** *** Which requests a computation sends *)

Lemma extends_ret {A} (a : A) : extends_log (ret a).
Proof. intros s. exists []. simpl. rewrite app_nil_r. reflexivity. Qed.

Lemma extends_throw {A} (e : Thrown) : extends_log (throw (A := A) e).
Proof. intros s. exists []. simpl. rewrite app_nil_r. reflexivity. Qed.

Lemma extends_bind {A B} (m : JS Stdio A) (k : A -> JS Stdio B) :
  extends_log m -> (forall a, extends_log (k a)) -> extends_log (bind m k).
Proof.
  intros Hm Hk s. unfold bind. destruct (Hm s) as [more1 H1].
  destruct (m s) as [[a | e] s1]; simpl in H1.
  - destruct (Hk a s1) as [more2 H2]. exists (more1 ++ more2)%list.
    rewrite H2, H1, app_assoc. reflexivity.
  - exists more1. exact H1.
Qed.

Lemma extends_try_catch {A} (m : JS Stdio A) (h : Thrown -> JS Stdio A) :
  extends_log m -> (forall e, extends_log (h e)) -> extends_log (try_catch m h).
Proof.
  intros Hm Hh s. unfold try_catch. destruct (Hm s) as [more1 H1].
  destruct (m s) as [[a | e] s1]; simpl in H1.
  - exists more1. exact H1.
  - destruct (Hh e s1) as [more2 H2]. exists (more1 ++ more2)%list.
    rewrite H2, H1, app_assoc. reflexivity.
Qed.

Lemma extends_get_prop v k : extends_log (get_prop v k).
Proof.
  unfold get_prop. destruct (nullish v); [apply extends_throw | apply extends_ret].
Qed.

Lemma extends_to_string v : extends_log (to_string v).
Proof.
  unfold to_string. destruct (to_string_opt v); [apply extends_ret | apply extends_throw].
Qed.

Lemma extends_fetch c : extends_log (fetch network c).
Proof.
  intros s. exists [c]. unfold fetch. destruct (network (fetched s) c); reflexivity.
Qed.

Lemma extends_send msg : extends_log (emit msg).
Proof. intros s. exists []. simpl. rewrite app_nil_r. reflexivity. Qed.

Lemma extends_json r : extends_log (json JSON_parse SyntaxError_message r).
Proof.
  unfold json. destruct (JSON_parse (resp_text r)); [apply extends_ret | apply extends_throw].
Qed.

Lemma extends_callBridge toolName args : extends_log (call_bridge toolName args).
Proof.
  unfold callBridge.
  apply extends_bind; [apply extends_to_string | intros tool_text].
  apply extends_bind; [apply extends_fetch | intros response].
  apply extends_bind; [apply extends_json | intros result].
  apply extends_bind.
  - destruct (negb (ok response)); [apply extends_ret |].
    apply extends_bind; [apply extends_get_prop | intros; apply extends_ret].
  - intros [|]; [| apply extends_get_prop].
    apply extends_bind; [apply extends_get_prop | intros error].
    apply extends_bind; [apply extends_to_string | intros; apply extends_throw].
Qed.

Lemma extends_on_failure id e : extends_log (on_failure id e).
Proof.
  assert (Hprop : forall k, extends_log (thrown_prop (S := Stdio) e k)).
  { intros k. destruct e; [apply extends_ret | apply extends_get_prop]. }
  apply extends_bind; [apply Hprop | intros code].
  apply extends_bind; [apply Hprop | intros message].
  apply extends_bind; [| intros; apply extends_send].
  destruct (truthy message); [apply extends_ret |].
  apply extends_bind; [| intros; apply extends_ret].
  destruct e; [apply extends_ret | apply extends_to_string].
Qed.

Lemma extends_after_probe params b : extends_log (after_probe params b).
Proof.
  destruct b; simpl negb; cbv iota; [| apply extends_throw].
  destruct (find_tool (field params "name")).
  - apply extends_bind; [apply extends_callBridge | intros; apply extends_ret].
  - apply extends_bind; [apply extends_to_string | intros; apply extends_throw].
Qed.

(** *** What the request handler can do *)

Lemma tame_ret {A} (a : A) : tame (ret a).
Proof.
  intros s. split.
  - exists []. simpl. rewrite app_nil_r. destruct s; reflexivity.
  - intros e H. discriminate H.
Qed.

Lemma tame_throw {A} (e : Thrown) : well_formed_failure e -> tame (throw (A := A) e).
Proof.
  intros He s. split.
  - exists []. simpl. rewrite app_nil_r. destruct s; reflexivity.
  - intros e' H. simpl in H. injection H as <-. exact He.
Qed.

Lemma tame_bind {A B} (m : JS Stdio A) (k : A -> JS Stdio B) :
  tame m -> (forall a, tame (k a)) -> tame (bind m k).
Proof.
  intros Hm Hk s. unfold bind.
  destruct (Hm s) as [[more1 H1] He1].
  destruct (m s) as [[a | e] s1]; simpl in H1, He1.
  - destruct (Hk a s1) as [[more2 H2] He2]. split.
    + exists (more1 ++ more2)%list. rewrite H2, H1. simpl.
      rewrite app_assoc. reflexivity.
    + exact He2.
  - split.
    + exists more1. exact H1.
    + intros e0 H. simpl in H. injection H as <-. exact (He1 e eq_refl).
Qed.

Lemma tame_try_catch {A} (m : JS Stdio A) (h : Thrown -> JS Stdio A) :
  tame m -> (forall e, tame (h e)) -> tame (try_catch m h).
Proof.
  intros Hm Hh s. unfold try_catch.
  destruct (Hm s) as [[more1 H1] He1].
  destruct (m s) as [[a | e] s1]; simpl in H1, He1.
  - split.
    + exists more1. exact H1.
    + intros e H. discriminate H.
  - destruct (Hh e s1) as [[more2 H2] He2]. split.
    + exists (more1 ++ more2)%list. rewrite H2, H1. simpl.
      rewrite app_assoc. reflexivity.
    + exact He2.
Qed.

Lemma tame_get_prop v k : tame (get_prop v k).
Proof.
  unfold get_prop. destruct (nullish v); [apply tame_throw; exact I | apply tame_ret].
Qed.

Lemma tame_to_string v : tame (to_string v).
Proof.
  unfold to_string.
  destruct (to_string_opt v); [apply tame_ret | apply tame_throw; exact I].
Qed.

Lemma tame_destructure v first variable : tame (destructure v first variable).
Proof.
  unfold destructure. destruct (nullish v); [apply tame_throw; exact I | apply tame_ret].
Qed.

Lemma tame_fetch c : tame (fetch network c).
Proof.
  intros s. unfold fetch. destruct (network (fetched s) c); split;
    try (exists [c]; reflexivity); simpl; intros e' H;
    [injection H as <-; exact I | discriminate H].
Qed.

Lemma tame_json r : tame (json JSON_parse SyntaxError_message r).
Proof.
  unfold json.
  destruct (JSON_parse (resp_text r)); [apply tame_ret | apply tame_throw; exact I].
Qed.

Lemma tame_checkBridge : tame check_bridge.
Proof.
  apply tame_try_catch; [| intros; apply tame_ret].
  apply tame_bind; [apply tame_fetch | intros; apply tame_ret].
Qed.

Lemma tame_callBridge toolName args : tame (call_bridge toolName args).
Proof.
  unfold callBridge.
  apply tame_bind; [apply tame_to_string | intros tool_text].
  apply tame_bind; [apply tame_fetch | intros response].
  apply tame_bind; [apply tame_json | intros result].
  apply tame_bind.
  - destruct (negb (ok response)); [apply tame_ret |].
    apply tame_bind; [apply tame_get_prop | intros; apply tame_ret].
  - intros [|]; [| apply tame_get_prop].
    apply tame_bind; [apply tame_get_prop | intros error].
    apply tame_bind; [apply tame_to_string | intros; apply tame_throw; exact I].
Qed.

Lemma rpc_failure_well_formed code (prefix text : string) :
  prefix <> "" -> well_formed_failure (rpc_failure code (prefix ++ text)).
Proof.
  intros Hp. exists code, (prefix ++ text). split; [reflexivity |].
  destruct prefix; [contradiction | discriminate].
Qed.

Lemma tame_handleRequest req : tame (handler req).
Proof.
  unfold handleRequest.
  apply tame_bind; [apply tame_destructure | intros _].
  apply tame_bind; [apply tame_get_prop | intros method].
  apply tame_bind; [apply tame_get_prop | intros params].
  destruct (strict_eq_str method "initialize"); [apply tame_ret |].
  destruct (strict_eq_str method "tools/list"); [apply tame_ret |].
  destruct (strict_eq_str method "tools/call").
  - apply tame_bind; [apply tame_destructure | intros _].
    apply tame_bind; [apply tame_get_prop | intros tool_name].
    apply tame_bind; [apply tame_get_prop | intros args].
    apply tame_bind; [apply tame_checkBridge | intros bridgeAvailable].
    destruct (negb bridgeAvailable).
    + apply tame_throw. apply rpc_failure_well_formed. discriminate.
    + destruct (find_tool tool_name).
      * apply tame_bind; [apply tame_callBridge | intros; apply tame_ret].
      * apply tame_bind; [apply tame_to_string | intros name_text].
        apply tame_throw. apply rpc_failure_well_formed. discriminate.
  - apply tame_bind; [apply tame_to_string | intros method_text].
    apply tame_throw. apply rpc_failure_well_formed. discriminate.
Qed.

(** The [catch] block answers a well-formed failure with one error line. *)
Lemma on_failure_run id e s :
  well_formed_failure e ->
  exists code message,
    on_failure id e s = (Returned tt, answered s (rpc_error id code message)).
Proof.
  intros He. destruct e as [ename emessage | v].
  - destruct (String.eqb_spec emessage "") as [-> | Hne].
    + eexists. eexists. reflexivity.
    + eexists. eexists. unfold bind, thrown_prop. simpl.
      destruct (String.eqb_spec emessage ""); [contradiction |]. reflexivity.
  - destruct He as (code & message & -> & Hne).
    eexists. eexists. unfold bind, thrown_prop, get_prop. simpl.
    destruct (String.eqb_spec message ""); [contradiction |]. reflexivity.
Qed.

(** Every line that parses to a message with an id is answered with exactly
    one line, a result or an error, and the listener returns normally. *)
Lemma request_gets_one_response line req s :
  JSON_parse line = Some req ->
  field req "id" <> VUndefined ->
  exists msg more,
    line_listener line s
    = (Returned tt,
       {| stdout := stdout s ++ [written msg]; fetched := fetched s ++ more |})
    /\ ((exists result, msg = rpc_result (field req "id") result)
        \/ (exists code message, msg = rpc_error (field req "id") code message)).
Proof.
  intros Hp Hid. rewrite (on_line_request line req s Hp Hid).
  destruct (tame_handleRequest req s) as [[more Hs] He].
  unfold try_catch, bind.
  destruct (handler req s) as [[result | e] s1]; simpl in Hs, He; subst s1.
  - exists (rpc_result (field req "id") result), more.
    split; [reflexivity |]. left. exists result. reflexivity.
  - destruct (on_failure_run (field req "id") e
                {| stdout := stdout s; fetched := fetched s ++ more |}
                (He e eq_refl)) as (code & message & Hrun).
    exists (rpc_error (field req "id") code message), more.
    unfold bind in Hrun. rewrite Hrun.
    split; [reflexivity |]. right. exists code, message. reflexivity.
Qed.

(** A [tools/list] request with an id: the one answer is the catalog, and
    nothing is requested. *)
Lemma tools_list_run line req s :
  JSON_parse line = Some req ->
  field req "id" <> VUndefined ->
  field req "method" = VStr "tools/list" ->
  line_listener line s
  = (Returned tt,
     answered s (rpc_result (field req "id") (VObj [("tools", tools_js)]))).
Proof.
  intros Hp Hid Hm. rewrite (on_line_request line req s Hp Hid).
  unfold try_catch, bind, handleRequest, destructure, get_prop, bind, ret.
  rewrite (has_id_not_nullish req Hid). cbv beta iota. rewrite Hm. reflexivity.
Qed.

(** *** Lines that are not requests *)

(** The line that [send] writes, when [JSON.stringify] gives [text]. *)
Lemma written_text msg text :
  JSON_stringify msg = Some text -> written msg = text ++ String "010" "".
Proof. intros H. unfold serialized. rewrite H. reflexivity. Qed.

(** A listener that returns leaves the rest of the lines to the server. *)
Lemma server_goes_on line s s' :
  line_listener line s = (Returned tt, s') ->
  forall rest, server (line :: rest) s = server rest s'.
Proof.
  intros Hrun rest.
  change (server (line :: rest) s)
    with (bind (line_listener line) (fun _ => server rest) s).
  rewrite (bind_step _ _ _ _ _ Hrun). reflexivity.
Qed.


(** C8: a line that parses to a message without an [id] leaves standard
    output as it was, whatever its method: nothing is written and no request
    is sent; when the message is not [null] the listener returns normally. *)
Theorem notification_gets_no_response line req s :
  JSON_parse line = Some req ->
  field req "id" = VUndefined ->
  snd (line_listener line s) = s
  /\ (nullish req = false -> line_listener line s = (Returned tt, s)).
Proof.
  intros Hp Hid. unfold on_line. rewrite Hp. unfold bind, get_prop.
  destruct (nullish req).
  - split; [reflexivity | discriminate].
  - unfold ret at 1. rewrite Hid. split; reflexivity.
Qed.

(** *** Tool calls *)

(** A [tools/call] request with an id and with params, when the probe
    fails: the one request is the probe, and the one answer is the error that
    names the bridge's address. *)
Lemma tools_call_bridge_down line req s :
  JSON_parse line = Some req ->
  field req "id" <> VUndefined ->
  field req "method" = VStr "tools/call" ->
  nullish (field req "params") = false ->
  probe_ok PULSAR_BRIDGE_PORT PULSAR_BRIDGE_HOST network (fetched s) = false ->
  line_listener line s
  = (Returned tt,
     {| stdout := stdout s
                  ++ [written (rpc_error (field req "id") (VNum (-32603))
                                 (VStr unavailable))];
        fetched := fetched s ++ [probe] |}).
Proof.
  intros Hp Hid Hm Hpa Hdown.
  rewrite (tools_call_run line req s Hp Hid Hm Hpa), Hdown. reflexivity.
Qed.

Lemma tools_call_sends_probe_first line req s :
  JSON_parse line = Some req ->
  field req "id" <> VUndefined ->
  field req "method" = VStr "tools/call" ->
  nullish (field req "params") = false ->
  exists more,
    fetched (snd (line_listener line s)) = (fetched s ++ probe :: more)%list.
Proof.
  intros Hp Hid Hm Hpa.
  rewrite (tools_call_run line req s Hp Hid Hm Hpa).
  match goal with
  | |- context [try_catch ?m ?h ?s1] =>
      assert (He : extends_log (try_catch m h))
  end.
  { apply extends_try_catch; [| intros e; apply extends_on_failure].
    apply extends_bind; [apply extends_after_probe | intros; apply extends_send]. }
  destruct (He {| stdout := stdout s; fetched := fetched s ++ [probe] |})
    as [more Hmore].
  exists more. rewrite Hmore. simpl fetched.
  rewrite <- app_assoc. reflexivity.
Qed.

(** C9, as the code has it: for a [tools/call] request with an id whose
    [params] are neither missing nor [null], the first request the listener
    sends is [GET http://<host>:<port>/health], without a body.  If that
    probe fails it is the only request, and the listener answers with exactly
    one line: the text that [JSON.stringify] gives for the error with the
    request's id, code -32603 and the message that names [http://<host>:<port>]
    and says that Pulsar must be running, and a line feed; the listener
    returns normally and the server goes on.  The probe fails when [fetch]
    rejects or the status is outside 200 to 299; the port is one that a
    double holds exactly, or [NaN]. *)
Theorem tools_call_probes_bridge_first line req s :
  JSON_parse line = Some req ->
  field req "id" <> VUndefined ->
  field req "method" = VStr "tools/call" ->
  nullish (field req "params") = false ->
  (forall p, BRIDGE_PORT PULSAR_BRIDGE_PORT = Some p -> Z.abs p < 2 ^ 53) ->
  let address := "http://" ++ BRIDGE_HOST PULSAR_BRIDGE_HOST ++ ":"
                   ++ number_text (BRIDGE_PORT PULSAR_BRIDGE_PORT) in
  let health := {| call_method := "GET";
                   call_url := address ++ "/health";
                   call_body := None |} in
  (exists more,
      fetched (snd (on_line PULSAR_BRIDGE_PORT PULSAR_BRIDGE_HOST JSON_parse
                      SyntaxError_message JSON_stringify JSON_stringify_2 network
                      line s))
      = (fetched s ++ health :: more)%list)
  /\
  ((forall status body,
       network (fetched s) health = Resp status body -> ~ (200 <= status <= 299)) ->
   forall text,
     JSON_stringify
       (VObj [("jsonrpc", VStr "2.0"); ("id", field req "id");
              ("error",
               VObj [("code", VNum (-32603));
                     ("message",
                      VStr ("Pulsar bridge not available at " ++ address
                              ++ ". Make sure Pulsar is running with the claude-chat package activated."))])])
     = Some text ->
     let s' := {| stdout := stdout s ++ [text ++ String "010" ""];
                  fetched := fetched s ++ [health] |} in
     on_line PULSAR_BRIDGE_PORT PULSAR_BRIDGE_HOST JSON_parse SyntaxError_message
       JSON_stringify JSON_stringify_2 network line s
     = (Returned tt, s')
     /\ forall rest,
         serve PULSAR_BRIDGE_PORT PULSAR_BRIDGE_HOST JSON_parse SyntaxError_message
           JSON_stringify JSON_stringify_2 network (line :: rest) s
         = serve PULSAR_BRIDGE_PORT PULSAR_BRIDGE_HOST JSON_parse
             SyntaxError_message JSON_stringify JSON_stringify_2 network rest s').
Proof.
  intros Hp Hid Hm Hpa _ address health.
  split.
  - exact (tools_call_sends_probe_first line req s Hp Hid Hm Hpa).
  - intros Hdown text Htext s'.
    assert (Hrun : line_listener line s = (Returned tt, s')).
    { rewrite (tools_call_bridge_down line req s Hp Hid Hm Hpa
                 (probe_ok_failed s Hdown)).
      assert (Hw : written (rpc_error (field req "id") (VNum (-32603))
                              (VStr unavailable))
                   = text ++ String "010" "")
        by (apply written_text; exact Htext).
      rewrite Hw. reflexivity. }
    split; [exact Hrun | exact (server_goes_on line s s' Hrun)].
Qed.

(** A name that the catalog does not list is refused without a request to
    the tool route, when the probe succeeds. *)
Lemma tools_call_unlisted line req toolName s :
  JSON_parse line = Some req ->
  field req "id" <> VUndefined ->
  field req "method" = VStr "tools/call" ->
  nullish (field req "params") = false ->
  field (field req "params") "name" = VStr toolName ->
  ~ In toolName catalog_names ->
  probe_ok PULSAR_BRIDGE_PORT PULSAR_BRIDGE_HOST network (fetched s) = true ->
  line_listener line s
  = (Returned tt,
     {| stdout := stdout s
                  ++ [written (rpc_error (field req "id") (VNum (-32601))
                                 (VStr ("Unknown tool: " ++ toolName)))];
        fetched := fetched s ++ [probe] |}).
Proof.
  intros Hp Hid Hm Hpa Hname Hnot Hup.
  rewrite (tools_call_run line req s Hp Hid Hm Hpa), Hup, Hname.
  assert (Hfind : find_tool (VStr toolName) = None).
  { unfold find_tool. destruct (find _ tools) as [t |] eqn:E; [| reflexivity].
    exfalso. apply find_some in E. destruct E as [Ht Heq]. simpl in Heq.
    apply String.eqb_eq in Heq. apply Hnot. rewrite Heq. apply in_map. exact Ht. }
  simpl negb. cbv iota. rewrite Hfind. reflexivity.
Qed.

(** A name that the catalog lists is forwarded to the tool route; when the
    bridge answers 400 with a failure envelope, its message comes back in an
    error of code -32603. *)
Lemma tools_call_forwarded line req toolName message reply_body s :
  JSON_parse line = Some req ->
  field req "id" <> VUndefined ->
  field req "method" = VStr "tools/call" ->
  nullish (field req "params") = false ->
  field (field req "params") "name" = VStr toolName ->
  In toolName catalog_names ->
  probe_ok PULSAR_BRIDGE_PORT PULSAR_BRIDGE_HOST network (fetched s) = true ->
  let sent := post toolName (js_or (field (field req "params") "arguments") (VObj [])) in
  network (fetched s ++ [probe]) sent = Resp 400 reply_body ->
  JSON_parse reply_body = Some (result_to_js (failed message)) ->
  message <> "" ->
  line_listener line s
  = (Returned tt,
     {| stdout := stdout s
                  ++ [written (rpc_error (field req "id") (VNum (-32603))
                                 (VStr message))];
        fetched := fetched s ++ [probe; sent] |}).
Proof.
  intros Hp Hid Hm Hpa Hname Hin Hup sent Hnet Hbody Hne.
  rewrite (tools_call_run line req s Hp Hid Hm Hpa), Hup, Hname.
  assert (Hfind : exists t, find_tool (VStr toolName) = Some t).
  { unfold find_tool. destruct (find _ tools) as [t |] eqn:E; [exists t; reflexivity |].
    exfalso. apply in_map_iff in Hin. destruct Hin as (t & Ht & Hin).
    pose proof (find_none _ _ E t Hin) as Hno. simpl in Hno.
    rewrite Ht, String.eqb_refl in Hno. discriminate Hno. }
  destruct Hfind as [t Hfind].
  simpl negb. cbv iota. rewrite Hfind.
  unfold try_catch, bind, callBridge, to_string. simpl to_string_opt. cbv iota.
  unfold bind, ret at 1. unfold fetch. simpl fetched. fold sent. rewrite Hnet.
  unfold json. cbn [resp_text]. rewrite Hbody.
  change (ok {| resp_status := 400; resp_text := reply_body |}) with false.
  assert (Hmsg : (message =? "")%string = false).
  { destruct (String.eqb_spec message ""); [contradiction | reflexivity]. }
  simpl. unfold js_or at 1. unfold truthy at 1. rewrite Hmsg. simpl.
  rewrite Hmsg. simpl.
  rewrite <- app_assoc. reflexivity.
Qed.

End StdioFacts.


Lemma notification_gets_no_response_witness :
  let req := example_notification "GetProjectPaths" in
  Json.parse (line_of req) = Some req
  /\ field req "id" = VUndefined
  /\ nullish req = false
  /\ example_listener example_bridge (line_of req) stdio_start
     = (Returned tt, stdio_start).
Proof.
  intros req.
  split; [reflexivity | split; [reflexivity | split; [reflexivity |]]].
  exact (proj2 (notification_gets_no_response None None Json.parse
                  Json.syntax_error_message Json.stringify Json.stringify_2
                  example_bridge (line_of req) req stdio_start eq_refl eq_refl)
           eq_refl).
Defined.

Lemma tools_call_probes_bridge_first_witness :
  let req := example_call "GetProjectPaths" in
  let probe := {| call_method := "GET";
                  call_url := "http://127.0.0.1:3000/health";
                  call_body := None |} in
  let text :=
    "{" ++ quoted "jsonrpc" ++ ":" ++ quoted "2.0" ++ "," ++ quoted "id" ++ ":1,"
      ++ quoted "error" ++ ":{" ++ quoted "code" ++ ":-32603," ++ quoted "message"
      ++ ":"
      ++ quoted "Pulsar bridge not available at http://127.0.0.1:3000. Make sure Pulsar is running with the claude-chat package activated."
      ++ "}}" in
  Json.parse (line_of req) = Some req
  /\ field req "id" <> VUndefined
  /\ field req "method" = VStr "tools/call"
  /\ nullish (field req "params") = false
  /\ probe_ok None None network_down [] = false
  /\ example_listener network_down (line_of req) stdio_start
     = (Returned tt, {| stdout := [text ++ String "010" ""]; fetched := [probe] |})
  /\ exists more,
      fetched (snd (example_listener example_bridge (line_of req) stdio_start))
      = probe :: more.
Proof.
  intros req probe text.
  assert (Hid : field req "id" <> VUndefined) by discriminate.
  assert (Hport : forall p, BRIDGE_PORT None = Some p -> Z.abs p < 2 ^ 53).
  { intros p H. injection H as <-. reflexivity. }
  split; [reflexivity | split; [exact Hid |]].
  split; [reflexivity | split; [reflexivity | split; [reflexivity |]]].
  split.
  - refine (proj1 (proj2 (tools_call_probes_bridge_first None None Json.parse
                            Json.syntax_error_message Json.stringify Json.stringify_2
                            network_down (line_of req) req stdio_start
                            eq_refl Hid eq_refl eq_refl Hport) _ text eq_refl)).
    intros status body H. discriminate H.
  - exact (proj1 (tools_call_probes_bridge_first None None Json.parse
                    Json.syntax_error_message Json.stringify Json.stringify_2
                    example_bridge (line_of req) req stdio_start
                    eq_refl Hid eq_refl eq_refl Hport)).
Defined.

(** C9 as stated fails: a [tools/call] request without [params], while
    nothing listens on the bridge's port.  The listener sends no probe at
    all, and its one answer has code -32603 with the message of the
    [TypeError], which names neither host nor port. *)
Lemma tools_call_without_params_sends_no_probe :
  let req := example_call_without_params in
  Json.parse (line_of req) = Some req
  /\ field req "method" = VStr "tools/call"
  /\ example_listener network_down (line_of req) stdio_start
     = (Returned tt,
        {| stdout :=
             [example_line
                (rpc_error (VNum 1) (VNum (-32603))
                   (VStr "Cannot destructure property 'name' of 'params' as it is undefined."))];
           fetched := [] |}).
Proof.
  intros req. split; [reflexivity | split; reflexivity].
Qed.

(** ** The catalog and the executors *)

Ltac not_listed := simpl; intuition discriminate.

(** A name without a [case], written with a capital letter and letters only:
    what the bridge answers, directly and over HTTP. *)
Lemma unknown_tool_on_the_bridge toolName :
  ~ In toolName executable_names ->
  (forall W (atom : Atom W) args w,
      executeTool atom toolName args w
      = (Returned (failed ("Unknown tool: " ++ toolName)), w))
  /\
  (forall W (atom : Atom W) JSON_parse JSON_stringify Date_now req args w,
      req_method req = "POST" ->
      tool_route (req_pathname req) = Some toolName ->
      parseBody JSON_parse req w = (Returned args, w) ->
      handle_http atom JSON_parse JSON_stringify Date_now req w
      = (Returned {| status := 400;
                     headers := json_headers;
                     body := JSON_stringify
                               (result_to_js (failed ("Unknown tool: " ++ toolName))) |},
         w)).
Proof.
  intros Hn. split.
  - intros W atom args w. apply executeTool_unknown. exact Hn.
  - intros W atom JSON_parse JSON_stringify Date_now req args w Hm Hr Hp.
    exact (handle_http_unknown atom JSON_parse JSON_stringify Date_now req toolName
             args w Hn Hm Hr Hp).
Qed.

(** The catalog is what both listings return: the result of [tools/list] and
    the payload of [GET /tools] are [{ tools }]. *)
Lemma listings_return_the_catalog :
  (forall PORT HOST JSON_parse SyntaxError_message JSON_stringify JSON_stringify_2
          network req s,
      nullish req = false ->
      field req "method" = VStr "tools/list" ->
      handleRequest PORT HOST JSON_parse SyntaxError_message JSON_stringify
        JSON_stringify_2 network req s
      = (Returned (VObj [("tools", tools_js)]), s))
  /\
  (forall W (atom : Atom W) JSON_parse JSON_stringify Date_now req w,
      req_method req = "GET" ->
      req_pathname req = "/tools" ->
      handle_http atom JSON_parse JSON_stringify Date_now req w
      = (Returned {| status := 200;
                     headers := json_headers;
                     body := JSON_stringify (VObj [("tools", tools_js)]) |}, w))
  /\ catalog_names
     = ["GetActiveEditor"; "InsertText"; "OpenFile"; "GetProjectPaths"; "SaveFile";
        "SetSelections"; "GetSelections"; "CloseFile"; "FindText"; "AddProjectPath"].
Proof.
  split; [| split; [| reflexivity]].
  - intros PORT HOST JSON_parse SyntaxError_message JSON_stringify JSON_stringify_2
           network req s Hr Hm.
    unfold handleRequest, destructure, get_prop, bind, ret.
    rewrite Hr. cbv beta iota. rewrite Hm. reflexivity.
  - intros W atom JSON_parse JSON_stringify Date_now req w Hm Hp.
    unfold handle_http. rewrite Hm, Hp. reflexivity.
Qed.

(** C4: [FindText], [AddProjectPath] and [GetSelections] are advertised: the
    [tools] array that [tools/list] answers and that [GET /tools] returns has
    ten entries, named as listed below, these three among them.
    [executeTool] has no case for them (nor has the registry of the other
    variant a key): called directly they give
    [{ success: false, error: "Unknown tool: <name>" }], and
    [POST /tools/<name>] answers 400 with that envelope; [tools/call] finds
    them in the catalog and forwards them to the bridge, and the bridge's
    answer comes back as the one line of an error with code -32603 and the
    message ["Unknown tool: <name>"]. *)
Theorem advertised_tools_without_executor toolName :
  In toolName ["FindText"; "AddProjectPath"; "GetSelections"] ->
  (exists entries,
      map (fun entry => field entry "name") entries
      = [VStr "GetActiveEditor"; VStr "InsertText"; VStr "OpenFile";
         VStr "GetProjectPaths"; VStr "SaveFile"; VStr "SetSelections";
         VStr "GetSelections"; VStr "CloseFile"; VStr "FindText";
         VStr "AddProjectPath"]
      /\ In (VStr toolName) (map (fun entry => field entry "name") entries)
      /\ (forall PORT HOST (JSON_parse : string -> option JsVal)
                 (SyntaxError_message : string -> string)
                 (JSON_stringify JSON_stringify_2 : JsVal -> option string)
                 (network : list HttpCall -> HttpCall -> FetchResult)
                 (line : string) (req : JsVal) (text : string) (s : Stdio),
            JSON_parse line = Some req ->
            field req "id" <> VUndefined ->
            field req "method" = VStr "tools/list" ->
            JSON_stringify
              (VObj [("jsonrpc", VStr "2.0"); ("id", field req "id");
                     ("result", VObj [("tools", VArr entries)])])
            = Some text ->
            on_line PORT HOST JSON_parse SyntaxError_message JSON_stringify
              JSON_stringify_2 network line s
            = (Returned tt,
               {| stdout := stdout s ++ [text ++ String "010" ""];
                  fetched := fetched s |}))
      /\ (forall W (atom : Atom W) JSON_parse JSON_stringify Date_now req w,
            req_method req = "GET" ->
            req_pathname req = "/tools" ->
            handle_http atom JSON_parse JSON_stringify Date_now req w
            = (Returned {| status := 200;
                           headers := [("Content-Type", "application/json");
                                       ("Access-Control-Allow-Origin", "*")];
                           body := JSON_stringify (VObj [("tools", VArr entries)]) |},
               w)))
  /\ In toolName catalog_names
  /\ ~ In toolName executable_names
  /\ ~ In toolName toolRegistry_names
  /\ (forall W (atom : Atom W) args w,
        executeTool atom toolName args w
        = (Returned {| success := false; data := None;
                       error := Some ("Unknown tool: " ++ toolName) |}, w))
  /\ (forall W (atom : Atom W) JSON_parse JSON_stringify Date_now req args w,
        req_method req = "POST" ->
        req_pathname req = "/tools/" ++ toolName ->
        parseBody JSON_parse req w = (Returned args, w) ->
        handle_http atom JSON_parse JSON_stringify Date_now req w
        = (Returned {| status := 400;
                       headers := [("Content-Type", "application/json");
                                   ("Access-Control-Allow-Origin", "*")];
                       body := JSON_stringify
                                 (VObj [("success", VBool false);
                                        ("error",
                                         VStr ("Unknown tool: " ++ toolName))]) |},
           w))
  /\ (forall PORT HOST (JSON_parse : string -> option JsVal)
             (SyntaxError_message : string -> string)
             (JSON_stringify JSON_stringify_2 : JsVal -> option string)
             (network : list HttpCall -> HttpCall -> FetchResult)
             (line : string) (req : JsVal) (reply_body text : string) (s : Stdio),
        JSON_parse line = Some req ->
        field req "id" <> VUndefined ->
        field req "method" = VStr "tools/call" ->
        nullish (field req "params") = false ->
        field (field req "params") "name" = VStr toolName ->
        (forall p, BRIDGE_PORT PORT = Some p -> Z.abs p < 2 ^ 53) ->
        let address := "http://" ++ BRIDGE_HOST HOST ++ ":"
                         ++ number_text (BRIDGE_PORT PORT) in
        let arguments := field (field req "params") "arguments" in
        let probe := {| call_method := "GET";
                        call_url := address ++ "/health";
                        call_body := None |} in
        (exists status body,
            network (fetched s) probe = Resp status body /\ 200 <= status <= 299) ->
        let sent := {| call_method := "POST";
                       call_url := address ++ "/tools/" ++ toolName;
                       call_body := JSON_stringify
                                      (if truthy arguments then arguments
                                       else VObj []) |} in
        network (fetched s ++ [probe])%list sent = Resp 400 reply_body ->
        JSON_parse reply_body
        = Some (VObj [("success", VBool false);
                      ("error", VStr ("Unknown tool: " ++ toolName))]) ->
        JSON_stringify
          (VObj [("jsonrpc", VStr "2.0"); ("id", field req "id");
                 ("error", VObj [("code", VNum (-32603));
                                 ("message", VStr ("Unknown tool: " ++ toolName))])])
        = Some text ->
        on_line PORT HOST JSON_parse SyntaxError_message JSON_stringify
          JSON_stringify_2 network line s
        = (Returned tt,
           {| stdout := stdout s ++ [text ++ String "010" ""];
              fetched := fetched s ++ [probe; sent] |})).
Proof.
  intros Hin.
  assert (Hfacts : In toolName catalog_names
                   /\ ~ In toolName executable_names
                   /\ ~ In toolName toolRegistry_names
                   /\ tool_route ("/tools/" ++ toolName) = Some toolName
                   /\ In (VStr toolName)
                        (map (fun entry => field entry "name") (map tool_to_js tools))).
  { destruct Hin as [<- | [<- | [<- | []]]];
      (split; [simpl; tauto |
               split; [not_listed |
                       split; [not_listed |
                               split; [reflexivity | cbn; tauto]]]]). }
  destruct Hfacts as (Hcat & Hexe & Hreg & Hroute & Hentry).
  destruct (unknown_tool_on_the_bridge toolName Hexe) as [Hdirect Hhttp].
  split; [| split; [exact Hcat | split; [exact Hexe | split; [exact Hreg |]]]].
  - exists (map tool_to_js tools).
    split; [reflexivity | split; [exact Hentry | split]].
    + intros PORT HOST JSON_parse SyntaxError_message JSON_stringify JSON_stringify_2
             network line req text s Hp Hid Hm Htext.
      rewrite (tools_list_run PORT HOST JSON_parse SyntaxError_message JSON_stringify
                 JSON_stringify_2 network line req s Hp Hid Hm).
      assert (Hw : serialized JSON_stringify
                     (rpc_result (field req "id") (VObj [("tools", tools_js)]))
                   = text ++ String "010" "")
        by (apply written_text; exact Htext).
      rewrite Hw. reflexivity.
    + intros W atom JSON_parse JSON_stringify Date_now req w Hm Hp.
      exact (proj1 (proj2 listings_return_the_catalog)
               W atom JSON_parse JSON_stringify Date_now req w Hm Hp).
  - split; [exact Hdirect | split].
    + intros W atom JSON_parse JSON_stringify Date_now req args w Hm Hpath Hp.
      apply (Hhttp W atom JSON_parse JSON_stringify Date_now req args w Hm);
        [| exact Hp].
      rewrite Hpath. exact Hroute.
    + intros PORT HOST JSON_parse SyntaxError_message JSON_stringify JSON_stringify_2
             network line req reply_body text s Hp Hid Hm Hpa Hname _
             address arguments probe Hup sent Hnet Hbody Htext.
      rewrite (tools_call_forwarded PORT HOST JSON_parse SyntaxError_message
                 JSON_stringify JSON_stringify_2 network line req toolName
                 ("Unknown tool: " ++ toolName) reply_body s Hp Hid Hm Hpa Hname Hcat
                 (probe_ok_answered PORT HOST network s Hup)
                 Hnet Hbody ltac:(discriminate)).
      assert (Hw : serialized JSON_stringify
                     (rpc_error (field req "id") (VNum (-32603))
                        (VStr ("Unknown tool: " ++ toolName)))
                   = text ++ String "010" "")
        by (apply written_text; exact Htext).
      rewrite Hw. reflexivity.
Qed.

Lemma advertised_tools_without_executor_witness :
  let req := example_call "FindText" in
  let probe := {| call_method := "GET";
                  call_url := "http://127.0.0.1:3000/health";
                  call_body := None |} in
  let sent := {| call_method := "POST";
                 call_url := "http://127.0.0.1:3000/tools/FindText";
                 call_body := Some "{}" |} in
  let text :=
    "{" ++ quoted "jsonrpc" ++ ":" ++ quoted "2.0" ++ "," ++ quoted "id" ++ ":1,"
      ++ quoted "error" ++ ":{" ++ quoted "code" ++ ":-32603," ++ quoted "message"
      ++ ":" ++ quoted "Unknown tool: FindText" ++ "}}" in
  let envelope :=
    "{" ++ quoted "success" ++ ":false," ++ quoted "error" ++ ":"
      ++ quoted "Unknown tool: FindText" ++ "}" in
  In "FindText" ["FindText"; "AddProjectPath"; "GetSelections"]
  /\ executeTool (demo_atom true) "FindText" (VObj [("pattern", VStr "x")]) ""
     = (Returned {| success := false; data := None;
                    error := Some "Unknown tool: FindText" |}, "")
  /\ handle_http (demo_atom true) Json.parse Json.stringify (fixed_clock 0)
       {| req_method := "POST"; req_pathname := "/tools/FindText";
          req_body := "{}" |} ""
     = (Returned {| status := 400;
                    headers := [("Content-Type", "application/json");
                                ("Access-Control-Allow-Origin", "*")];
                    body := Some envelope |}, "")
  /\ example_listener example_bridge (line_of req) stdio_start
     = (Returned tt,
        {| stdout := [text ++ String "010" ""]; fetched := [probe; sent] |}).
Proof.
  intros req probe sent text envelope.
  assert (Hin : In "FindText" ["FindText"; "AddProjectPath"; "GetSelections"])
    by (simpl; tauto).
  destruct (advertised_tools_without_executor "FindText" Hin)
    as (_ & _ & _ & _ & Hdirect & Hhttp & Hstdio).
  split; [exact Hin | split; [apply Hdirect | split]].
  - exact (Hhttp string (demo_atom true) Json.parse Json.stringify (fixed_clock 0)
             {| req_method := "POST"; req_pathname := "/tools/FindText";
                req_body := "{}" |} (VObj []) "" eq_refl eq_refl eq_refl).
  - assert (Hid : field req "id" <> VUndefined) by discriminate.
    refine (Hstdio None None Json.parse Json.syntax_error_message Json.stringify
              Json.stringify_2 example_bridge (line_of req) req envelope text
              stdio_start eq_refl Hid eq_refl eq_refl eq_refl _ _ eq_refl eq_refl
              eq_refl).
    + intros p H. injection H as <-. reflexivity.
    + exists 200. eexists. split; [reflexivity | lia].
Defined.

(** C6, as the code has it: for a name that [executeTool] has no case for,
    and any arguments, [executeTool] returns
    [{ success: false, error: "Unknown tool: <name>" }] and does not throw;
    [POST /tools/<name>], when the name matches the route (a capital letter,
    then letters) and the body is empty or parses, is answered with status
    400 and that envelope; and [tools/call], when the catalog does not list
    the name and the probe succeeds, sends the probe only and answers with
    exactly one line, the error with the request's id, code -32601 and
    message ["Unknown tool: <name>"].  In each case the computation returns
    normally; and whatever the name and whatever the network does, a request
    with an id is answered with exactly one line, a result or an error that
    carries the request's id, and the listener returns normally. *)
Theorem unknown_tool_is_refused toolName :
  ~ In toolName executable_names ->
  (forall W (atom : Atom W) args w,
      executeTool atom toolName args w
      = (Returned {| success := false; data := None;
                     error := Some ("Unknown tool: " ++ toolName) |}, w))
  /\
  (forall W (atom : Atom W) JSON_parse JSON_stringify Date_now req args w,
      req_method req = "POST" ->
      tool_route (req_pathname req) = Some toolName ->
      parseBody JSON_parse req w = (Returned args, w) ->
      handle_http atom JSON_parse JSON_stringify Date_now req w
      = (Returned {| status := 400;
                     headers := [("Content-Type", "application/json");
                                 ("Access-Control-Allow-Origin", "*")];
                     body := JSON_stringify
                               (VObj [("success", VBool false);
                                      ("error",
                                       VStr ("Unknown tool: " ++ toolName))]) |},
         w))
  /\
  (forall PORT HOST (JSON_parse : string -> option JsVal)
          (SyntaxError_message : string -> string)
          (JSON_stringify JSON_stringify_2 : JsVal -> option string)
          (network : list HttpCall -> HttpCall -> FetchResult)
          (line : string) (req : JsVal) (text : string) (s : Stdio),
      JSON_parse line = Some req ->
      field req "id" <> VUndefined ->
      field req "method" = VStr "tools/call" ->
      nullish (field req "params") = false ->
      field (field req "params") "name" = VStr toolName ->
      ~ In toolName catalog_names ->
      (forall p, BRIDGE_PORT PORT = Some p -> Z.abs p < 2 ^ 53) ->
      (exists status body,
          network (fetched s)
            {| call_method := "GET";
               call_url := ("http://" ++ BRIDGE_HOST HOST ++ ":"
                              ++ number_text (BRIDGE_PORT PORT)) ++ "/health";
               call_body := None |}
          = Resp status body
          /\ 200 <= status <= 299) ->
      JSON_stringify
        (VObj [("jsonrpc", VStr "2.0"); ("id", field req "id");
               ("error", VObj [("code", VNum (-32601));
                               ("message", VStr ("Unknown tool: " ++ toolName))])])
      = Some text ->
      on_line PORT HOST JSON_parse SyntaxError_message JSON_stringify
        JSON_stringify_2 network line s
      = (Returned tt,
         {| stdout := stdout s ++ [text ++ String "010" ""];
            fetched :=
              fetched s
              ++ [{| call_method := "GET";
                     call_url := ("http://" ++ BRIDGE_HOST HOST ++ ":"
                                    ++ number_text (BRIDGE_PORT PORT)) ++ "/health";
                     call_body := None |}] |}))
  /\
  (forall PORT HOST (JSON_parse : string -> option JsVal)
          (SyntaxError_message : string -> string)
          (JSON_stringify JSON_stringify_2 : JsVal -> option string)
          (network : list HttpCall -> HttpCall -> FetchResult)
          (line : string) (req : JsVal) (s : Stdio),
      JSON_parse line = Some req ->
      field req "id" <> VUndefined ->
      exists msg more,
        ((exists result,
             msg = VObj [("jsonrpc", VStr "2.0"); ("id", field req "id");
                         ("result", result)])
         \/ (exists code message,
                msg = VObj [("jsonrpc", VStr "2.0"); ("id", field req "id");
                            ("error", VObj [("code", code); ("message", message)])]))
        /\ forall text,
            JSON_stringify msg = Some text ->
            on_line PORT HOST JSON_parse SyntaxError_message JSON_stringify
              JSON_stringify_2 network line s
            = (Returned tt,
               {| stdout := stdout s ++ [text ++ String "010" ""];
                  fetched := fetched s ++ more |})).
Proof.
  intros Hn.
  destruct (unknown_tool_on_the_bridge toolName Hn) as [Hdirect Hhttp].
  split; [exact Hdirect | split; [exact Hhttp | split]].
  - intros PORT HOST JSON_parse SyntaxError_message JSON_stringify JSON_stringify_2
           network line req text s Hp Hid Hm Hpa Hname Hcat _ Hup Htext.
    rewrite (tools_call_unlisted PORT HOST JSON_parse SyntaxError_message
               JSON_stringify JSON_stringify_2 network line req toolName s
               Hp Hid Hm Hpa Hname Hcat (probe_ok_answered PORT HOST network s Hup)).
    assert (Hw : serialized JSON_stringify
                   (rpc_error (field req "id") (VNum (-32601))
                      (VStr ("Unknown tool: " ++ toolName)))
                 = text ++ String "010" "")
      by (apply written_text; exact Htext).
    rewrite Hw. reflexivity.
  - intros PORT HOST JSON_parse SyntaxError_message JSON_stringify JSON_stringify_2
           network line req s Hp Hid.
    destruct (request_gets_one_response PORT HOST JSON_parse SyntaxError_message
                JSON_stringify JSON_stringify_2 network line req s Hp Hid)
      as (msg & more & Hrun & Hshape).
    exists msg, more. split; [exact Hshape |].
    intros text Htext. rewrite Hrun.
    rewrite (written_text JSON_stringify msg text Htext). reflexivity.
Qed.

Lemma unknown_tool_is_refused_witness :
  let req := example_call "Nope" in
  let text :=
    "{" ++ quoted "jsonrpc" ++ ":" ++ quoted "2.0" ++ "," ++ quoted "id" ++ ":1,"
      ++ quoted "error" ++ ":{" ++ quoted "code" ++ ":-32601," ++ quoted "message"
      ++ ":" ++ quoted "Unknown tool: Nope" ++ "}}" in
  let envelope :=
    "{" ++ quoted "success" ++ ":false," ++ quoted "error" ++ ":"
      ++ quoted "Unknown tool: Nope" ++ "}" in
  ~ In "Nope" executable_names
  /\ ~ In "Nope" catalog_names
  /\ executeTool (demo_atom true) "Nope" (VObj []) ""
     = (Returned {| success := false; data := None;
                    error := Some "Unknown tool: Nope" |}, "")
  /\ handle_http (demo_atom true) Json.parse Json.stringify (fixed_clock 0)
       {| req_method := "POST"; req_pathname := "/tools/Nope"; req_body := "" |} ""
     = (Returned {| status := 400;
                    headers := [("Content-Type", "application/json");
                                ("Access-Control-Allow-Origin", "*")];
                    body := Some envelope |}, "")
  /\ example_listener example_bridge (line_of req) stdio_start
     = (Returned tt,
        {| stdout := [text ++ String "010" ""];
           fetched := [{| call_method := "GET";
                          call_url := "http://127.0.0.1:3000/health";
                          call_body := None |}] |}).
Proof.
  intros req text envelope.
  assert (Hexe : ~ In "Nope" executable_names) by not_listed.
  assert (Hcat : ~ In "Nope" catalog_names) by not_listed.
  destruct (unknown_tool_is_refused "Nope" Hexe) as (Hdirect & Hhttp & Hstdio & _).
  split; [exact Hexe | split; [exact Hcat | split; [apply Hdirect | split]]].
  - exact (Hhttp string (demo_atom true) Json.parse Json.stringify (fixed_clock 0)
             {| req_method := "POST"; req_pathname := "/tools/Nope";
                req_body := "" |} (VObj []) "" eq_refl eq_refl eq_refl).
  - assert (Hid : field req "id" <> VUndefined) by discriminate.
    refine (Hstdio None None Json.parse Json.syntax_error_message Json.stringify
              Json.stringify_2 example_bridge (line_of req) req text stdio_start
              eq_refl Hid eq_refl eq_refl eq_refl Hcat _ _ eq_refl).
    + intros p H. injection H as <-. reflexivity.
    + exists 200. eexists. split; [reflexivity | lia].
Defined.

(** C6 as stated fails for [FindText], a name that [executeTool] has no case
    for: [tools/call] does not refuse it locally but sends it to the bridge's
    tool route.  It fails as well for [findText]: the route does not match,
    and the answer to the POST is 404, not the unknown-tool envelope. *)
Lemma unregistered_name_is_not_refused_locally :
  ~ In "FindText" executable_names
  /\ example_listener example_bridge (line_of (example_call "FindText")) stdio_start
     = (Returned tt,
        {| stdout := [example_line (rpc_error (VNum 1) (VNum (-32603))
                                      (VStr "Unknown tool: FindText"))];
           fetched := [{| call_method := "GET";
                          call_url := "http://127.0.0.1:3000/health";
                          call_body := None |};
                       {| call_method := "POST";
                          call_url := "http://127.0.0.1:3000/tools/FindText";
                          call_body := Some "{}" |}] |})
  /\ ~ In "findText" executable_names
  /\ handle_http (demo_atom false) Json.parse Json.stringify (fixed_clock 0)
       {| req_method := "POST"; req_pathname := "/tools/findText"; req_body := "" |} ""
     = (Returned {| status := 404;
                    headers := json_headers;
                    body := Json.stringify (VObj [("error", VStr "Not found")]) |}, "").
Proof.
  split; [not_listed | split; [reflexivity | split; [not_listed | reflexivity]]].
Qed.

(** ** Starting and stopping the bridge *)

(** [startBridge] asks for the configured port once and returns that port,
    whether or not the server got it. *)
Lemma startBridge_run config s :
  let p := default_to (port config) DEFAULT_PORT in
  let h := default_to (host config) DEFAULT_HOST in
  exists b s',
    startBridge config s = (Returned b, s')
    /\ bridge_port b = p
    /\ bridge_host b = h
    /\ stop b = close_server
    /\ ports_in_use s' = ports_in_use s
    /\ listening s'
       = (if ports_in_use s p then listening s else Some (p, h))
    /\ uncaught s'
       = (if ports_in_use s p then uncaught s ++ [EADDRINUSE p h] else uncaught s)%list.
Proof.
  intros p h. unfold startBridge, bind, listen, console_log, modify, ret.
  fold p h. eexists. eexists. split; [reflexivity |].
  simpl. destruct (ports_in_use s p); simpl; repeat split; reflexivity.
Qed.

(** C2, on the code: with base port 3000 held by another socket,
    [startBridge] asks for 3000 once, the server emits the address-in-use
    error and listens on no port at all, and the handle and the console
    still say 3000; no later port is tried. *)
Theorem startBridge_on_a_taken_port :
  exists b s',
    startBridge {| port := Some 3000; host := None |} (fresh_process [3000])
    = (Returned b, s')
    /\ bridge_port b = 3000
    /\ listening s' = None
    /\ uncaught s' = [EADDRINUSE 3000 "127.0.0.1"]
    /\ console s' = ["[claude-chat] MCP bridge listening on http://127.0.0.1:3000"]
    /\ ports_in_use s' 3001 = false.
Proof.
  eexists. eexists. split; [reflexivity |].
  repeat split; reflexivity.
Qed.

(** C10, as the code has it: once the stop of a started bridge has
    completed, the server has no open handle; a second stop leaves the
    process as it is, and it does not complete: its promise rejects with the
    server-not-running error of [close], and so does [stopBridge]. *)
Theorem second_stop_rejects config s b s1 s2 :
  startBridge config s = (Returned b, s1) ->
  stop b s1 = (Returned tt, s2) ->
  listening s2 = None
  /\ stop b s2 = (Threw ERR_SERVER_NOT_RUNNING, s2)
  /\ stopBridge b s2 = (Threw ERR_SERVER_NOT_RUNNING, s2).
Proof.
  intros Hstart Hstop.
  destruct (startBridge_run config s) as (b' & s' & Hrun & _ & _ & Hclose & _).
  rewrite Hrun in Hstart. injection Hstart as <- <-.
  rewrite Hclose in *. unfold close_server in Hstop.
  destruct (listening s') eqn:E; [| discriminate Hstop].
  injection Hstop as <-.
  assert (Hagain : close_server
                     {| ports_in_use := ports_in_use s'; listening := None;
                        uncaught := uncaught s'; console := console s' |}
                   = (Threw ERR_SERVER_NOT_RUNNING,
                      {| ports_in_use := ports_in_use s'; listening := None;
                         uncaught := uncaught s'; console := console s' |}))
    by reflexivity.
  split; [reflexivity | split; [exact Hagain |]].
  unfold stopBridge. rewrite Hclose. apply bind_threw. exact Hagain.
Qed.

Lemma second_stop_rejects_witness :
  exists b s1 s2,
    startBridge {| port := None; host := None |} (fresh_process []) = (Returned b, s1)
    /\ listening s1 = Some (3000, "127.0.0.1")
    /\ stop b s1 = (Returned tt, s2)
    /\ listening s2 = None
    /\ stop b s2 = (Threw ERR_SERVER_NOT_RUNNING, s2)
    /\ stopBridge b s2 = (Threw ERR_SERVER_NOT_RUNNING, s2).
Proof.
  eexists. eexists. eexists.
  split; [reflexivity | split; [reflexivity | split; [reflexivity |]]].
  exact (second_stop_rejects {| port := None; host := None |} (fresh_process [])
           _ _ _ eq_refl eq_refl).
Defined.

(** C10 as stated fails: a bridge started on the free default port; the first
    stop completes, the second one rejects. *)
Lemma stop_twice_rejects_the_second_time :
  exists b s1 s2,
    startBridge {| port := None; host := None |} (fresh_process []) = (Returned b, s1)
    /\ stop b s1 = (Returned tt, s2)
    /\ stop b s2 = (Threw (ErrorInst "Error" "Server is not running."), s2)
    /\ stop b s2 <> (Returned tt, s2).
Proof.
  eexists. eexists. eexists.
  split; [reflexivity | split; [reflexivity | split; [reflexivity |]]].
  discriminate.
Qed.

(** ** What a computation can throw *)

Section ThrowsOnly.

Context {S : Type}.
Variable P : Thrown -> Prop.
Hypothesis P_error : forall name message, P (ErrorInst name message).

Lemma throws_only_ret {A} (a : A) : throws_only (S := S) P (ret a).
Proof. intros s e s' H. discriminate H. Qed.

Lemma throws_only_throw {A} (e : Thrown) : P e -> throws_only (S := S) (A := A) P (throw e).
Proof. intros He s e' s' H. injection H as <- _. exact He. Qed.

Lemma throws_only_bind {A B} (m : JS S A) (k : A -> JS S B) :
  throws_only P m -> (forall a, throws_only P (k a)) -> throws_only P (bind m k).
Proof.
  intros Hm Hk s e s' H. unfold bind in H.
  destruct (m s) as [[a | e0] s1] eqn:E.
  - exact (Hk a s1 e s' H).
  - injection H as <- _. exact (Hm s e0 s1 E).
Qed.

Lemma throws_only_try_catch {A} (m : JS S A) (h : Thrown -> JS S A) :
  (forall e, throws_only P (h e)) -> throws_only P (try_catch m h).
Proof.
  intros Hh s e s' H. unfold try_catch in H.
  destruct (m s) as [[a | e0] s1]; [discriminate H |].
  exact (Hh e0 s1 e s' H).
Qed.

Lemma throws_only_get_prop v k : throws_only (S := S) P (get_prop v k).
Proof.
  unfold get_prop. destruct (nullish v);
    [apply throws_only_throw; apply P_error | apply throws_only_ret].
Qed.

Lemma throws_only_to_string v : throws_only (S := S) P (to_string v).
Proof.
  unfold to_string. destruct (to_string_opt v);
    [apply throws_only_ret | apply throws_only_throw; apply P_error].
Qed.

End ThrowsOnly.

(** ** More on the stdio server *)

Section StdioMore.

Variable PULSAR_BRIDGE_PORT : option string.
Variable PULSAR_BRIDGE_HOST : option string.
Variable JSON_parse : string -> option JsVal.
Variable SyntaxError_message : string -> string.
Variable JSON_stringify : JsVal -> option string.
Variable JSON_stringify_2 : JsVal -> option string.
Variable network : list HttpCall -> HttpCall -> FetchResult.

Local Abbreviation line_listener :=
  (on_line PULSAR_BRIDGE_PORT PULSAR_BRIDGE_HOST JSON_parse SyntaxError_message
     JSON_stringify JSON_stringify_2 network).
Local Abbreviation server :=
  (serve PULSAR_BRIDGE_PORT PULSAR_BRIDGE_HOST JSON_parse SyntaxError_message
     JSON_stringify JSON_stringify_2 network).
Local Abbreviation handler :=
  (handleRequest PULSAR_BRIDGE_PORT PULSAR_BRIDGE_HOST JSON_parse SyntaxError_message
     JSON_stringify JSON_stringify_2 network).
Local Abbreviation probe := (health_probe PULSAR_BRIDGE_PORT PULSAR_BRIDGE_HOST).
Local Abbreviation post :=
  (tool_post PULSAR_BRIDGE_PORT PULSAR_BRIDGE_HOST JSON_stringify).
Local Abbreviation written := (serialized JSON_stringify).
Local Abbreviation up s :=
  (probe_ok PULSAR_BRIDGE_PORT PULSAR_BRIDGE_HOST network (fetched s)).

(** X1: a line that parses to [null] is not answered: reading its [id]
    throws outside the [try], so the listener's promise rejects with that
    [TypeError], and nothing is written or requested. *)
Theorem null_line_rejects line s :
  JSON_parse line = Some VNull ->
  on_line PULSAR_BRIDGE_PORT PULSAR_BRIDGE_HOST JSON_parse SyntaxError_message
    JSON_stringify JSON_stringify_2 network line s
  = (Threw (ErrorInst "TypeError" "Cannot read properties of null (reading 'id')"), s).
Proof.
  intros Hp. unfold on_line. rewrite Hp. reflexivity.
Qed.

Lemma strict_eq_str_other (v : JsVal) (k : string) :
  v <> VStr k -> strict_eq_str v k = false.
Proof.
  intros H. destruct v as [| | | | text | |]; try reflexivity. simpl.
  destruct (String.eqb_spec text k) as [-> | _]; [contradiction H |]; reflexivity.
Qed.

(** A request with an id whose method is not [tools/call]: the one answer,
    and nothing requested. *)
Lemma other_methods_run line req s :
  JSON_parse line = Some req ->
  field req "id" <> VUndefined ->
  strict_eq_str (field req "method") "tools/call" = false ->
  exists msg,
    line_listener line s
    = (Returned tt, {| stdout := stdout s ++ [written msg]; fetched := fetched s |})
    /\ (field req "method" = VStr "initialize" ->
        msg = rpc_result (field req "id")
                (VObj [("protocolVersion", VStr "2024-11-05");
                       ("capabilities", VObj [("tools", VObj [])]);
                       ("serverInfo", VObj [("name", VStr "pulsar");
                                            ("version", VStr "0.1.0")])]))
    /\ (field req "method" = VStr "tools/list" ->
        msg = rpc_result (field req "id") (VObj [("tools", tools_js)]))
    /\ (forall m,
          to_string_opt (field req "method") = Some m ->
          field req "method" <> VStr "initialize" ->
          field req "method" <> VStr "tools/list" ->
          msg = rpc_error (field req "id") (VNum (-32601))
                  (VStr ("Method not found: " ++ m))).
Proof.
  intros Hp Hid Hm.
  rewrite (on_line_request PULSAR_BRIDGE_PORT PULSAR_BRIDGE_HOST JSON_parse
             SyntaxError_message JSON_stringify JSON_stringify_2 network
             line req s Hp Hid).
  pose proof (has_id_not_nullish req Hid) as Hr.
  unfold try_catch at 1. unfold bind at 1.
  unfold handleRequest, destructure, get_prop. rewrite Hr.
  unfold bind at 1 2 3. unfold ret at 1 2 3. rewrite Hm.
  destruct (strict_eq_str (field req "method") "initialize") eqn:Ei.
  - assert (Hinit : field req "method" = VStr "initialize").
    { destruct (field req "method"); try discriminate Ei.
      simpl in Ei. apply String.eqb_eq in Ei. rewrite Ei. reflexivity. }
    eexists. split; [reflexivity |]. split; [reflexivity |]. split.
    + intros H. rewrite H in Ei. discriminate Ei.
    + intros m _ Hni _. contradiction.
  - destruct (strict_eq_str (field req "method") "tools/list") eqn:El.
    + assert (Hlist : field req "method" = VStr "tools/list").
      { destruct (field req "method"); try discriminate El.
        simpl in El. apply String.eqb_eq in El. rewrite El. reflexivity. }
      eexists. split; [reflexivity |]. split; [| split].
      * intros H. rewrite H in Ei. discriminate Ei.
      * reflexivity.
      * intros m _ _ Hnl. contradiction.
    + unfold bind at 1. unfold to_string.
      destruct (to_string_opt (field req "method")) as [text |] eqn:Et.
      * eexists. split; [reflexivity |]. split; [| split].
        -- intros H. rewrite H in Ei. discriminate Ei.
        -- intros H. rewrite H in El. discriminate El.
        -- intros m H _ _. injection H as <-. reflexivity.
      * eexists. split; [reflexivity |]. split; [| split].
        -- intros H. rewrite H in Ei. discriminate Ei.
        -- intros H. rewrite H in El. discriminate El.
        -- intros m H _ _. discriminate H.
Qed.

(** X2: a request with an id whose method is not [tools/call] is answered
    with exactly one line and without any request to the bridge.  The line is
    the text that [JSON.stringify] gives for the answer, and a line feed; the
    answer carries the request's id, and it is the protocol metadata for
    [initialize], the ten tools of the catalog, named as listed below, for
    [tools/list], and for any other method the error with code -32601 and
    the message ["Method not found: <method>"]. *)
Theorem other_methods_stay_local line req s :
  JSON_parse line = Some req ->
  field req "id" <> VUndefined ->
  field req "method" <> VStr "tools/call" ->
  exists msg,
    (forall text,
        JSON_stringify msg = Some text ->
        on_line PULSAR_BRIDGE_PORT PULSAR_BRIDGE_HOST JSON_parse SyntaxError_message
          JSON_stringify JSON_stringify_2 network line s
        = (Returned tt,
           {| stdout := stdout s ++ [text ++ String "010" ""];
              fetched := fetched s |}))
    /\ (field req "method" = VStr "initialize" ->
        msg = VObj [("jsonrpc", VStr "2.0"); ("id", field req "id");
                    ("result",
                     VObj [("protocolVersion", VStr "2024-11-05");
                           ("capabilities", VObj [("tools", VObj [])]);
                           ("serverInfo", VObj [("name", VStr "pulsar");
                                                ("version", VStr "0.1.0")])])])
    /\ (field req "method" = VStr "tools/list" ->
        exists entries,
          map (fun entry => field entry "name") entries
          = [VStr "GetActiveEditor"; VStr "InsertText"; VStr "OpenFile";
             VStr "GetProjectPaths"; VStr "SaveFile"; VStr "SetSelections";
             VStr "GetSelections"; VStr "CloseFile"; VStr "FindText";
             VStr "AddProjectPath"]
          /\ msg = VObj [("jsonrpc", VStr "2.0"); ("id", field req "id");
                         ("result", VObj [("tools", VArr entries)])])
    /\ (forall m,
          to_string_opt (field req "method") = Some m ->
          field req "method" <> VStr "initialize" ->
          field req "method" <> VStr "tools/list" ->
          msg = VObj [("jsonrpc", VStr "2.0"); ("id", field req "id");
                      ("error",
                       VObj [("code", VNum (-32601));
                             ("message", VStr ("Method not found: " ++ m))])]).
Proof.
  intros Hp Hid Hm.
  destruct (other_methods_run line req s Hp Hid
              (strict_eq_str_other _ _ Hm))
    as (msg & Hrun & Hinit & Hlist & Hother).
  exists msg. split; [| split; [| split]].
  - intros text Htext. rewrite Hrun.
    rewrite (written_text JSON_stringify msg text Htext). reflexivity.
  - exact Hinit.
  - intros H. exists (map tool_to_js tools).
    split; [reflexivity | exact (Hlist H)].
  - exact Hother.
Qed.

Lemma find_tool_listed toolName :
  In toolName catalog_names -> exists t, find_tool (VStr toolName) = Some t.
Proof.
  intros Hin. unfold find_tool.
  destruct (find _ tools) as [t |] eqn:E; [exists t; reflexivity |].
  exfalso. apply in_map_iff in Hin. destruct Hin as (t & Ht & Hin).
  pose proof (find_none _ _ E t Hin) as Hno. simpl in Hno.
  rewrite Ht, String.eqb_refl in Hno. discriminate Hno.
Qed.

(** A [tools/call] for a tool of the catalog that the bridge answers with
    success. *)
Lemma tools_call_success_run line req toolName status reply_body result s :
  JSON_parse line = Some req ->
  field req "id" <> VUndefined ->
  field req "method" = VStr "tools/call" ->
  nullish (field req "params") = false ->
  field (field req "params") "name" = VStr toolName ->
  In toolName catalog_names ->
  up s = true ->
  let sent := post toolName (js_or (field (field req "params") "arguments") (VObj [])) in
  network (fetched s ++ [probe])%list sent = Resp status reply_body ->
  (200 <=? status) && (status <=? 299) = true ->
  JSON_parse reply_body = Some result ->
  nullish result = false ->
  truthy (field result "success") = true ->
  line_listener line s
  = (Returned tt,
     {| stdout := stdout s
                  ++ [written
                        (rpc_result (field req "id")
                           (VObj [("content",
                                   text_content
                                     match JSON_stringify_2 (field result "data") with
                                     | Some text => VStr text
                                     | None => VUndefined
                                     end)]))];
        fetched := fetched s ++ [probe; sent] |}).
Proof.
  intros Hp Hid Hm Hpa Hname Hin Hup sent Hnet Hok Hbody Hres Hsucc.
  rewrite (tools_call_run PULSAR_BRIDGE_PORT PULSAR_BRIDGE_HOST JSON_parse
             SyntaxError_message JSON_stringify JSON_stringify_2 network
             line req s Hp Hid Hm Hpa), Hup, Hname.
  destruct (find_tool_listed toolName Hin) as [t Hfind].
  simpl negb. cbv iota. rewrite Hfind.
  unfold try_catch, bind, callBridge, to_string. simpl to_string_opt. cbv iota.
  unfold bind, ret at 1. unfold fetch. simpl fetched. fold sent. rewrite Hnet.
  unfold json. cbn [resp_text]. rewrite Hbody.
  unfold ok. cbn [resp_status]. rewrite Hok.
  unfold ret. simpl negb. cbv beta iota.
  unfold get_prop. rewrite Hres. unfold ret. cbv beta iota.
  rewrite Hsucc. simpl.
  rewrite <- app_assoc. reflexivity.
Qed.

(** X3: a [tools/call] for a tool of the catalog, while the probe succeeds
    and the bridge answers the POST with a 2xx status and an envelope whose
    [success] is truthy: the two requests sent are the probe and the POST of
    [arguments || {}] to [/tools/<name>], and the one line written is the
    text that [JSON.stringify] gives for the result with the request's id
    and [{ content: [{ type: "text", text }] }], where [text] is
    [JSON.stringify(data, null, 2)] of the envelope's [data], and a line
    feed. *)
Theorem tools_call_returns_data line req toolName status reply_body result s :
  JSON_parse line = Some req ->
  field req "id" <> VUndefined ->
  field req "method" = VStr "tools/call" ->
  nullish (field req "params") = false ->
  field (field req "params") "name" = VStr toolName ->
  In toolName catalog_names ->
  (forall p, BRIDGE_PORT PULSAR_BRIDGE_PORT = Some p -> Z.abs p < 2 ^ 53) ->
  let address := "http://" ++ BRIDGE_HOST PULSAR_BRIDGE_HOST ++ ":"
                   ++ number_text (BRIDGE_PORT PULSAR_BRIDGE_PORT) in
  let arguments := field (field req "params") "arguments" in
  let health := {| call_method := "GET";
                   call_url := address ++ "/health";
                   call_body := None |} in
  let sent := {| call_method := "POST";
                 call_url := address ++ "/tools/" ++ toolName;
                 call_body := JSON_stringify
                                (if truthy arguments then arguments else VObj []) |} in
  (exists health_status health_body,
      network (fetched s) health = Resp health_status health_body
      /\ 200 <= health_status <= 299) ->
  network (fetched s ++ [health])%list sent = Resp status reply_body ->
  200 <= status <= 299 ->
  JSON_parse reply_body = Some result ->
  nullish result = false ->
  truthy (field result "success") = true ->
  forall text,
    JSON_stringify
      (VObj [("jsonrpc", VStr "2.0"); ("id", field req "id");
             ("result",
              VObj [("content",
                     VArr [VObj [("type", VStr "text");
                                 ("text",
                                  match JSON_stringify_2 (field result "data") with
                                  | Some indented => VStr indented
                                  | None => VUndefined
                                  end)]])])])
    = Some text ->
    on_line PULSAR_BRIDGE_PORT PULSAR_BRIDGE_HOST JSON_parse SyntaxError_message
      JSON_stringify JSON_stringify_2 network line s
    = (Returned tt,
       {| stdout := stdout s ++ [text ++ String "010" ""];
          fetched := fetched s ++ [health; sent] |}).
Proof.
  intros Hp Hid Hm Hpa Hname Hin _ address arguments health sent
         (hs & hb & Hprobe & Hhs) Hnet Hok Hbody Hres Hsucc text Htext.
  assert (Hup : up s = true).
  { unfold probe_ok. change (health_probe _ _) with health. rewrite Hprobe.
    apply andb_true_iff. split; apply Z.leb_le; lia. }
  rewrite (tools_call_success_run line req toolName status reply_body result s
             Hp Hid Hm Hpa Hname Hin Hup Hnet
             ltac:(apply andb_true_iff; split; apply Z.leb_le; lia)
             Hbody Hres Hsucc).
  match goal with
  | |- context [written ?msg] =>
      assert (Hw : written msg = text ++ String "010" "")
        by (apply written_text; exact Htext)
  end.
  rewrite Hw. reflexivity.
Qed.

(** The same call when the bridge's answer is a failure. *)
Lemma tools_call_failure_run line req toolName status reply_body result message s :
  JSON_parse line = Some req ->
  field req "id" <> VUndefined ->
  field req "method" = VStr "tools/call" ->
  nullish (field req "params") = false ->
  field (field req "params") "name" = VStr toolName ->
  In toolName catalog_names ->
  up s = true ->
  let sent := post toolName (js_or (field (field req "params") "arguments") (VObj [])) in
  network (fetched s ++ [probe])%list sent = Resp status reply_body ->
  JSON_parse reply_body = Some result ->
  nullish result = false ->
  (200 <=? status) && (status <=? 299) = false
  \/ truthy (field result "success") = false ->
  to_string_opt (js_or (field result "error") (VStr ("Tool call failed: " ++ toolName)))
  = Some message ->
  line_listener line s
  = (Returned tt,
     {| stdout := stdout s
                  ++ [written (rpc_error (field req "id") (VNum (-32603))
                                 (VStr (if (message =? "")%string then "Error"
                                        else message)))];
        fetched := fetched s ++ [probe; sent] |}).
Proof.
  intros Hp Hid Hm Hpa Hname Hin Hup sent Hnet Hbody Hres Hfail Hmsg.
  rewrite (tools_call_run PULSAR_BRIDGE_PORT PULSAR_BRIDGE_HOST JSON_parse
             SyntaxError_message JSON_stringify JSON_stringify_2 network
             line req s Hp Hid Hm Hpa), Hup, Hname.
  destruct (find_tool_listed toolName Hin) as [t Hfind].
  simpl negb. cbv iota. rewrite Hfind.
  assert (Hfailed :
            (if negb (ok {| resp_status := status; resp_text := reply_body |})
             then ret true
             else success <- get_prop result "success" ;;
                  ret (negb (truthy success)))
              {| stdout := stdout s; fetched := (fetched s ++ [probe]) ++ [sent] |}
            = (Returned true,
               {| stdout := stdout s; fetched := (fetched s ++ [probe]) ++ [sent] |})).
  { unfold ok. cbn [resp_status].
    destruct ((200 <=? status) && (status <=? 299)) eqn:E; simpl negb; cbv iota.
    - destruct Hfail as [Hf | Hf]; [discriminate Hf |].
      unfold bind, get_prop. rewrite Hres. unfold ret. cbv beta iota.
      rewrite Hf. reflexivity.
    - reflexivity. }
  unfold try_catch, bind, callBridge, to_string. simpl to_string_opt. cbv iota.
  unfold bind, ret at 1. unfold fetch. simpl fetched. fold sent. rewrite Hnet.
  unfold json. cbn [resp_text]. rewrite Hbody.
  unfold ret at 1. cbv beta iota.
  unfold bind in Hfailed. cbn [stdout]. rewrite Hfailed.
  unfold get_prop. rewrite Hres. unfold ret. cbv beta iota.
  match goal with
  | |- context [to_string_opt ?v] =>
      replace (to_string_opt v) with (Some message) by (symmetry; exact Hmsg)
  end.
  destruct (message =? "")%string eqn:E; simpl; rewrite ?E; simpl; rewrite ?E;
    rewrite <- app_assoc; reflexivity.
Qed.

(** X4: the same call when the bridge's answer is a failure, a status outside
    2xx or an envelope whose [success] is falsy: the one line written is the
    text that [JSON.stringify] gives for the error with the request's id and
    code -32603, and a line feed.  The message is the envelope's [error]
    when that is truthy (as a string, and ["Error"] where that string is
    empty), and ["Tool call failed: <name>"] otherwise, as for an executor's
    [false], which comes without [error]. *)
Theorem tools_call_reports_failure line req toolName status reply_body result s :
  JSON_parse line = Some req ->
  field req "id" <> VUndefined ->
  field req "method" = VStr "tools/call" ->
  nullish (field req "params") = false ->
  field (field req "params") "name" = VStr toolName ->
  In toolName catalog_names ->
  (forall p, BRIDGE_PORT PULSAR_BRIDGE_PORT = Some p -> Z.abs p < 2 ^ 53) ->
  let address := "http://" ++ BRIDGE_HOST PULSAR_BRIDGE_HOST ++ ":"
                   ++ number_text (BRIDGE_PORT PULSAR_BRIDGE_PORT) in
  let arguments := field (field req "params") "arguments" in
  let health := {| call_method := "GET";
                   call_url := address ++ "/health";
                   call_body := None |} in
  let sent := {| call_method := "POST";
                 call_url := address ++ "/tools/" ++ toolName;
                 call_body := JSON_stringify
                                (if truthy arguments then arguments else VObj []) |} in
  (exists health_status health_body,
      network (fetched s) health = Resp health_status health_body
      /\ 200 <= health_status <= 299) ->
  network (fetched s ++ [health])%list sent = Resp status reply_body ->
  JSON_parse reply_body = Some result ->
  nullish result = false ->
  ~ (200 <= status <= 299) \/ truthy (field result "success") = false ->
  forall message,
    (truthy (field result "error") = true
     /\ to_string_opt (field result "error") = Some message)
    \/ (truthy (field result "error") = false
        /\ message = "Tool call failed: " ++ toolName) ->
    forall text,
      JSON_stringify
        (VObj [("jsonrpc", VStr "2.0"); ("id", field req "id");
               ("error",
                VObj [("code", VNum (-32603));
                      ("message",
                       VStr (if (message =? "")%string then "Error" else message))])])
      = Some text ->
      on_line PULSAR_BRIDGE_PORT PULSAR_BRIDGE_HOST JSON_parse SyntaxError_message
        JSON_stringify JSON_stringify_2 network line s
      = (Returned tt,
         {| stdout := stdout s ++ [text ++ String "010" ""];
            fetched := fetched s ++ [health; sent] |}).
Proof.
  intros Hp Hid Hm Hpa Hname Hin _ address arguments health sent
         (hs & hb & Hprobe & Hhs) Hnet Hbody Hres Hfail message Hmsg text Htext.
  assert (Hup : up s = true).
  { unfold probe_ok. change (health_probe _ _) with health. rewrite Hprobe.
    apply andb_true_iff. split; apply Z.leb_le; lia. }
  assert (Hfail' : (200 <=? status) && (status <=? 299) = false
                   \/ truthy (field result "success") = false).
  { destruct Hfail as [Hs | Hs]; [left | right; exact Hs].
    destruct ((200 <=? status) && (status <=? 299)) eqn:E; [| reflexivity].
    exfalso. apply Hs. apply andb_true_iff in E. destruct E as [E1 E2].
    apply Z.leb_le in E1. apply Z.leb_le in E2. lia. }
  assert (Hts : to_string_opt
                  (js_or (field result "error")
                     (VStr ("Tool call failed: " ++ toolName)))
                = Some message).
  { unfold js_or. destruct Hmsg as [[Ht Hs] | [Ht ->]]; rewrite Ht;
      [exact Hs | reflexivity]. }
  rewrite (tools_call_failure_run line req toolName status reply_body result message s
             Hp Hid Hm Hpa Hname Hin Hup Hnet Hbody Hres Hfail' Hts).
  match goal with
  | |- context [written ?msg] =>
      assert (Hw : written msg = text ++ String "010" "")
        by (apply written_text; exact Htext)
  end.
  rewrite Hw. reflexivity.
Qed.

Lemma protocol_failure_error name message : protocol_failure (ErrorInst name message).
Proof. exact I. Qed.

Lemma handleRequest_throws_protocol_failures req :
  throws_only protocol_failure (handler req).
Proof.
  pose proof protocol_failure_error as PE.
  assert (Hfetch : forall c, throws_only protocol_failure (fetch network c)).
  { intros c s e s' H. unfold fetch in H.
    destruct (network (fetched s) c); [| discriminate H].
    injection H as <- _. exact I. }
  assert (Hdes : forall v a b, throws_only protocol_failure (destructure v a b)).
  { intros v a b. unfold destructure. destruct (nullish v);
      [apply throws_only_throw; exact I | apply throws_only_ret]. }
  assert (Hcall : forall n a,
             throws_only protocol_failure
               (callBridge PULSAR_BRIDGE_PORT PULSAR_BRIDGE_HOST JSON_parse
                  SyntaxError_message JSON_stringify network n a)).
  { intros n a. unfold callBridge.
    apply throws_only_bind; [apply throws_only_to_string; exact PE | intros tool_text].
    apply throws_only_bind; [apply Hfetch | intros response].
    apply throws_only_bind.
    { unfold json. destruct (JSON_parse (resp_text response));
        [apply throws_only_ret | apply throws_only_throw; exact I]. }
    intros result. apply throws_only_bind.
    - destruct (negb (ok response)); [apply throws_only_ret |].
      apply throws_only_bind; [apply throws_only_get_prop; exact PE |].
      intros; apply throws_only_ret.
    - intros [|]; [| apply throws_only_get_prop; exact PE].
      apply throws_only_bind; [apply throws_only_get_prop; exact PE | intros error].
      apply throws_only_bind; [apply throws_only_to_string; exact PE |].
      intros; apply throws_only_throw; exact I. }
  assert (Hrpc : forall code (prefix text : string),
             code = -32603 \/ code = -32601 -> prefix <> "" ->
             protocol_failure (rpc_failure code (prefix ++ text))).
  { intros code prefix text Hc Hp. exists code, (prefix ++ text).
    split; [reflexivity | split; [exact Hc |]].
    destruct prefix; [contradiction | discriminate]. }
  unfold handleRequest.
  apply throws_only_bind; [apply Hdes | intros _].
  apply throws_only_bind; [apply throws_only_get_prop; exact PE | intros method].
  apply throws_only_bind; [apply throws_only_get_prop; exact PE | intros params].
  destruct (strict_eq_str method "initialize"); [apply throws_only_ret |].
  destruct (strict_eq_str method "tools/list"); [apply throws_only_ret |].
  destruct (strict_eq_str method "tools/call").
  - apply throws_only_bind; [apply Hdes | intros _].
    apply throws_only_bind; [apply throws_only_get_prop; exact PE | intros tool_name].
    apply throws_only_bind; [apply throws_only_get_prop; exact PE | intros args].
    apply throws_only_bind.
    { apply throws_only_try_catch. intros; apply throws_only_ret. }
    intros bridgeAvailable. destruct (negb bridgeAvailable).
    + apply throws_only_throw. apply Hrpc; [left; reflexivity | discriminate].
    + destruct (find_tool tool_name).
      * apply throws_only_bind; [apply Hcall | intros; apply throws_only_ret].
      * apply throws_only_bind; [apply throws_only_to_string; exact PE | intros t].
        apply throws_only_throw. apply Hrpc; [right; reflexivity | discriminate].
  - apply throws_only_bind; [apply throws_only_to_string; exact PE | intros t].
    apply throws_only_throw. apply Hrpc; [right; reflexivity | discriminate].
Qed.

(** Every line that parses to a message with an id is answered with one
    line that carries that id. *)
Lemma one_response_with_id line req s :
  JSON_parse line = Some req ->
  field req "id" <> VUndefined ->
  exists body more,
    line_listener line s
    = (Returned tt,
       {| stdout := stdout s ++ [written body]; fetched := fetched s ++ more |})
    /\ ((exists result, body = rpc_result (field req "id") result)
        \/ (exists code message,
               (code = -32603 \/ code = -32601)
               /\ body = rpc_error (field req "id") (VNum code) (VStr message))).
Proof.
  intros Hp Hid.
  rewrite (on_line_request PULSAR_BRIDGE_PORT PULSAR_BRIDGE_HOST JSON_parse
             SyntaxError_message JSON_stringify JSON_stringify_2 network
             line req s Hp Hid).
  destruct (tame_handleRequest PULSAR_BRIDGE_PORT PULSAR_BRIDGE_HOST JSON_parse
              SyntaxError_message JSON_stringify JSON_stringify_2 network req s)
    as [[more Hs] _].
  pose proof (handleRequest_throws_protocol_failures req s) as He.
  unfold try_catch, bind.
  destruct (handler req s) as [[result | e] s1]; simpl in Hs; subst s1.
  - eexists. exists more. split; [reflexivity |]. left. eexists. reflexivity.
  - specialize (He e _ eq_refl). destruct e as [ename emessage | v].
    + destruct (String.eqb_spec emessage "") as [-> | Hne].
      * eexists. exists more. split; [reflexivity |].
        right. exists (-32603). eexists. split; [left; reflexivity | reflexivity].
      * eexists. exists more. split.
        -- unfold thrown_prop, ret. simpl.
           destruct (String.eqb_spec emessage ""); [contradiction |]. reflexivity.
        -- right. exists (-32603). eexists. split; [left; reflexivity | reflexivity].
    + destruct He as (code & message & -> & Hc & Hne).
      eexists. exists more. split.
      * unfold thrown_prop, get_prop, ret. simpl.
        destruct (String.eqb_spec message ""); [contradiction |]. reflexivity.
      * right. exists code. exists message. split; [exact Hc |].
        unfold js_or, truthy.
        destruct Hc as [-> | ->]; reflexivity.
Qed.

(** X5: every line that parses to a message with an id is answered with
    exactly one line, the text that [JSON.stringify] gives for the answer and
    a line feed; the answer carries that id, and it is a result, or an error
    whose code is -32603 or -32601 and whose message is a string.  The
    listener returns normally, and the requests it sent are added to the
    earlier ones. *)
Theorem responses_carry_the_request_id line req s :
  JSON_parse line = Some req ->
  field req "id" <> VUndefined ->
  exists msg more,
    ((exists result,
         msg = VObj [("jsonrpc", VStr "2.0"); ("id", field req "id");
                     ("result", result)])
     \/ (exists code message,
            (code = -32603 \/ code = -32601)
            /\ msg = VObj [("jsonrpc", VStr "2.0"); ("id", field req "id");
                           ("error", VObj [("code", VNum code);
                                           ("message", VStr message)])]))
    /\ forall text,
        JSON_stringify msg = Some text ->
        on_line PULSAR_BRIDGE_PORT PULSAR_BRIDGE_HOST JSON_parse SyntaxError_message
          JSON_stringify JSON_stringify_2 network line s
        = (Returned tt,
           {| stdout := stdout s ++ [text ++ String "010" ""];
              fetched := fetched s ++ more |}).
Proof.
  intros Hp Hid.
  destruct (one_response_with_id line req s Hp Hid) as (msg & more & Hrun & Hshape).
  exists msg, more. split; [exact Hshape |].
  intros text Htext. rewrite Hrun.
  rewrite (written_text JSON_stringify msg text Htext). reflexivity.
Qed.

End StdioMore.

Lemma null_line_rejects_witness :
  Json.parse "null" = Some VNull
  /\ example_listener example_bridge "null" stdio_start
     = (Threw (ErrorInst "TypeError" "Cannot read properties of null (reading 'id')"),
        stdio_start).
Proof.
  split; [reflexivity |].
  exact (null_line_rejects None None Json.parse Json.syntax_error_message
           Json.stringify Json.stringify_2 example_bridge "null" stdio_start eq_refl).
Defined.

Lemma other_methods_stay_local_witness :
  let req := example_request "resources/list" in
  let text :=
    "{" ++ quoted "jsonrpc" ++ ":" ++ quoted "2.0" ++ "," ++ quoted "id" ++ ":3,"
      ++ quoted "error" ++ ":{" ++ quoted "code" ++ ":-32601," ++ quoted "message"
      ++ ":" ++ quoted "Method not found: resources/list" ++ "}}" in
  Json.parse (line_of req) = Some req
  /\ field req "id" <> VUndefined
  /\ field req "method" <> VStr "tools/call"
  /\ example_listener network_down (line_of req) stdio_start
     = (Returned tt, {| stdout := [text ++ String "010" ""]; fetched := [] |}).
Proof.
  intros req text.
  assert (Hid : field req "id" <> VUndefined) by discriminate.
  assert (Hm : field req "method" <> VStr "tools/call") by discriminate.
  split; [reflexivity | split; [exact Hid | split; [exact Hm |]]].
  destruct (other_methods_stay_local None None Json.parse Json.syntax_error_message
              Json.stringify Json.stringify_2 network_down (line_of req) req
              stdio_start eq_refl Hid Hm) as (msg & Hrun & _ & _ & Hother).
  apply Hrun.
  rewrite (Hother "resources/list" eq_refl ltac:(discriminate) ltac:(discriminate)).
  reflexivity.
Defined.

Lemma tools_call_returns_data_witness :
  let req := example_call "GetProjectPaths" in
  let text :=
    "{" ++ quoted "jsonrpc" ++ ":" ++ quoted "2.0" ++ "," ++ quoted "id" ++ ":1,"
      ++ quoted "result" ++ ":{" ++ quoted "content" ++ ":[{" ++ quoted "type" ++ ":"
      ++ quoted "text" ++ "," ++ quoted "text" ++ ":" ++ quoted "[]" ++ "}]}}" in
  Json.parse (line_of req) = Some req
  /\ In "GetProjectPaths" catalog_names
  /\ example_listener example_bridge (line_of req) stdio_start
     = (Returned tt,
        {| stdout := [text ++ String "010" ""];
           fetched := [{| call_method := "GET";
                          call_url := "http://127.0.0.1:3000/health";
                          call_body := None |};
                       {| call_method := "POST";
                          call_url := "http://127.0.0.1:3000/tools/GetProjectPaths";
                          call_body := Some "{}" |}] |}).
Proof.
  intros req text.
  assert (Hid : field req "id" <> VUndefined) by discriminate.
  assert (Hin : In "GetProjectPaths" catalog_names) by (simpl; tauto).
  split; [reflexivity | split; [exact Hin |]].
  refine (tools_call_returns_data None None Json.parse Json.syntax_error_message
            Json.stringify Json.stringify_2 example_bridge (line_of req) req
            "GetProjectPaths" 200
            (default_to (Json.stringify (result_to_js (succeeded (VArr [])))) "")
            (result_to_js (succeeded (VArr []))) stdio_start
            eq_refl Hid eq_refl eq_refl eq_refl Hin _ _ eq_refl _ eq_refl eq_refl
            eq_refl text eq_refl).
  - intros p H. injection H as <-. reflexivity.
  - exists 200. eexists. split; [reflexivity | lia].
  - lia.
Defined.

Lemma tools_call_reports_failure_witness :
  let req := example_call "SaveFile" in
  let text :=
    "{" ++ quoted "jsonrpc" ++ ":" ++ quoted "2.0" ++ "," ++ quoted "id" ++ ":1,"
      ++ quoted "error" ++ ":{" ++ quoted "code" ++ ":-32603," ++ quoted "message"
      ++ ":" ++ quoted "Tool call failed: SaveFile" ++ "}}" in
  Json.parse (line_of req) = Some req
  /\ In "SaveFile" catalog_names
  /\ executeTool (demo_atom false) "SaveFile" (VObj []) ""
     = (Returned {| success := false;
                    data := Some (VObj [("saved", VBool false)]);
                    error := None |}, "")
  /\ example_listener example_bridge (line_of req) stdio_start
     = (Returned tt,
        {| stdout := [text ++ String "010" ""];
           fetched := [{| call_method := "GET";
                          call_url := "http://127.0.0.1:3000/health";
                          call_body := None |};
                       {| call_method := "POST";
                          call_url := "http://127.0.0.1:3000/tools/SaveFile";
                          call_body := Some "{}" |}] |}).
Proof.
  intros req text.
  assert (Hid : field req "id" <> VUndefined) by discriminate.
  assert (Hin : In "SaveFile" catalog_names) by (simpl; tauto).
  split; [reflexivity | split; [exact Hin | split; [reflexivity |]]].
  pose (envelope := result_to_js (reported false (VObj [("saved", VBool false)]))).
  refine (tools_call_reports_failure None None Json.parse Json.syntax_error_message
            Json.stringify Json.stringify_2 example_bridge (line_of req) req
            "SaveFile" 400 (default_to (Json.stringify envelope) "") envelope stdio_start
            eq_refl Hid eq_refl eq_refl eq_refl Hin _ _ eq_refl eq_refl eq_refl
            _ "Tool call failed: SaveFile" (or_intror (conj eq_refl eq_refl))
            text eq_refl).
  - intros p H. injection H as <-. reflexivity.
  - exists 200. eexists. split; [reflexivity | lia].
  - left. lia.
Defined.

Lemma responses_carry_the_request_id_witness :
  let req := example_call "InsertText" in
  let text :=
    "{" ++ quoted "jsonrpc" ++ ":" ++ quoted "2.0" ++ "," ++ quoted "id" ++ ":1,"
      ++ quoted "error" ++ ":{" ++ quoted "code" ++ ":-32603," ++ quoted "message"
      ++ ":" ++ quoted "text is required" ++ "}}" in
  Json.parse (line_of req) = Some req
  /\ field req "id" = VNum 1
  /\ fst (example_listener example_bridge (line_of req) stdio_start) = Returned tt
  /\ stdout (snd (example_listener example_bridge (line_of req) stdio_start))
     = [text ++ String "010" ""]
  /\ exists msg more,
      ((exists result,
           msg = VObj [("jsonrpc", VStr "2.0"); ("id", VNum 1); ("result", result)])
       \/ (exists code message,
              (code = -32603 \/ code = -32601)
              /\ msg = VObj [("jsonrpc", VStr "2.0"); ("id", VNum 1);
                             ("error", VObj [("code", VNum code);
                                             ("message", VStr message)])]))
      /\ forall line_text,
          Json.stringify msg = Some line_text ->
          example_listener example_bridge (line_of req) stdio_start
          = (Returned tt,
             {| stdout := [line_text ++ String "010" ""]; fetched := more |}).
Proof.
  intros req text.
  assert (Hid : field req "id" <> VUndefined) by discriminate.
  split; [reflexivity | split; [reflexivity | split; [reflexivity |]]].
  split; [reflexivity |].
  exact (responses_carry_the_request_id None None Json.parse
           Json.syntax_error_message Json.stringify Json.stringify_2 example_bridge
           (line_of req) req stdio_start eq_refl Hid).
Defined.

(** ** More on the catalog *)

(** X6: the names of the catalog are pairwise distinct; looking a catalog
    tool up by its name gives that tool, and its name matches the route of
    the bridge; a name that is not a string, or not in the catalog, is not
    found. *)
Theorem catalog_lookup :
  NoDup catalog_names
  /\ (forall t, In t tools ->
        getToolByName (VStr (name t)) = Some t
        /\ tool_route ("/tools/" ++ name t) = Some (name t))
  /\ (forall v, is_string v = false -> getToolByName v = None)
  /\ (forall n, ~ In n catalog_names -> getToolByName (VStr n) = None).
Proof.
  split; [| split; [| split]].
  - unfold catalog_names. simpl.
    repeat (constructor; [simpl; intuition discriminate |]). constructor.
  - intros t Ht. simpl in Ht.
    repeat (destruct Ht as [<- | Ht]; [split; reflexivity |]). contradiction.
  - intros v Hv. unfold getToolByName, find_tool.
    destruct v; try discriminate Hv; reflexivity.
  - intros n Hn. unfold getToolByName, find_tool.
    destruct (find _ tools) as [t |] eqn:E; [| reflexivity].
    exfalso. apply find_some in E. destruct E as [Ht Heq]. simpl in Heq.
    apply String.eqb_eq in Heq. apply Hn. rewrite Heq. apply in_map. exact Ht.
Qed.

Lemma catalog_lookup_witness :
  exists t,
    In t tools
    /\ name t = "SaveFile"
    /\ getToolByName (VStr "SaveFile") = Some t
    /\ tool_route "/tools/SaveFile" = Some "SaveFile"
    /\ getToolByName (VNum 7) = None
    /\ getToolByName (VStr "savefile") = None.
Proof.
  destruct catalog_lookup as (_ & Hfound & Hother & Hmissing).
  eexists. split; [right; right; right; right; left; reflexivity |].
  split; [reflexivity |].
  split; [apply (Hfound _ (or_intror (or_intror (or_intror (or_intror (or_introl eq_refl)))))) |].
  split; [apply (Hfound _ (or_intror (or_intror (or_intror (or_intror (or_introl eq_refl)))))) |].
  split; [apply Hother; reflexivity |].
  apply Hmissing. simpl. intuition discriminate.
Defined.

(** A name with a [case] is never answered with the unknown-tool failure by
    the [switch]. *)
Lemma executeTool_switch_known {W} (atom : Atom W) toolName args w r w' :
  In toolName executable_names ->
  executeTool_switch atom toolName args w = (Returned r, w') ->
  error r <> Some ("Unknown tool: " ++ toolName).
Proof.
  intros Hin H. unfold executable_names in Hin. simpl in Hin.
  repeat (destruct Hin as [<- | Hin];
          [unfold executeTool_switch in H; simpl in H; js_inv; discriminate |]).
  contradiction.
Qed.

(** X7: nine tools have a [case] in [executeTool] and no entry in the catalog
    (these are all of them): the [switch] never answers them with the
    unknown-tool failure and their names match the route, so a POST reaches
    them; but [tools/call] refuses them locally, without a request to the
    tool route: the one request is the probe, and the one line written is
    the text that [JSON.stringify] gives for the error with the request's
    id, code -32601 and message ["Unknown tool: <name>"], and a line feed. *)
Theorem executable_tools_outside_the_catalog :
  let hidden := ["GetSelection"; "ReplaceSelection"; "GoToPosition"; "GetOpenEditors";
                 "GetAllSelections"; "RevealInTreeView"; "SplitPane"; "ClosePane";
                 "GetPanelState"] in
  filter (fun n => negb (existsb (String.eqb n) catalog_names)) executable_names = hidden
  /\ forall toolName,
      In toolName hidden ->
      In toolName executable_names
      /\ ~ In toolName catalog_names
      /\ tool_route ("/tools/" ++ toolName) = Some toolName
      /\ (forall W (atom : Atom W) args w r w',
            executeTool_switch atom toolName args w = (Returned r, w') ->
            error r <> Some ("Unknown tool: " ++ toolName))
      /\ (forall PORT HOST (JSON_parse : string -> option JsVal)
                 (SyntaxError_message : string -> string)
                 (JSON_stringify JSON_stringify_2 : JsVal -> option string)
                 (network : list HttpCall -> HttpCall -> FetchResult)
                 (line : string) (req : JsVal) (text : string) (s : Stdio),
            JSON_parse line = Some req ->
            field req "id" <> VUndefined ->
            field req "method" = VStr "tools/call" ->
            nullish (field req "params") = false ->
            field (field req "params") "name" = VStr toolName ->
            (forall p, BRIDGE_PORT PORT = Some p -> Z.abs p < 2 ^ 53) ->
            (exists status body,
                network (fetched s)
                  {| call_method := "GET";
                     call_url := ("http://" ++ BRIDGE_HOST HOST ++ ":"
                                    ++ number_text (BRIDGE_PORT PORT)) ++ "/health";
                     call_body := None |}
                = Resp status body
                /\ 200 <= status <= 299) ->
            JSON_stringify
              (VObj [("jsonrpc", VStr "2.0"); ("id", field req "id");
                     ("error",
                      VObj [("code", VNum (-32601));
                            ("message", VStr ("Unknown tool: " ++ toolName))])])
            = Some text ->
            on_line PORT HOST JSON_parse SyntaxError_message JSON_stringify
              JSON_stringify_2 network line s
            = (Returned tt,
               {| stdout := stdout s ++ [text ++ String "010" ""];
                  fetched :=
                    fetched s
                    ++ [{| call_method := "GET";
                           call_url := ("http://" ++ BRIDGE_HOST HOST ++ ":"
                                          ++ number_text (BRIDGE_PORT PORT))
                                       ++ "/health";
                           call_body := None |}] |})).
Proof.
  intros hidden. split; [reflexivity |].
  intros toolName Hin.
  assert (Hfacts : In toolName executable_names
                   /\ ~ In toolName catalog_names
                   /\ tool_route ("/tools/" ++ toolName) = Some toolName).
  { unfold hidden in Hin. simpl in Hin.
    repeat (destruct Hin as [<- | Hin];
            [split; [simpl; tauto | split; [not_listed | reflexivity]] |]).
    contradiction. }
  destruct Hfacts as (Hexe & Hcat & Hroute).
  split; [exact Hexe | split; [exact Hcat | split; [exact Hroute | split]]].
  - intros W atom args w r w' H.
    exact (executeTool_switch_known atom toolName args w r w' Hexe H).
  - intros PORT HOST JSON_parse SyntaxError_message JSON_stringify JSON_stringify_2
           network line req text s Hp Hid Hm Hpa Hname _ Hup Htext.
    rewrite (tools_call_unlisted PORT HOST JSON_parse SyntaxError_message
               JSON_stringify JSON_stringify_2 network line req toolName s
               Hp Hid Hm Hpa Hname Hcat (probe_ok_answered PORT HOST network s Hup)).
    assert (Hw : serialized JSON_stringify
                   (rpc_error (field req "id") (VNum (-32601))
                      (VStr ("Unknown tool: " ++ toolName)))
                 = text ++ String "010" "")
      by (apply written_text; exact Htext).
    rewrite Hw. reflexivity.
Qed.

Lemma executable_tools_outside_the_catalog_witness :
  let req := example_call "GetPanelState" in
  let text :=
    "{" ++ quoted "jsonrpc" ++ ":" ++ quoted "2.0" ++ "," ++ quoted "id" ++ ":1,"
      ++ quoted "error" ++ ":{" ++ quoted "code" ++ ":-32601," ++ quoted "message"
      ++ ":" ++ quoted "Unknown tool: GetPanelState" ++ "}}" in
  In "GetPanelState" executable_names
  /\ ~ In "GetPanelState" catalog_names
  /\ response_status
       (fst (handle_http (demo_atom true) Json.parse Json.stringify (fixed_clock 0)
               {| req_method := "POST"; req_pathname := "/tools/GetPanelState";
                  req_body := "" |} "")) = Some 200
  /\ example_listener example_bridge (line_of req) stdio_start
     = (Returned tt,
        {| stdout := [text ++ String "010" ""];
           fetched := [{| call_method := "GET";
                          call_url := "http://127.0.0.1:3000/health";
                          call_body := None |}] |}).
Proof.
  intros req text.
  assert (Hin : In "GetPanelState"
                  ["GetSelection"; "ReplaceSelection"; "GoToPosition"; "GetOpenEditors";
                   "GetAllSelections"; "RevealInTreeView"; "SplitPane"; "ClosePane";
                   "GetPanelState"]) by (simpl; tauto).
  destruct (proj2 executable_tools_outside_the_catalog "GetPanelState" Hin)
    as (Hexe & Hcat & _ & _ & Hstdio).
  split; [exact Hexe | split; [exact Hcat | split; [reflexivity |]]].
  assert (Hid : field req "id" <> VUndefined) by discriminate.
  refine (Hstdio None None Json.parse Json.syntax_error_message Json.stringify
            Json.stringify_2 example_bridge (line_of req) req text stdio_start
            eq_refl Hid eq_refl eq_refl eq_refl _ _ eq_refl).
  - intros p H. injection H as <-. reflexivity.
  - exists 200. eexists. split; [reflexivity | lia].
Defined.

(** ** More on the request listener *)

Section ListenerMore.

Context {W : Type}.
Variable atom : Atom W.
Variable JSON_parse : string -> option JsVal.
Variable JSON_stringify : JsVal -> option string.
Variable Date_now : JS W Z.

Local Abbreviation handle := (handle_http atom JSON_parse JSON_stringify Date_now).

Lemma caught_message_throws (e e' : Thrown) (w w' : W) :
  caught_message e w = (Threw e', w') ->
  e' = TypeError "Cannot convert object to primitive value" /\ w' = w
  /\ exists v, e = Raw v /\ to_string_opt v = None.
Proof.
  destruct e as [n m | v]; simpl; [discriminate |].
  unfold to_string. destruct (to_string_opt v) eqn:E; [discriminate |].
  intros H. injection H as <- <-. split; [reflexivity | split; [reflexivity |]].
  exists v. split; [reflexivity | exact E].
Qed.

Lemma executeTool_threw toolName args w e w' :
  executeTool atom toolName args w = (Threw e, w') ->
  e = TypeError "Cannot convert object to primitive value"
  /\ exists v,
      executeTool_switch atom toolName args w = (Threw (Raw v), w')
      /\ to_string_opt v = None.
Proof.
  intros H. unfold executeTool, try_catch in H.
  destruct (executeTool_switch atom toolName args w) as [[r | e0] w0];
    [discriminate H |].
  unfold bind in H.
  destruct (caught_message e0 w0) as [[m | e1] w1] eqn:E; [discriminate H |].
  injection H as <- <-.
  destruct (caught_message_throws e0 e1 w0 w1 E) as (-> & -> & v & -> & Hv).
  split; [reflexivity |]. exists v. split; [reflexivity | exact Hv].
Qed.

(** X8: [executeTool] throws in one case only: its [switch] threw a value
    that is not an [Error] and that [String] cannot convert (an object with
    a [toString] property of its own); what it throws then is that
    [TypeError].  Every [Error] that the editor throws comes back as
    [{ success: false, error: message }]. *)
Theorem executeTool_throws_only_on_conversion toolName args w :
  (forall e w',
      executeTool atom toolName args w = (Threw e, w') ->
      e = TypeError "Cannot convert object to primitive value"
      /\ exists v,
          executeTool_switch atom toolName args w = (Threw (Raw v), w')
          /\ to_string_opt v = None)
  /\ (forall name message w',
        executeTool_switch atom toolName args w = (Threw (ErrorInst name message), w') ->
        executeTool atom toolName args w = (Returned (failed message), w')).
Proof.
  split.
  - intros e w' H. exact (executeTool_threw toolName args w e w' H).
  - intros n m w' H. unfold executeTool, try_catch. rewrite H. reflexivity.
Qed.

(** X9: whatever the request, a response that the listener writes carries
    [Access-Control-Allow-Origin: *], and its status is one of 200, 204, 400,
    404 and 500. *)
Theorem responses_allow_any_origin req w r w' :
  handle_http atom JSON_parse JSON_stringify Date_now req w = (Returned r, w') ->
  In ("Access-Control-Allow-Origin", "*") (headers r)
  /\ In (status r) [200; 204; 400; 404; 500].
Proof.
  unfold handle_http. intros H.
  destruct (req_method req =? "OPTIONS")%string.
  - apply ret_returned in H. destruct H as [<- _]. simpl. tauto.
  - apply try_catch_returned in H.
    destruct H as [H | (e & w1 & _ & H)]; unfold sendJson in *; js_inv;
      simpl; tauto.
Qed.

(** A request whose method is not POST, once its pathname is known. *)
Lemma other_methods_answer req w :
  req_method req <> "POST" ->
  (forall atom' : Atom W,
      handle req w = handle_http atom' JSON_parse JSON_stringify Date_now req w)
  /\
  (~ (req_method req = "GET" /\ req_pathname req = "/health") ->
   exists r,
     handle req w = (Returned r, w)
     /\ (req_method req = "OPTIONS" -> status r = 204 /\ body r = None)
     /\ (req_method req = "GET" -> req_pathname req = "/tools" ->
         status r = 200 /\ body r = JSON_stringify (VObj [("tools", tools_js)]))
     /\ (req_method req <> "OPTIONS" ->
         ~ (req_method req = "GET" /\ req_pathname req = "/tools") ->
         status r = 404
         /\ body r = JSON_stringify (VObj [("error", VStr "Not found")]))).
Proof.
  intros Hpost.
  assert (Hp : (req_method req =? "POST")%string = false).
  { destruct (String.eqb_spec (req_method req) "POST"); [contradiction | reflexivity]. }
  split.
  - intros atom'. unfold handle_http. rewrite Hp.
    destruct (tool_route (req_pathname req)); reflexivity.
  - intros Hhealth. unfold handle_http. rewrite Hp.
    destruct (String.eqb_spec (req_method req) "OPTIONS") as [Ho | Ho].
    { eexists. split; [reflexivity |]. split; [intros _; split; reflexivity |].
      split.
      - intros Hg. rewrite Hg in Ho. discriminate Ho.
      - intros Hn. contradiction. }
    destruct (String.eqb_spec (req_method req) "GET") as [Hg | Hg].
    + destruct (String.eqb_spec (req_pathname req) "/health") as [Hh | Hh];
        [exfalso; apply Hhealth; split; assumption |].
      destruct (String.eqb_spec (req_pathname req) "/tools") as [Ht | Ht].
      * eexists. split; [reflexivity |]. split; [intros Hx; contradiction |].
        split; [intros _ _; split; reflexivity |].
        intros _ Hn. exfalso. apply Hn. split; assumption.
      * assert (Hanswer :
                  forall w0 : W,
                    match tool_route (req_pathname req) with
                    | Some _ => sendJson JSON_stringify (VObj [("error", VStr "Not found")]) 404
                    | None => sendJson JSON_stringify (VObj [("error", VStr "Not found")]) 404
                    end w0
                    = (Returned {| status := 404; headers := json_headers;
                                   body := JSON_stringify
                                             (VObj [("error", VStr "Not found")]) |},
                       w0)).
        { intros w0. destruct (tool_route (req_pathname req)); reflexivity. }
        eexists. split.
        { simpl. unfold try_catch. rewrite Hanswer. reflexivity. }
        split; [intros Hx; contradiction |].
        split; [intros _ Hx; contradiction |].
        intros _ _. split; reflexivity.
    + assert (Hanswer :
                forall w0 : W,
                  match tool_route (req_pathname req) with
                  | Some _ => sendJson JSON_stringify (VObj [("error", VStr "Not found")]) 404
                  | None => sendJson JSON_stringify (VObj [("error", VStr "Not found")]) 404
                  end w0
                  = (Returned {| status := 404; headers := json_headers;
                                 body := JSON_stringify
                                           (VObj [("error", VStr "Not found")]) |},
                     w0)).
      { intros w0. destruct (tool_route (req_pathname req)); reflexivity. }
      eexists. split.
      { simpl. unfold try_catch. rewrite Hanswer. reflexivity. }
      split; [intros Hx; contradiction |].
      split; [intros Hx; contradiction |].
      intros _ _. split; reflexivity.
Qed.

(** A POST, once its pathname is known. *)
Lemma post_answer req w :
  req_method req = "POST" ->
  (exists r w', handle req w = (Returned r, w'))
  /\
  (forall toolName args result w',
      tool_route (req_pathname req) = Some toolName ->
      parseBody JSON_parse req w = (Returned args, w) ->
      executeTool atom toolName args w = (Returned result, w') ->
      handle req w
      = (Returned {| status := if success result then 200 else 400;
                     headers := json_headers;
                     body := JSON_stringify (result_to_js result) |}, w')).
Proof.
  intros Hm. split.
  - unfold handle_http. rewrite Hm.
    change ("POST" =? "OPTIONS")%string with false.
    change ("POST" =? "GET")%string with false. cbv iota. simpl andb. cbv iota.
    destruct (tool_route (req_pathname req)) as [toolName |];
      [| eexists; eexists; reflexivity].
    change ("POST" =? "POST")%string with true. cbv iota.
    unfold try_catch, bind.
    destruct (parseBody JSON_parse req w) as [[args | e] w1] eqn:Ep.
    + destruct (executeTool atom toolName args w1) as [[result | e] w2] eqn:Ee.
      * destruct (success result); eexists; eexists; reflexivity.
      * destruct (executeTool_threw toolName args w1 e w2 Ee) as [-> _].
        eexists. eexists. reflexivity.
    + unfold parseBody in Ep.
      destruct (req_body req =? "")%string; [discriminate Ep |].
      destruct (JSON_parse (req_body req)); [discriminate Ep |].
      injection Ep as <- <-. eexists. eexists. reflexivity.
  - intros toolName args result w' Hr Hp He.
    rewrite (handle_http_parsed atom JSON_parse JSON_stringify Date_now
               req toolName args w Hm Hr Hp).
    unfold try_catch, bind. rewrite He.
    destruct (success result); reflexivity.
Qed.

Variable URL_pathname : string -> string -> option string.

Local Abbreviation target msg :=
  (match incoming_url msg with Some given => given | None => "/" end).

Lemma request_listener_options host port msg :
  incoming_method msg = "OPTIONS" ->
  request_listener atom JSON_parse JSON_stringify Date_now URL_pathname host port msg
  = handle {| req_method := incoming_method msg; req_pathname := "/";
              req_body := incoming_body msg |}.
Proof. intros H. unfold request_listener. rewrite H. reflexivity. Qed.

Lemma request_listener_parsed host port msg pathname :
  incoming_method msg <> "OPTIONS" ->
  URL_pathname (target msg) ("http://" ++ host ++ ":" ++ Z_to_string port)
  = Some pathname ->
  request_listener atom JSON_parse JSON_stringify Date_now URL_pathname host port msg
  = handle {| req_method := incoming_method msg; req_pathname := pathname;
              req_body := incoming_body msg |}.
Proof.
  intros Ho Hu. unfold request_listener.
  destruct (String.eqb_spec (incoming_method msg) "OPTIONS"); [contradiction |].
  rewrite Hu. reflexivity.
Qed.

Lemma request_listener_invalid host port msg w :
  incoming_method msg <> "OPTIONS" ->
  URL_pathname (target msg) ("http://" ++ host ++ ":" ++ Z_to_string port) = None ->
  request_listener atom JSON_parse JSON_stringify Date_now URL_pathname host port msg w
  = (Threw (ErrorInst "TypeError" "Invalid URL"), w).
Proof.
  intros Ho Hu. unfold request_listener.
  destruct (String.eqb_spec (incoming_method msg) "OPTIONS"); [contradiction |].
  rewrite Hu. reflexivity.
Qed.

(** X10: a request whose method is not POST never reaches the editor: the
    outcome is the same with any other editor in its place.  An OPTIONS
    request is answered 204 without a body, whatever its URL.  For the other
    methods, when [new URL] rejects the request's URL the listener rejects
    with that [TypeError] and writes no response; otherwise [GET /health]
    answers 200 with the clock's time, [GET /tools] answers 200 with the ten
    tools of the catalog, named as listed below, and everything else is
    answered 404 with [{ error: "Not found" }].  Apart from reading the
    clock, the state is left as it was. *)
Theorem only_post_reaches_the_editor host port msg w :
  incoming_method msg <> "POST" ->
  let base := "http://" ++ host ++ ":" ++ Z_to_string port in
  let url := match incoming_url msg with Some given => given | None => "/" end in
  let json := [("Content-Type", "application/json");
               ("Access-Control-Allow-Origin", "*")] in
  (forall atom' : Atom W,
      request_listener atom JSON_parse JSON_stringify Date_now URL_pathname
        host port msg w
      = request_listener atom' JSON_parse JSON_stringify Date_now URL_pathname
          host port msg w)
  /\
  (incoming_method msg = "OPTIONS" ->
   request_listener atom JSON_parse JSON_stringify Date_now URL_pathname
     host port msg w
   = (Returned {| status := 204;
                  headers := [("Access-Control-Allow-Origin", "*");
                              ("Access-Control-Allow-Methods", "GET, POST, OPTIONS");
                              ("Access-Control-Allow-Headers", "Content-Type")];
                  body := None |}, w))
  /\
  (incoming_method msg <> "OPTIONS" ->
   URL_pathname url base = None ->
   request_listener atom JSON_parse JSON_stringify Date_now URL_pathname
     host port msg w
   = (Threw (ErrorInst "TypeError" "Invalid URL"), w))
  /\
  (forall pathname,
      incoming_method msg <> "OPTIONS" ->
      URL_pathname url base = Some pathname ->
      (incoming_method msg = "GET" -> pathname = "/health" ->
       forall now w1,
         Date_now w = (Returned now, w1) ->
         request_listener atom JSON_parse JSON_stringify Date_now URL_pathname
           host port msg w
         = (Returned {| status := 200; headers := json;
                        body := JSON_stringify
                                  (VObj [("status", VStr "ok");
                                         ("timestamp", VNum now)]) |}, w1))
      /\ (incoming_method msg = "GET" -> pathname = "/tools" ->
          exists entries,
            map (fun entry => field entry "name") entries
            = [VStr "GetActiveEditor"; VStr "InsertText"; VStr "OpenFile";
               VStr "GetProjectPaths"; VStr "SaveFile"; VStr "SetSelections";
               VStr "GetSelections"; VStr "CloseFile"; VStr "FindText";
               VStr "AddProjectPath"]
            /\ request_listener atom JSON_parse JSON_stringify Date_now URL_pathname
                 host port msg w
               = (Returned {| status := 200; headers := json;
                              body := JSON_stringify
                                        (VObj [("tools", VArr entries)]) |}, w))
      /\ (~ (incoming_method msg = "GET"
             /\ (pathname = "/health" \/ pathname = "/tools")) ->
          request_listener atom JSON_parse JSON_stringify Date_now URL_pathname
            host port msg w
          = (Returned {| status := 404; headers := json;
                         body := JSON_stringify
                                   (VObj [("error", VStr "Not found")]) |}, w))).
Proof.
  intros Hpost base url json.
  assert (Hp : (incoming_method msg =? "POST")%string = false).
  { destruct (String.eqb_spec (incoming_method msg) "POST");
      [contradiction | reflexivity]. }
  split; [| split; [| split]].
  - intros atom'. unfold request_listener.
    destruct (incoming_method msg =? "OPTIONS")%string; [reflexivity |].
    destruct (URL_pathname _ _) as [pathname |]; [| reflexivity].
    unfold handle_http. cbn [req_method req_pathname]. rewrite Hp.
    destruct (tool_route pathname); reflexivity.
  - intros Ho. rewrite (request_listener_options host port msg Ho).
    unfold handle_http. cbn [req_method]. rewrite Ho. reflexivity.
  - intros Ho Hu. exact (request_listener_invalid host port msg w Ho Hu).
  - intros pathname Ho Hu.
    rewrite (request_listener_parsed host port msg pathname Ho Hu).
    assert (Hno : (incoming_method msg =? "OPTIONS")%string = false).
    { destruct (String.eqb_spec (incoming_method msg) "OPTIONS");
        [contradiction | reflexivity]. }
    unfold handle_http. cbn [req_method req_pathname req_body]. rewrite Hno, Hp.
    split; [| split].
    + intros Hg Hh now w1 Hnow. rewrite Hg, Hh. cbn [String.eqb Ascii.eqb Bool.eqb andb].
      unfold try_catch, bind. rewrite Hnow. reflexivity.
    + intros Hg Ht. exists (map tool_to_js tools). split; [reflexivity |].
      rewrite Hg, Ht. reflexivity.
    + intros Hnot.
      assert (Hanswer :
                forall w0 : W,
                  match tool_route pathname with
                  | Some _ => sendJson JSON_stringify (VObj [("error", VStr "Not found")]) 404
                  | None => sendJson JSON_stringify (VObj [("error", VStr "Not found")]) 404
                  end w0
                  = (Returned {| status := 404; headers := json_headers;
                                 body := JSON_stringify
                                           (VObj [("error", VStr "Not found")]) |},
                     w0)).
      { intros w0. destruct (tool_route pathname); reflexivity. }
      destruct (String.eqb_spec (incoming_method msg) "GET") as [Hg | Hg].
      * destruct (String.eqb_spec pathname "/health") as [Hh | Hh];
          [exfalso; apply Hnot; split; [exact Hg | left; exact Hh] |].
        destruct (String.eqb_spec pathname "/tools") as [Ht | Ht];
          [exfalso; apply Hnot; split; [exact Hg | right; exact Ht] |].
        cbn [andb]. unfold try_catch. rewrite Hanswer. reflexivity.
      * cbn [andb]. unfold try_catch. rewrite Hanswer. reflexivity.
Qed.

(** X11: a POST whose URL [new URL] accepts is always answered: the listener
    returns a response and does not throw, whatever the editor does.  On the
    tool route, when the body is empty or parses and [executeTool] returns
    an envelope, the status is 200 for [success: true] and 400 otherwise,
    and the body is the envelope.  A POST whose URL [new URL] rejects is not
    answered: the listener rejects with that [TypeError] and nothing else
    happens. *)
Theorem post_is_always_answered host port msg w :
  incoming_method msg = "POST" ->
  let base := "http://" ++ host ++ ":" ++ Z_to_string port in
  let url := match incoming_url msg with Some given => given | None => "/" end in
  (URL_pathname url base = None ->
   request_listener atom JSON_parse JSON_stringify Date_now URL_pathname
     host port msg w
   = (Threw (ErrorInst "TypeError" "Invalid URL"), w))
  /\
  (forall pathname,
      URL_pathname url base = Some pathname ->
      (exists r w',
          request_listener atom JSON_parse JSON_stringify Date_now URL_pathname
            host port msg w
          = (Returned r, w'))
      /\ (forall toolName args result w',
            tool_route pathname = Some toolName ->
            (incoming_body msg = "" /\ args = VObj [])
            \/ (incoming_body msg <> "" /\ JSON_parse (incoming_body msg) = Some args) ->
            executeTool atom toolName args w = (Returned result, w') ->
            request_listener atom JSON_parse JSON_stringify Date_now URL_pathname
              host port msg w
            = (Returned {| status := if success result then 200 else 400;
                           headers := [("Content-Type", "application/json");
                                       ("Access-Control-Allow-Origin", "*")];
                           body := JSON_stringify (result_to_js result) |}, w'))).
Proof.
  intros Hm base url.
  assert (Ho : incoming_method msg <> "OPTIONS").
  { rewrite Hm. discriminate. }
  split.
  - intros Hu. exact (request_listener_invalid host port msg w Ho Hu).
  - intros pathname Hu.
    rewrite (request_listener_parsed host port msg pathname Ho Hu).
    pose (req := {| req_method := incoming_method msg; req_pathname := pathname;
                    req_body := incoming_body msg |}).
    destruct (post_answer req w Hm) as [Hall Htool].
    split; [exact Hall |].
    intros toolName args result w' Hr Hbody He.
    apply (Htool toolName args result w' Hr); [| exact He].
    destruct Hbody as [[Hb ->] | [Hb Hparse]].
    + apply parseBody_empty. exact Hb.
    + apply parseBody_value; assumption.
Qed.

End ListenerMore.

Lemma executeTool_throws_only_on_conversion_witness :
  let odd := Raw (VObj [("toString", VNum 1)]) in
  let args := VObj [("text", VStr "hi")] in
  executeTool_switch (failing_atom (new_Error "Buffer is read-only")) "InsertText" args ""
  = (Threw (new_Error "Buffer is read-only"), "")
  /\ executeTool (failing_atom (new_Error "Buffer is read-only")) "InsertText" args ""
     = (Returned (failed "Buffer is read-only"), "")
  /\ executeTool (failing_atom odd) "InsertText" args ""
     = (Threw (TypeError "Cannot convert object to primitive value"), "")
  /\ exists v,
      executeTool_switch (failing_atom odd) "InsertText" args "" = (Threw (Raw v), "")
      /\ to_string_opt v = None.
Proof.
  intros odd args.
  split; [reflexivity | split; [| split; [reflexivity |]]].
  - exact (proj2 (executeTool_throws_only_on_conversion
                    (failing_atom (new_Error "Buffer is read-only")) "InsertText" args "")
             "Error" "Buffer is read-only" "" eq_refl).
  - exact (proj2 (proj1 (executeTool_throws_only_on_conversion
                           (failing_atom odd) "InsertText" args "")
                    _ "" eq_refl)).
Defined.

Lemma responses_allow_any_origin_witness :
  let run := handle_http (demo_atom false) Json.parse Json.stringify (fixed_clock 0) in
  let broken := {| req_method := "POST"; req_pathname := "/tools/SaveFile";
                   req_body := "{" |} in
  exists answer,
    run broken "" = (Returned answer, "")
    /\ status answer = 500
    /\ In ("Access-Control-Allow-Origin", "*") (headers answer)
    /\ In (status answer) [200; 204; 400; 404; 500].
Proof.
  intros run broken. eexists.
  split; [reflexivity | split; [reflexivity |]].
  exact (responses_allow_any_origin (demo_atom false) Json.parse Json.stringify
           (fixed_clock 0) broken "" _ "" eq_refl).
Defined.

Lemma only_post_reaches_the_editor_witness :
  let pathname_of := fun input (_ : string) =>
                       if (input =? "//")%string then None else Some input in
  let listener atom :=
    request_listener atom Json.parse Json.stringify (fixed_clock 0) pathname_of
      "127.0.0.1" 3000 in
  let get target := {| incoming_method := "GET"; incoming_url := Some target;
                       incoming_body := "" |} in
  listener (demo_atom true) (get "/tools/SaveFile") "abc"
  = listener (failing_atom (new_Error "x")) (get "/tools/SaveFile") "abc"
  /\ listener (demo_atom true) (get "/tools/SaveFile") "abc"
     = (Returned {| status := 404;
                    headers := [("Content-Type", "application/json");
                                ("Access-Control-Allow-Origin", "*")];
                    body := Some ("{" ++ quoted "error" ++ ":" ++ quoted "Not found"
                                    ++ "}") |}, "abc")
  /\ listener (demo_atom true) (get "//") "abc"
     = (Threw (ErrorInst "TypeError" "Invalid URL"), "abc").
Proof.
  intros pathname_of listener get.
  assert (Hm : forall target, incoming_method (get target) <> "POST")
    by (intros target; discriminate).
  split; [| split].
  - exact (proj1 (only_post_reaches_the_editor (demo_atom true) Json.parse
                    Json.stringify (fixed_clock 0) pathname_of "127.0.0.1" 3000
                    (get "/tools/SaveFile") "abc" (Hm _))
             (failing_atom (new_Error "x"))).
  - pose proof (only_post_reaches_the_editor (demo_atom true) Json.parse
                  Json.stringify (fixed_clock 0) pathname_of "127.0.0.1" 3000
                  (get "/tools/SaveFile") "abc" (Hm _)) as H.
    cbv zeta in H. destruct H as (_ & _ & _ & Hrest).
    destruct (Hrest "/tools/SaveFile" ltac:(discriminate) eq_refl) as (_ & _ & Hnot).
    apply Hnot. intros [_ [H | H]]; discriminate H.
  - pose proof (only_post_reaches_the_editor (demo_atom true) Json.parse
                  Json.stringify (fixed_clock 0) pathname_of "127.0.0.1" 3000
                  (get "//") "abc" (Hm _)) as H.
    cbv zeta in H. destruct H as (_ & _ & Hbad & _).
    apply Hbad; [discriminate | reflexivity].
Defined.

Lemma post_is_always_answered_witness :
  let pathname_of := fun input (_ : string) =>
                       if (input =? "//")%string then None else Some input in
  let listener atom :=
    request_listener atom Json.parse Json.stringify (fixed_clock 0) pathname_of
      "127.0.0.1" 3000 in
  let post target :=
    {| incoming_method := "POST"; incoming_url := Some target;
       incoming_body := "{" ++ quoted "text" ++ ":" ++ quoted "hi" ++ "}" |} in
  let odd := Raw (VObj [("toString", VNum 1)]) in
  (exists r w', listener (failing_atom odd) (post "/tools/InsertText") "" = (Returned r, w'))
  /\ response_status (fst (listener (failing_atom odd) (post "/tools/InsertText") ""))
     = Some 500
  /\ listener (demo_atom true) (post "/tools/InsertText") ""
     = (Returned {| status := 200;
                    headers := [("Content-Type", "application/json");
                                ("Access-Control-Allow-Origin", "*")];
                    body := Some ("{" ++ quoted "success" ++ ":true,"
                                    ++ quoted "data" ++ ":{" ++ quoted "inserted"
                                    ++ ":true}}") |},
        "hi")
  /\ listener (demo_atom true) (post "//") ""
     = (Threw (ErrorInst "TypeError" "Invalid URL"), "").
Proof.
  intros pathname_of listener post odd.
  split; [| split; [reflexivity | split]].
  - exact (proj1 (proj2 (post_is_always_answered (failing_atom odd) Json.parse
                           Json.stringify (fixed_clock 0) pathname_of "127.0.0.1" 3000
                           (post "/tools/InsertText") "" eq_refl)
                    "/tools/InsertText" eq_refl)).
  - refine (proj2 (proj2 (post_is_always_answered (demo_atom true) Json.parse
                            Json.stringify (fixed_clock 0) pathname_of "127.0.0.1" 3000
                            (post "/tools/InsertText") "" eq_refl)
                     "/tools/InsertText" eq_refl)
              "InsertText" (VObj [("text", VStr "hi")])
              {| success := true; data := Some (VObj [("inserted", VBool true)]);
                 error := None |} "hi" eq_refl _ eq_refl).
    right. split; [discriminate | reflexivity].
  - exact (proj1 (post_is_always_answered (demo_atom true) Json.parse
                    Json.stringify (fixed_clock 0) pathname_of "127.0.0.1" 3000
                    (post "//") "" eq_refl) eq_refl).
Defined.

(** ** More on [executeTool] *)

Section ExecuteToolMore.

Context {W : Type}.
Variable atom : Atom W.

Local Abbreviation run := (executeTool atom).

Ltac refuse Hn :=
  unfold executeTool, executeTool_switch; cbn -[includes];
  unfold try_catch, bind, get_prop; rewrite Hn; unfold ret.

(** X12: arguments that fail a tool's check never reach the editor: the
    result is the failure with the check's message and the editor's state is
    untouched.  [text] must be a string for [InsertText] and
    [ReplaceSelection], [path] a string for [OpenFile] and
    [RevealInTreeView], [line] a number for [GoToPosition], [ranges] an array
    that is not empty for [SetSelections], and [direction] one of the four
    directions for [SplitPane]. *)
Theorem invalid_arguments_never_reach_the_editor args w :
  nullish args = false ->
  (is_string (field args "text") = false ->
   run "InsertText" args w = (Returned (failed "text is required"), w)
   /\ run "ReplaceSelection" args w = (Returned (failed "text is required"), w))
  /\ (is_string (field args "path") = false ->
      run "OpenFile" args w = (Returned (failed "path is required"), w)
      /\ run "RevealInTreeView" args w = (Returned (failed "path is required"), w))
  /\ (is_number (field args "line") = false ->
      run "GoToPosition" args w = (Returned (failed "line is required"), w))
  /\ ((forall r rs, field args "ranges" <> VArr (r :: rs)) ->
      run "SetSelections" args w = (Returned (failed "ranges array is required"), w))
  /\ (includes ["left"; "right"; "up"; "down"] (field args "direction") = false ->
      run "SplitPane" args w
      = (Returned (failed "direction must be one of: left, right, up, down"), w)).
Proof.
  intros Hn. split; [| split; [| split; [| split]]].
  - intros H. split; refuse Hn;
      destruct (field args "text"); try discriminate H; reflexivity.
  - intros H. split; refuse Hn;
      destruct (field args "path"); try discriminate H; reflexivity.
  - intros H. refuse Hn. rewrite H. reflexivity.
  - intros H. refuse Hn.
    destruct (field args "ranges") as [| | | | | [| r rs] |] eqn:E;
      try reflexivity.
    exfalso. exact (H r rs eq_refl).
  - intros H. refuse Hn. rewrite H. reflexivity.
Qed.

(** X13: with [null] (or [undefined]) for the arguments, as after a request
    body [null], the ten tools that read an argument fail with the message
    of the [TypeError] of that first read and leave the editor untouched; the
    six tools that read none behave as with [{}]. *)
Theorem null_arguments args w :
  nullish args = true ->
  (forall toolName property,
      In (toolName, property)
        [("InsertText", "text"); ("ReplaceSelection", "text"); ("OpenFile", "path");
         ("GoToPosition", "line"); ("SaveFile", "path"); ("SetSelections", "ranges");
         ("RevealInTreeView", "path"); ("CloseFile", "path");
         ("SplitPane", "direction"); ("ClosePane", "saveAll")] ->
      run toolName args w
      = (Returned (failed ("Cannot read properties of " ++ describe_nullish args
                             ++ " (reading '" ++ property ++ "')")), w))
  /\ (forall toolName,
        In toolName ["GetActiveEditor"; "GetSelection"; "GetOpenEditors";
                     "GetProjectPaths"; "GetAllSelections"; "GetPanelState"] ->
        run toolName args w = run toolName (VObj []) w).
Proof.
  intros Hn. split.
  - intros toolName property Hin. simpl in Hin.
    repeat (destruct Hin as [Heq | Hin];
            [injection Heq as <- <-; refuse Hn; reflexivity |]).
    contradiction.
  - intros toolName Hin. simpl in Hin.
    repeat (destruct Hin as [<- | Hin]; [reflexivity |]).
    contradiction.
Qed.

Lemma get_prop_defined (v : JsVal) (k : string) :
  nullish v = false -> get_prop (S := W) v k = ret (field v k).
Proof. intros H. unfold get_prop. rewrite H. reflexivity. Qed.

Lemma bind_ret {A B} (a : A) (k : A -> JS W B) : bind (ret a) k = k a.
Proof. reflexivity. Qed.

Lemma guarded_answer (m : JS W bool) (k : bool -> ExecutionResult)
    (h : Thrown -> JS W ExecutionResult) w :
  exists b w',
    try_catch (bind (try_catch m (fun _ => ret false)) (fun result => ret (k result))) h w
    = (Returned (k b), w').
Proof.
  unfold try_catch, bind, ret.
  destruct (m w) as [[b | e] w1]; eexists; eexists; reflexivity.
Qed.

Ltac read_arguments Hn :=
  unfold executeTool, executeTool_switch;
  cbn [String.eqb Ascii.eqb Bool.eqb];
  repeat (rewrite (get_prop_defined _ _ Hn), bind_ret).

(** X14: the tools whose editor function is one [try] around everything never
    answer with an [error] once their arguments pass: whatever the editor
    does, throwing included, [SaveFile], [CloseFile] and [ClosePane] (with
    arguments that are not [null]), [OpenFile] and [RevealInTreeView] (with a
    string [path]) and [SplitPane] (with one of the four directions) return
    [{ success: b, data: { <verb>: b } }] for a boolean [b]. *)
Theorem guarded_tools_never_explain args w :
  nullish args = false ->
  (exists b w', run "SaveFile" args w
                = (Returned (reported b (VObj [("saved", VBool b)])), w'))
  /\ (exists b w', run "CloseFile" args w
                   = (Returned (reported b (VObj [("closed", VBool b)])), w'))
  /\ (exists b w', run "ClosePane" args w
                   = (Returned (reported b (VObj [("closed", VBool b)])), w'))
  /\ (is_string (field args "path") = true ->
      (exists b w', run "OpenFile" args w
                    = (Returned (reported b (VObj [("opened", VBool b)])), w'))
      /\ (exists b w', run "RevealInTreeView" args w
                       = (Returned (reported b (VObj [("revealed", VBool b)])), w')))
  /\ (includes ["left"; "right"; "up"; "down"] (field args "direction") = true ->
      exists b w', run "SplitPane" args w
                   = (Returned (reported b (VObj [("split", VBool b);
                                                  ("direction", field args "direction")])),
                      w')).
Proof.
  intros Hn. split; [| split; [| split; [| split]]].
  - read_arguments Hn.
    exact (guarded_answer _ (fun b => reported b (VObj [("saved", VBool b)])) _ w).
  - read_arguments Hn.
    exact (guarded_answer _ (fun b => reported b (VObj [("closed", VBool b)])) _ w).
  - read_arguments Hn.
    exact (guarded_answer _ (fun b => reported b (VObj [("closed", VBool b)])) _ w).
  - intros Hs. destruct (field args "path") as [| | | | p | |] eqn:E;
      try discriminate Hs.
    split.
    + read_arguments Hn. rewrite E.
      repeat (rewrite (get_prop_defined _ _ Hn), bind_ret).
      exact (guarded_answer _ (fun b => reported b (VObj [("opened", VBool b)])) _ w).
    + read_arguments Hn. rewrite E.
      exact (guarded_answer _ (fun b => reported b (VObj [("revealed", VBool b)])) _ w).
  - intros Hd. read_arguments Hn. rewrite Hd.
    repeat (rewrite (get_prop_defined _ _ Hn), bind_ret).
    exact (guarded_answer _
             (fun b => reported b (VObj [("split", VBool b);
                                         ("direction", field args "direction")])) _ w).
Qed.

End ExecuteToolMore.

Lemma invalid_arguments_never_reach_the_editor_witness :
  let run := executeTool (demo_atom true) in
  run "InsertText" (VObj []) "doc" = (Returned (failed "text is required"), "doc")
  /\ run "OpenFile" (VObj [("path", VNum 7)]) "doc"
     = (Returned (failed "path is required"), "doc")
  /\ run "GoToPosition" (VObj [("line", VStr "3")]) "doc"
     = (Returned (failed "line is required"), "doc")
  /\ run "SetSelections" (VObj [("ranges", VArr [])]) "doc"
     = (Returned (failed "ranges array is required"), "doc")
  /\ run "SplitPane" (VObj [("direction", VStr "Left")]) "doc"
     = (Returned (failed "direction must be one of: left, right, up, down"), "doc").
Proof.
  cbv zeta. split; [| split; [| split; [| split]]].
  - exact (proj1 (proj1 (invalid_arguments_never_reach_the_editor
                           (demo_atom true) (VObj []) "doc" eq_refl) eq_refl)).
  - exact (proj1 (proj1 (proj2 (invalid_arguments_never_reach_the_editor
                                  (demo_atom true) (VObj [("path", VNum 7)]) "doc" eq_refl))
                    eq_refl)).
  - exact (proj1 (proj2 (proj2 (invalid_arguments_never_reach_the_editor
                                  (demo_atom true) (VObj [("line", VStr "3")]) "doc"
                                  eq_refl)))
             eq_refl).
  - refine (proj1 (proj2 (proj2 (proj2 (invalid_arguments_never_reach_the_editor
                                          (demo_atom true) (VObj [("ranges", VArr [])])
                                          "doc" eq_refl)))) _).
    intros r rs H. discriminate H.
  - exact (proj2 (proj2 (proj2 (proj2 (invalid_arguments_never_reach_the_editor
                                         (demo_atom true)
                                         (VObj [("direction", VStr "Left")]) "doc"
                                         eq_refl))))
             eq_refl).
Defined.

Lemma null_arguments_witness :
  executeTool (demo_atom true) "SaveFile" VNull "doc"
  = (Returned (failed "Cannot read properties of null (reading 'path')"), "doc")
  /\ executeTool (demo_atom true) "GetProjectPaths" VNull "doc"
     = executeTool (demo_atom true) "GetProjectPaths" (VObj []) "doc".
Proof.
  split.
  - refine (proj1 (null_arguments (demo_atom true) VNull "doc" eq_refl)
              "SaveFile" "path" _).
    simpl. tauto.
  - refine (proj2 (null_arguments (demo_atom true) VNull "doc" eq_refl)
              "GetProjectPaths" _).
    simpl. tauto.
Defined.

Lemma guarded_tools_never_explain_witness :
  exists b w',
    executeTool (failing_atom (ErrorInst "Error" "disk full")) "SaveFile" (VObj []) "doc"
    = (Returned (reported b (VObj [("saved", VBool b)])), w').
Proof.
  exact (proj1 (guarded_tools_never_explain
                  (failing_atom (ErrorInst "Error" "disk full")) (VObj []) "doc" eq_refl)).
Defined.

(** ** The editor functions of the two variants *)

Section Executors.

Context {W : Type}.
Variable atom : Atom W.

Lemma buffer_range_built (r : JsVal) (w : W) :
  nullish r = false -> buffer_range r w = (Returned (buffer_range_of r), w).
Proof. intros Hr. unfold buffer_range, bind, get_prop. rewrite Hr. reflexivity. Qed.

Lemma buffer_ranges_built (ranges : list JsVal) (w : W) :
  forallb (fun r => negb (nullish r)) ranges = true ->
  map_js (buffer_range (W := W)) ranges w = (Returned (map buffer_range_of ranges), w).
Proof.
  induction ranges as [| r rest IH]; intros H.
  - reflexivity.
  - cbn [forallb] in H. apply andb_true_iff in H. destruct H as [Hr Hrest].
    apply negb_true_iff in Hr.
    cbn [map_js map].
    rewrite (bind_step _ _ _ _ _ (buffer_range_built r w Hr)).
    rewrite (bind_step _ _ _ _ _ (IH Hrest)). reflexivity.
Qed.

Lemma buffer_ranges_refused (ranges : list JsVal) (w : W) :
  existsb nullish ranges = true ->
  exists e, map_js (buffer_range (W := W)) ranges w = (Threw e, w).
Proof.
  induction ranges as [| r rest IH]; intros H.
  - discriminate H.
  - cbn [existsb] in H. cbn [map_js].
    destruct (nullish r) eqn:Hr.
    + eexists. apply bind_threw.
      unfold buffer_range, bind, get_prop. rewrite Hr. reflexivity.
    + cbn [orb] in H. destruct (IH H) as [e He].
      rewrite (bind_step _ _ _ _ _ (buffer_range_built r w Hr)).
      exists e. apply bind_threw. exact He.
Qed.

(** X15: with an editor open, [setSelections] hands the editor exactly the
    pairs [[[startRow, startColumn], [endRow, endColumn]]] of the ranges, in
    order, when no range is [null] or [undefined], and answers [false] for
    what the editor throws; with a [null] or [undefined] range anywhere in
    the list it answers [false] and the editor's selections are not set. *)
Theorem setSelections_hands_over_buffer_ranges ranges w editor w1 :
  getActiveTextEditor atom w = (Returned (Some editor), w1) ->
  (forallb (fun r => negb (nullish r)) ranges = true ->
   setSelections atom ranges w
   = try_catch
       (bind (setSelectedBufferRanges atom editor (VArr (map buffer_range_of ranges)))
          (fun _ => ret true))
       (fun _ => ret false) w1)
  /\ (existsb nullish ranges = true ->
      setSelections atom ranges w = (Returned false, w1)).
Proof.
  intros Ha. split; intros H.
  - unfold setSelections. rewrite (bind_step _ _ _ _ _ Ha).
    unfold try_catch. rewrite (bind_step _ _ _ _ _ (buffer_ranges_built ranges w1 H)).
    reflexivity.
  - unfold setSelections. rewrite (bind_step _ _ _ _ _ Ha).
    destruct (buffer_ranges_refused ranges w1 H) as [e He].
    unfold try_catch. rewrite (bind_threw _ _ _ _ _ He). reflexivity.
Qed.

Lemma truthy_path (p : string) : truthy (VStr p) = negb (p =? "")%string.
Proof. destruct p; reflexivity. Qed.

(** X16: the editor functions of the registry variant and of the switch
    variant, on arguments that are not [null].  [saveFile], [closeFile],
    [closePane], [openFile] and [revealInTreeView] of the switch variant are
    the registry variant's function inside a [try] that answers [false];
    [replaceSelection] is the same function; and whenever the registry
    variant's [goToPosition] or [setSelections] returns, the switch variant's
    returns the same boolean and leaves the editor in the same state. *)
Theorem variants_of_the_editor_functions args w :
  nullish args = false ->
  saveFile atom (field args "path") w
  = try_catch (toolImpls.saveFile atom args) (fun _ => ret false) w
  /\ closeFile atom (field args "path") (field args "save") w
     = try_catch (toolImpls.closeFile atom args) (fun _ => ret false) w
  /\ closePane atom (field args "saveAll") w
     = try_catch (toolImpls.closePane atom args) (fun _ => ret false) w
  /\ (forall p, field args "path" = VStr p ->
        openFile atom p (field args "line") (field args "column") w
        = try_catch (toolImpls.openFile atom args) (fun _ => ret false) w
        /\ revealInTreeView atom p w
           = try_catch (toolImpls.revealInTreeView atom args) (fun _ => ret false) w)
  /\ (forall text, field args "text" = VStr text ->
        replaceSelection atom text w = toolImpls.replaceSelection atom args w)
  /\ (forall b w',
        toolImpls.goToPosition atom args w = (Returned b, w') ->
        goToPosition atom (field args "line") (field args "column") w = (Returned b, w'))
  /\ (forall ranges b w',
        field args "ranges" = VArr ranges ->
        toolImpls.setSelections atom args w = (Returned b, w') ->
        setSelections atom ranges w = (Returned b, w')).
Proof.
  intros Hn.
  assert (Hget : forall k, get_prop (S := W) args k = ret (field args k)).
  { intros k. unfold get_prop. rewrite Hn. reflexivity. }
  split; [| split; [| split; [| split; [intros p H; split | split; [| split]]]]].
  - unfold toolImpls.saveFile, saveFile. rewrite Hget. reflexivity.
  - unfold toolImpls.closeFile, closeFile. rewrite !Hget. reflexivity.
  - unfold toolImpls.closePane, closePane. rewrite Hget. reflexivity.
  - unfold toolImpls.openFile, openFile. rewrite !Hget. rewrite H. reflexivity.
  - unfold toolImpls.revealInTreeView, revealInTreeView. rewrite Hget.
    unfold try_catch, bind, ret. rewrite H. rewrite truthy_path. reflexivity.
  - intros text Ht. unfold toolImpls.replaceSelection, replaceSelection.
    rewrite Hget. unfold bind, ret. rewrite Ht. reflexivity.
  - intros b w' H. unfold toolImpls.goToPosition in H. rewrite !Hget in H.
    unfold goToPosition. unfold bind, ret, try_catch in H |- *.
    destruct (getActiveTextEditor atom w) as [[[editor |] | e] w1]; try exact H.
    destruct (setCursorBufferPosition atom editor _ _ w1) as [[[] | e] w2];
      try discriminate H.
    destruct (scrollToCursorPosition atom editor w2) as [[[] | e] w3];
      try discriminate H.
    exact H.
  - intros ranges b w' Hr H. unfold toolImpls.setSelections in H. rewrite Hget in H.
    unfold setSelections. unfold bind, ret, try_catch in H |- *. rewrite Hr in H.
    destruct (getActiveTextEditor atom w) as [[[editor |] | e] w1]; try exact H.
    destruct (map_js buffer_range ranges w1) as [[bufferRanges | e] w2];
      try discriminate H.
    destruct (setSelectedBufferRanges atom editor (VArr bufferRanges) w2)
      as [[[] | e] w3]; try discriminate H.
    exact H.
Qed.

End Executors.

Lemma setSelections_hands_over_buffer_ranges_witness :
  setSelections (demo_atom true) [VNull] "doc" = (Returned false, "doc").
Proof.
  exact (proj2 (setSelections_hands_over_buffer_ranges
                  (demo_atom true) [VNull] "doc" 0%nat "doc" eq_refl) eq_refl).
Defined.

Lemma variants_of_the_editor_functions_witness :
  saveFile (failing_atom (ErrorInst "Error" "disk full")) (field (VObj []) "path") "doc"
  = try_catch (toolImpls.saveFile (failing_atom (ErrorInst "Error" "disk full")) (VObj []))
      (fun _ => ret false) "doc".
Proof.
  exact (proj1 (variants_of_the_editor_functions
                  (failing_atom (ErrorInst "Error" "disk full")) (VObj []) "doc" eq_refl)).
Defined.

(** ** Starting and stopping, continued *)

(** X18: when the port is held by another socket, the bridge that
    [startBridge] returns cannot be stopped: the first [stopBridge] already
    rejects with the server-not-running error of [close], changes nothing
    and does not log that the bridge stopped. *)
Theorem stop_after_a_failed_start config s b s1 :
  ports_in_use s (default_to (port config) DEFAULT_PORT) = true ->
  listening s = None ->
  startBridge config s = (Returned b, s1) ->
  stopBridge b s1 = (Threw ERR_SERVER_NOT_RUNNING, s1)
  /\ ~ In "[claude-chat] MCP bridge stopped" (skipn (List.length (console s)) (console s1)).
Proof.
  intros Htaken Hidle Hstart.
  unfold startBridge, bind, listen, console_log, modify, ret in Hstart.
  rewrite Htaken in Hstart. injection Hstart as <- <-.
  split.
  - unfold stopBridge. apply bind_threw.
    cbn [stop]. unfold close_server. cbn [listening]. rewrite Hidle. reflexivity.
  - cbn [console]. rewrite skipn_app, skipn_all, Nat.sub_diag. cbn [skipn app].
    intros [H | []]. cbn [append] in H. discriminate H.
Qed.

Lemma stop_after_a_failed_start_witness :
  exists b s1,
    startBridge {| port := Some 3000; host := None |} (fresh_process [3000])
    = (Returned b, s1)
    /\ stopBridge b s1 = (Threw ERR_SERVER_NOT_RUNNING, s1).
Proof.
  eexists. eexists. split; [reflexivity |].
  exact (proj1 (stop_after_a_failed_start
                  {| port := Some 3000; host := None |} (fresh_process [3000]) _ _
                  eq_refl eq_refl eq_refl)).
Defined.

(** ** Strings *)

Lemma length_app (s t : string) :
  String.length (s ++ t) = (String.length s + String.length t)%nat.
Proof. induction s as [| c s IH]; simpl; [reflexivity | rewrite IH; reflexivity]. Qed.

Lemma string_app_assoc (a b c : string) : (a ++ b) ++ c = a ++ (b ++ c).
Proof. induction a as [| x a IH]; simpl; [reflexivity | rewrite IH; reflexivity]. Qed.

Lemma length_take_chars (n : nat) (s : string) :
  String.length (take_chars n s) = Nat.min n (String.length s).
Proof.
  revert s. induction n as [| n IH]; intros [| c s]; simpl; try reflexivity.
  rewrite IH. reflexivity.
Qed.

Lemma length_drop_chars (n : nat) (s : string) :
  String.length (drop_chars n s) = (String.length s - n)%nat.
Proof.
  revert s. induction n as [| n IH]; intros [| c s]; simpl; try reflexivity.
  apply IH.
Qed.

Lemma take_chars_all (n : nat) (s : string) :
  (String.length s <= n)%nat -> take_chars n s = s.
Proof.
  revert s. induction n as [| n IH]; intros [| c s] H; simpl in *; try reflexivity.
  - lia.
  - rewrite IH; [reflexivity | lia].
Qed.

Lemma take_chars_app (n : nat) (s t : string) :
  (n <= String.length s)%nat -> take_chars n (s ++ t) = take_chars n s.
Proof.
  revert s. induction n as [| n IH]; intros [| c s] H; simpl in *;
    try reflexivity; try lia.
  rewrite IH; [reflexivity | lia].
Qed.

Lemma take_chars_idem (n : nat) (s : string) :
  take_chars n (take_chars n s) = take_chars n s.
Proof.
  apply take_chars_all. rewrite length_take_chars. lia.
Qed.

Lemma drop_chars_beyond (n : nat) (s : string) :
  (String.length s <= n)%nat -> drop_chars n s = "".
Proof.
  revert s. induction n as [| n IH]; intros [| c s] H; simpl in *;
    try reflexivity; try lia.
  apply IH. lia.
Qed.

Lemma drop_chars_app (p s : string) : drop_chars (String.length p) (p ++ s) = s.
Proof. induction p as [| c p IH]; simpl; [destruct s; reflexivity | exact IH]. Qed.

Lemma prefix_app (p s : string) : String.prefix p (p ++ s) = true.
Proof.
  induction p as [| c p IH]; simpl.
  - destruct s; reflexivity.
  - destruct (ascii_dec c c) as [_ | H]; [exact IH | contradiction H; reflexivity].
Qed.

Lemma eqb_empty_length (t : string) :
  (t =? "")%string = true -> String.length t = 0%nat.
Proof. destruct t; [reflexivity | discriminate]. Qed.

(** ** Result parsing *)

Lemma fits_iff (t : string) (m : Z) :
  0 <= m ->
  ((t =? "")%string || (Z.of_nat (String.length t) <=? m)) = true
  <-> Z.of_nat (String.length t) <= m.
Proof.
  intros Hm. rewrite orb_true_iff, Z.leb_le. split; [| auto].
  intros [H | H]; [| exact H].
  apply eqb_empty_length in H. lia.
Qed.

(** X19: for a text and a limit that is not negative (500 when left out),
    [truncate] answers a text that starts with the same characters up to the
    limit; it answers the text itself when that fits, and otherwise the
    limit's worth of characters and then the suffix (three dots when left
    out).  Truncating the answer again changes nothing.
    [truncateWithCount] is [truncate] with the suffix that counts the
    characters left out. *)
Theorem truncate_keeps_a_prefix (t : string) (maxLength : option Z) (suffix : option string) :
  let m := default_to maxLength 500 in
  let len := Z.of_nat (String.length t) in
  0 <= m ->
  exists r,
    truncate (Some t) maxLength suffix = Some r
    /\ slice_to r m = slice_to t m
    /\ (len <= m -> r = t)
    /\ (m < len ->
        r = take_chars (Z.to_nat m) t ++ default_to suffix "..."
        /\ Z.of_nat (String.length r)
           = m + Z.of_nat (String.length (default_to suffix "...")))
    /\ truncate (Some r) maxLength suffix = Some r
    /\ truncateWithCount (Some t) maxLength
       = truncate (Some t) maxLength
           (Some (String "010" "... (" ++ Z_to_string (len - m) ++ " more chars)")).
Proof.
  intros m len Hm. subst len.
  unfold truncate, truncateWithCount. cbv zeta.
  change (default_to maxLength 500) with m. clearbody m.
  set (sfx := default_to suffix "...").
  cbn [default_to].
  destruct ((t =? "")%string || (Z.of_nat (String.length t) <=? m)) eqn:Hfit.
  - exists t. pose proof (proj1 (fits_iff t m Hm) Hfit) as Hle.
    split; [reflexivity |]. split; [reflexivity |].
    split; [reflexivity |]. split; [lia |].
    split; [| reflexivity].
    rewrite Hfit. reflexivity.
  - assert (Hlong : m < Z.of_nat (String.length t)).
    { destruct (Z.le_gt_cases (Z.of_nat (String.length t)) m) as [H | H]; [| lia].
      apply (fits_iff t m Hm) in H. rewrite H in Hfit. discriminate Hfit. }
    assert (Hcut : slice_to t m = take_chars (Z.to_nat m) t).
    { unfold slice_to, slice_index.
      destruct (m <? 0) eqn:E; [apply Z.ltb_lt in E; lia |].
      rewrite Z.min_l by lia. reflexivity. }
    assert (Hlen : String.length (take_chars (Z.to_nat m) t) = Z.to_nat m).
    { rewrite length_take_chars. lia. }
    rewrite Hcut.
    set (r := take_chars (Z.to_nat m) t ++ sfx).
    assert (Hr : slice_to r m = take_chars (Z.to_nat m) t).
    { unfold slice_to, slice_index.
      destruct (m <? 0) eqn:E; [apply Z.ltb_lt in E; lia |].
      assert (Hrl : String.length r = (Z.to_nat m + String.length sfx)%nat).
      { unfold r. rewrite length_app, Hlen. reflexivity. }
      rewrite Z.min_l by lia.
      unfold r. rewrite take_chars_app by lia. apply take_chars_idem. }
    exists r.
    split; [reflexivity |]. split; [exact Hr |].
    split; [lia |].
    split; [intros _; split; [reflexivity |
                              unfold r; rewrite length_app, Hlen; lia] |].
    split; [| reflexivity].
    destruct ((r =? "")%string || (Z.of_nat (String.length r) <=? m)); [reflexivity |].
    rewrite Hr. reflexivity.
Qed.

Lemma truncate_keeps_a_prefix_witness :
  truncate (Some "abcdef") (Some 3) None = Some "abc..."
  /\ truncate (Some "abc...") (Some 3) None = Some "abc..."
  /\ truncateWithCount (Some "abcdef") (Some 3)
     = Some ("abc" ++ String "010" "... (3 more chars)").
Proof.
  destruct (truncate_keeps_a_prefix "abcdef" (Some 3) None ltac:(simpl; lia))
    as (r & Hr & _ & _ & Hcut & Hagain & Hcount).
  destruct (Hcut ltac:(simpl; lia)) as [Heq _]. simpl in Heq. subst r.
  split; [exact Hr |]. split; [exact Hagain |].
  rewrite Hcount. reflexivity.
Defined.

(** X20: [truncatePath] with a limit above three (70 when left out) answers a
    path of at most the limit's length: the path itself when it fits, and
    otherwise three dots and the last characters of the path, the limit's
    length exactly; truncating the answer again changes nothing.  With a
    limit from 0 to 3 the answer for a longer path is never shorter than the
    path: the three dots and all of the path but its first [3 - limit]
    characters, so with the limit 3 the dots and then the whole path. *)
Theorem truncatePath_length (t : string) (maxLength : option Z) :
  let m := default_to maxLength 70 in
  let len := Z.of_nat (String.length t) in
  (3 < m ->
   exists r,
     truncatePath (Some t) maxLength = Some r
     /\ Z.of_nat (String.length r) = Z.min len m
     /\ (m < len -> r = "..." ++ drop_chars (Z.to_nat (len - (m - 3))) t)
     /\ truncatePath (Some r) maxLength = Some r)
  /\ (0 <= m <= 3 -> m < len ->
      truncatePath (Some t) maxLength = Some ("..." ++ drop_chars (Z.to_nat (3 - m)) t)
      /\ Z.of_nat (String.length ("..." ++ drop_chars (Z.to_nat (3 - m)) t))
         = Z.max 3 (len + m)).
Proof.
  intros m len. subst len.
  unfold truncatePath. cbv zeta.
  change (default_to maxLength 70) with m. clearbody m.
  split.
  - intros Hm.
    destruct ((t =? "")%string || (Z.of_nat (String.length t) <=? m)) eqn:Hfit.
    + exists t. pose proof (proj1 (fits_iff t m ltac:(lia)) Hfit) as Hle.
      split; [reflexivity |]. split; [lia |]. split; [lia |].
      rewrite Hfit. reflexivity.
    + assert (Hlong : m < Z.of_nat (String.length t)).
      { destruct (Z.le_gt_cases (Z.of_nat (String.length t)) m) as [H | H]; [| lia].
        apply (fits_iff t m ltac:(lia)) in H. rewrite H in Hfit. discriminate Hfit. }
      assert (Hcut : slice_from t (- (m - 3))
                     = drop_chars (Z.to_nat (Z.of_nat (String.length t) - (m - 3))) t).
      { unfold slice_from, slice_index.
        destruct (- (m - 3) <? 0) eqn:E; [| apply Z.ltb_ge in E; lia].
        rewrite Z.max_l by lia. f_equal; lia. }
      rewrite Hcut.
      set (r := "..." ++ drop_chars (Z.to_nat (Z.of_nat (String.length t) - (m - 3))) t).
      assert (Hrl : Z.of_nat (String.length r) = m).
      { unfold r. rewrite length_app, length_drop_chars. cbn [String.length]. lia. }
      exists r.
      split; [reflexivity |]. split; [lia |]. split; [reflexivity |].
      rewrite Hrl. rewrite (proj2 (Z.leb_le m m) (Z.le_refl m)).
      rewrite orb_true_r. reflexivity.
  - intros Hm Hlong.
    assert (Hfit : ((t =? "")%string || (Z.of_nat (String.length t) <=? m)) = false).
    { destruct ((t =? "")%string || (Z.of_nat (String.length t) <=? m)) eqn:Hfit;
        [| reflexivity].
      apply (fits_iff t m ltac:(lia)) in Hfit. lia. }
    rewrite Hfit.
    assert (Hcut : slice_from t (- (m - 3)) = drop_chars (Z.to_nat (3 - m)) t).
    { unfold slice_from, slice_index.
      destruct (- (m - 3) <? 0) eqn:E; [apply Z.ltb_lt in E; lia |].
      destruct (Z.le_gt_cases (3 - m) (Z.of_nat (String.length t))) as [H | H].
      - rewrite Z.min_l by lia. f_equal; lia.
      - rewrite Z.min_r by lia. rewrite !drop_chars_beyond by lia. reflexivity. }
    rewrite Hcut. split; [reflexivity |].
    rewrite length_app, length_drop_chars. cbn [String.length]. lia.
Qed.

Lemma truncatePath_length_witness :
  truncatePath (Some "src/lib/main.js") (Some 10) = Some "...main.js"
  /\ truncatePath (Some "abcdef") (Some 3) = Some "...abcdef".
Proof.
  split.
  - destruct (proj1 (truncatePath_length "src/lib/main.js" (Some 10)) ltac:(simpl; lia))
      as (r & Hr & _ & Hcut & _).
    rewrite Hr. rewrite (Hcut ltac:(simpl; lia)). reflexivity.
  - exact (proj1 (proj2 (truncatePath_length "abcdef" (Some 3))
                    ltac:(simpl; lia) ltac:(simpl; lia))).
Defined.

Section JsonResultFacts.

Variable JSON_parse : string -> option JsVal.

Local Abbreviation parse := (parseJsonResult JSON_parse).

Lemma try_returns {A} (m : JS unit A) (fallback : A) :
  exists v, try_catch m (fun _ => ret fallback) tt = (Returned v, tt).
Proof.
  unfold try_catch. destruct (m tt) as [[v | e] []]; eexists; reflexivity.
Qed.

(** X21: [parseJsonResult] never throws, whatever it is given.  A JSON text
    whether alone or as the text block of a content array, as [tools/call]
    answers it, gives the parsed value, or the [data] property of the parsed
    value when it has one that is not [null]; a text that is not JSON gives
    back what was passed in, unchanged; and [null], [undefined], [false],
    [0] and the empty string give [null]. *)
Theorem parseJsonResult_unwraps :
  (forall result, exists v, parse result tt = (Returned v, tt))
  /\ (forall text v,
        text <> "" ->
        JSON_parse text = Some v ->
        parse (VStr text) tt = (Returned (data_or_self v), tt)
        /\ parse (text_content (VStr text)) tt = (Returned (data_or_self v), tt))
  /\ (forall text,
        JSON_parse text = None ->
        parse (VStr text) tt = (Returned (if (text =? "")%string then VNull else VStr text), tt)
        /\ parse (text_content (VStr text)) tt = (Returned (text_content (VStr text)), tt))
  /\ (forall result, truthy result = false -> parse result tt = (Returned VNull, tt)).
Proof.
  split; [| split; [| split]].
  - intros result. unfold parseJsonResult.
    destruct (truthy result); cbn [negb].
    + apply try_returns.
    + exists VNull. reflexivity.
  - intros text v Hne Hparse.
    assert (Htext : (text =? "")%string = false).
    { apply String.eqb_neq. exact Hne. }
    split.
    + unfold parseJsonResult. cbn [truthy]. rewrite Htext. cbn [negb].
      unfold try_catch, bind, parse_or_throw. rewrite Hparse. reflexivity.
    + unfold parseJsonResult, text_content. cbn [truthy negb find_js].
      unfold try_catch, bind, is_text_block, bind, get_prop. cbn.
      rewrite Htext. cbn. unfold parse_or_throw. rewrite Hparse. reflexivity.
  - intros text Hparse. split.
    + unfold parseJsonResult. cbn [truthy].
      destruct (text =? "")%string; cbn [negb]; [reflexivity |].
      unfold try_catch, bind, parse_or_throw. rewrite Hparse. reflexivity.
    + unfold parseJsonResult, text_content. cbn [truthy negb find_js].
      unfold try_catch, bind, is_text_block, bind, get_prop. cbn.
      destruct (text =? "")%string; cbn; [reflexivity |].
      unfold parse_or_throw. rewrite Hparse. reflexivity.
  - intros result Hfalsy. unfold parseJsonResult. rewrite Hfalsy. reflexivity.
Qed.

End JsonResultFacts.

Lemma parseJsonResult_unwraps_witness :
  parseJsonResult Json.parse (text_content (VStr "[1,2]")) tt
  = (Returned (VArr [VNum 1; VNum 2]), tt)
  /\ parseJsonResult Json.parse (VStr "not json") tt = (Returned (VStr "not json"), tt).
Proof.
  split.
  - exact (proj2 (proj1 (proj2 (parseJsonResult_unwraps Json.parse))
                    "[1,2]" (VArr [VNum 1; VNum 2]) ltac:(discriminate) eq_refl)).
  - exact (proj1 (proj1 (proj2 (proj2 (parseJsonResult_unwraps Json.parse)))
                    "not json" eq_refl)).
Defined.

(** ** Path utilities *)

Lemma replace_backslashes_clean (s : string) (n : nat) :
  String.get n (replace_backslashes s) <> Some (ascii_of_nat 92).
Proof.
  revert n. induction s as [| c s IH]; intros n; simpl.
  - discriminate.
  - destruct n as [| n]; [| apply IH].
    destruct (nat_of_ascii c =? 92)%nat eqn:E.
    + discriminate.
    + intros H. injection H as ->. discriminate E.
Qed.

Lemma relative_to_skips (filePath : string) (before rest : list string) :
  (forall p, In p before -> String.prefix p filePath = false) ->
  relative_to filePath (before ++ rest) = relative_to filePath rest.
Proof.
  induction before as [| p before IH]; intros H; simpl.
  - reflexivity.
  - rewrite (H p (or_introl eq_refl)). apply IH.
    intros q Hq. apply H. right. exact Hq.
Qed.

(** X22: [getRelativePath] with a list of project paths.  When no project
    path is a prefix of the file path, the answer is the file path as it is.
    Otherwise the first project path that is a prefix decides: the answer is
    what follows the prefix and one more character, whichever character that
    is, with every backslash turned into a slash; it is empty when the file
    path is the project path itself.  Nothing is read from the editor. *)
Theorem getRelativePath_drops_the_first_root {W} (atom : Atom W) (filePath : string)
    (paths : list string) (w : W) :
  ((forall p, In p paths -> String.prefix p filePath = false) ->
   getRelativePath atom filePath (Some paths) w = (Returned filePath, w))
  /\ (forall before root after,
        paths = (before ++ root :: after)%list ->
        (forall p, In p before -> String.prefix p filePath = false) ->
        (forall c rest,
            filePath = root ++ String c rest ->
            getRelativePath atom filePath (Some paths) w
            = (Returned (replace_backslashes rest), w))
        /\ (filePath = root ->
            getRelativePath atom filePath (Some paths) w = (Returned "", w)))
  /\ (forall answer w' n,
        (exists p, In p paths /\ String.prefix p filePath = true) ->
        getRelativePath atom filePath (Some paths) w = (Returned answer, w') ->
        String.get n answer <> Some (ascii_of_nat 92)).
Proof.
  unfold getRelativePath, bind, ret. split; [| split].
  - intros H. rewrite <- (app_nil_r paths). rewrite (relative_to_skips _ _ [] H).
    reflexivity.
  - intros before root after -> Hbefore. split.
    + intros c rest ->. rewrite (relative_to_skips _ _ _ Hbefore).
      cbn [relative_to]. rewrite prefix_app.
      unfold slice_from, slice_index.
      assert (Hlen : String.length (root ++ String c rest)
                     = (String.length root + S (String.length rest))%nat)
        by apply length_app.
      rewrite Hlen.
      destruct (Z.of_nat (String.length root) + 1 <? 0) eqn:E;
        [apply Z.ltb_lt in E; lia |].
      rewrite Z.min_l by lia.
      replace (Z.to_nat (Z.of_nat (String.length root) + 1))
        with (String.length (root ++ String c "")) by (rewrite length_app; simpl; lia).
      replace (root ++ String c rest) with ((root ++ String c "") ++ rest).
      * rewrite drop_chars_app. reflexivity.
      * clear. induction root as [| a root IH]; simpl; [reflexivity | rewrite IH; reflexivity].
    + intros ->. rewrite (relative_to_skips _ _ _ Hbefore).
      cbn [relative_to].
      replace (String.prefix root root) with true
        by (rewrite <- (prefix_app root "") at 1;
            replace (root ++ "") with root; [reflexivity |];
            clear; induction root as [| a root IH]; simpl;
            [reflexivity | rewrite <- IH; reflexivity]).
      unfold slice_from, slice_index.
      destruct (Z.of_nat (String.length root) + 1 <? 0) eqn:E;
        [apply Z.ltb_lt in E; lia |].
      rewrite Z.min_r by lia. rewrite Nat2Z.id.
      rewrite drop_chars_beyond by lia. reflexivity.
  - intros answer w' n [p [Hin Hp]] H. injection H as <- <-.
    clear w. induction paths as [| q paths IH]; [contradiction Hin |].
    cbn [relative_to]. destruct (String.prefix q filePath) eqn:Hq.
    + apply replace_backslashes_clean.
    + destruct Hin as [-> | Hin]; [rewrite Hp in Hq; discriminate Hq |].
      apply IH. exact Hin.
Qed.

Lemma getRelativePath_drops_the_first_root_witness :
  getRelativePath (demo_atom true) "/home/me/project/src/a.js"
    (Some ["/tmp"; "/home/me/project"; "/home/me"]) "doc"
  = (Returned "src/a.js", "doc").
Proof.
  refine (proj1 (proj1 (proj2 (getRelativePath_drops_the_first_root
                                 (demo_atom true) "/home/me/project/src/a.js"
                                 ["/tmp"; "/home/me/project"; "/home/me"] "doc"))
                   ["/tmp"] "/home/me/project" ["/home/me"] eq_refl _)
            "/"%char "src/a.js" eq_refl).
  intros p [<- | []]. reflexivity.
Defined.

Section PathComparisonFacts.

Variable path_normalize : string -> string.
Variable toLowerCase : string -> string.

Local Abbreviation matching := (hasMatchingPath path_normalize toLowerCase).
Local Abbreviation equal := (pathsEqual path_normalize toLowerCase).
Local Abbreviation normal := (normalizePath path_normalize toLowerCase).

Lemma matching_spec (a b : list string) :
  matching (Some a) b = true
  <-> exists p t, In p a /\ In t b /\ normal p = normal t.
Proof.
  unfold hasMatchingPath. rewrite existsb_exists. split.
  - intros (p & Hp & H). apply existsb_exists in H. destruct H as (t & Ht & H).
    exists p, t. unfold pathsEqual in H. apply String.eqb_eq in H. auto.
  - intros (p & t & Hp & Ht & H). exists p. split; [exact Hp |].
    apply existsb_exists. exists t. split; [exact Ht |].
    unfold pathsEqual. apply String.eqb_eq. exact H.
Qed.

(** X23: [hasMatchingPath] answers [true] exactly when some path of the
    first list and some path of the second have the same normalized form,
    whatever [path.normalize] and [toLowerCase] do; so it answers the same
    with the two lists exchanged, [false] when either list is empty, and
    [false] for [null] or [undefined] in place of the first list. *)
Theorem hasMatchingPath_symmetric (a b : list string) :
  (hasMatchingPath path_normalize toLowerCase (Some a) b = true
   <-> exists p t,
         In p a /\ In t b
         /\ normalizePath path_normalize toLowerCase p
            = normalizePath path_normalize toLowerCase t)
  /\ hasMatchingPath path_normalize toLowerCase (Some a) b
     = hasMatchingPath path_normalize toLowerCase (Some b) a
  /\ hasMatchingPath path_normalize toLowerCase (Some a) [] = false
  /\ hasMatchingPath path_normalize toLowerCase (Some []) b = false
  /\ hasMatchingPath path_normalize toLowerCase None b = false.
Proof.
  split; [apply matching_spec |].
  split; [| split; [| split; reflexivity]].
  - destruct (matching (Some a) b) eqn:Hab; destruct (matching (Some b) a) eqn:Hba;
      try reflexivity.
    + apply matching_spec in Hab. destruct Hab as (p & t & Hp & Ht & H).
      assert (Hyes : matching (Some b) a = true).
      { apply matching_spec. exists t, p. auto. }
      rewrite Hyes in Hba. discriminate Hba.
    + apply matching_spec in Hba. destruct Hba as (p & t & Hp & Ht & H).
      assert (Hyes : matching (Some a) b = true).
      { apply matching_spec. exists t, p. auto. }
      rewrite Hyes in Hab. discriminate Hab.
  - destruct (matching (Some a) []) eqn:H; [| reflexivity].
    apply matching_spec in H. destruct H as (p & t & _ & [] & _).
Qed.

End PathComparisonFacts.

(** ** Without an open editor *)

Section NoEditor.

Context {W : Type}.
Variable atom : Atom W.

Local Abbreviation run := (executeTool atom).

Ltac with_arguments Hn :=
  unfold executeTool, executeTool_switch;
  cbn [String.eqb Ascii.eqb Bool.eqb];
  repeat (rewrite (get_prop_defined _ _ Hn), bind_ret).

Ltac no_editor Ha :=
  unfold try_catch, bind; rewrite Ha; reflexivity.

(** X24: when the editor has no active text editor, the tools that read it
    ([GetActiveEditor], [GetSelection], [GetAllSelections]) answer success
    with [null] for data, and the tools that act on it, given arguments that
    pass their check ([InsertText], [ReplaceSelection], [GoToPosition],
    [SetSelections], and [SaveFile] and [CloseFile] without a path), answer
    [success: false] with [false] under their verb and no [error]; none of
    them does anything else to the editor. *)
Theorem without_an_active_editor args w w1 :
  nullish args = false ->
  getActiveTextEditor atom w = (Returned None, w1) ->
  (forall toolName,
      In toolName ["GetActiveEditor"; "GetSelection"; "GetAllSelections"] ->
      run toolName args w = (Returned (succeeded VNull), w1))
  /\ (is_string (field args "text") = true ->
      run "InsertText" args w
      = (Returned (reported false (VObj [("inserted", VBool false)])), w1)
      /\ run "ReplaceSelection" args w
         = (Returned (reported false (VObj [("replaced", VBool false)])), w1))
  /\ (is_number (field args "line") = true ->
      run "GoToPosition" args w
      = (Returned (reported false (VObj [("navigated", VBool false)])), w1))
  /\ (forall r rs,
        field args "ranges" = VArr (r :: rs) ->
        run "SetSelections" args w
        = (Returned (reported false
                       (VObj [("selectionsSet", VBool false);
                              ("count", VNum (Z.of_nat (List.length (r :: rs))))])),
           w1))
  /\ (truthy (field args "path") = false ->
      run "SaveFile" args w
      = (Returned (reported false (VObj [("saved", VBool false)])), w1)
      /\ run "CloseFile" args w
         = (Returned (reported false (VObj [("closed", VBool false)])), w1)).
Proof.
  intros Hn Ha. split; [| split; [| split; [| split]]].
  - intros toolName Hin. cbn [In] in Hin.
    destruct Hin as [<- | [<- | [<- | []]]]; with_arguments Hn.
    + unfold getActiveEditor. no_editor Ha.
    + unfold getSelection. no_editor Ha.
    + unfold getAllSelections. no_editor Ha.
  - intros Hs. destruct (field args "text") as [| | | | text | |] eqn:E;
      try discriminate Hs.
    split; with_arguments Hn; rewrite E.
    + unfold insertText. no_editor Ha.
    + unfold replaceSelection. no_editor Ha.
  - intros Hl. with_arguments Hn. rewrite Hl.
    repeat (rewrite (get_prop_defined _ _ Hn), bind_ret).
    unfold goToPosition. no_editor Ha.
  - intros r rs Hr. with_arguments Hn. rewrite Hr.
    unfold setSelections. no_editor Ha.
  - intros Hp. split; with_arguments Hn.
    + unfold saveFile. rewrite Hp. no_editor Ha.
    + unfold closeFile. rewrite Hp. no_editor Ha.
Qed.

End NoEditor.

Lemma without_an_active_editor_witness :
  executeTool (demo_atom false) "GetSelection" (VObj []) "doc"
  = (Returned (succeeded VNull), "doc")
  /\ executeTool (demo_atom false) "GoToPosition" (VObj [("line", VNum 3)]) "doc"
     = (Returned (reported false (VObj [("navigated", VBool false)])), "doc").
Proof.
  split.
  - refine (proj1 (without_an_active_editor (demo_atom false) (VObj []) "doc" "doc"
                     eq_refl eq_refl) "GetSelection" _).
    simpl. tauto.
  - exact (proj1 (proj2 (proj2 (without_an_active_editor
                                  (demo_atom false) (VObj [("line", VNum 3)]) "doc" "doc"
                                  eq_refl eq_refl)))
             eq_refl).
Defined.

(** ** The bridge's address *)

Lemma read_digits_app (ds rest : string) (acc : option Z) :
  forallb is_digit (list_ascii_of_string ds) = true ->
  read_digits acc (ds ++ rest) = read_digits (read_digits acc ds) rest.
Proof.
  revert acc. induction ds as [| c ds IH]; intros acc H.
  - reflexivity.
  - cbn [list_ascii_of_string forallb] in H. apply andb_true_iff in H.
    destruct H as [Hc Hds]. cbn [append read_digits]. rewrite Hc. apply IH. exact Hds.
Qed.

Lemma read_digits_stops (acc : option Z) (c : ascii) (rest : string) :
  is_digit c = false -> read_digits acc (String c rest) = acc.
Proof. intros H. cbn [read_digits]. rewrite H. reflexivity. Qed.

Lemma digit_is_no_space (c : ascii) : is_digit c = true -> is_space c = false.
Proof.
  unfold is_digit, is_space. cbv zeta. intros H.
  apply andb_true_iff in H. destruct H as [H1 H2].
  apply Nat.leb_le in H1. apply Nat.leb_le in H2.
  rewrite !orb_false_iff. split; [split |].
  - apply Nat.eqb_neq. lia.
  - apply andb_false_iff. right. apply Nat.leb_gt. lia.
  - apply Nat.eqb_neq. lia.
Qed.

Lemma parseInt_of_digit (c : ascii) (s : string) :
  is_digit c = true -> parseInt (String c s) = read_digits None (String c s).
Proof.
  intros H. unfold parseInt. cbn [skip_spaces]. rewrite (digit_is_no_space c H).
  destruct c as [[] [] [] [] [] [] [] []]; try reflexivity; discriminate H.
Qed.

(** X25: the bridge's address as the stdio server reads it from the
    environment.  With [PULSAR_BRIDGE_PORT] unset or empty the port is 3000,
    and with [PULSAR_BRIDGE_HOST] unset or empty the host is 127.0.0.1.  A
    port value that starts with digits is read up to the first character
    that is no digit, and what follows is ignored.  A value that starts with
    a character that is no digit, no sign and no white space gives no
    number: the address then reads [NaN] for the port, in the health probe
    as well, and 3000 is not used.  White space is what [parseInt] skips
    among the code units below 256, the no-break space included. *)
Theorem bridge_address_from_environment (port_text host_text : option string) :
  (port_text = None \/ port_text = Some "" -> BRIDGE_PORT port_text = Some 3000)
  /\ (host_text = None \/ host_text = Some "" -> BRIDGE_HOST host_text = "127.0.0.1")
  /\ (forall d ds c rest,
        port_text = Some (String d ds ++ String c rest) ->
        forallb is_digit (list_ascii_of_string (String d ds)) = true ->
        is_digit c = false ->
        BRIDGE_PORT port_text = parseInt (String d ds))
  /\ (forall c rest,
        port_text = Some (String c rest) ->
        is_digit c = false -> is_space c = false ->
        c <> "-"%char -> c <> "+"%char ->
        BRIDGE_PORT port_text = None
        /\ call_url (health_probe port_text host_text)
           = "http://" ++ BRIDGE_HOST host_text ++ ":NaN/health").
Proof.
  split; [| split; [| split]].
  - intros [-> | ->]; reflexivity.
  - intros [-> | ->]; reflexivity.
  - intros d ds c rest -> Hds Hc. unfold BRIDGE_PORT, env_or.
    cbn [append String.eqb].
    assert (Hd : is_digit d = true).
    { cbn [list_ascii_of_string forallb] in Hds. apply andb_true_iff in Hds. tauto. }
    change (String d (ds ++ String c rest)) with (String d ds ++ String c rest).
    replace (String d ds ++ String c rest) with (String d (ds ++ String c rest))
      by reflexivity.
    rewrite !(parseInt_of_digit d _ Hd).
    change (String d (ds ++ String c rest)) with (String d ds ++ String c rest).
    rewrite (read_digits_app _ _ _ Hds). apply read_digits_stops. exact Hc.
  - intros c rest -> Hc Hs Hminus Hplus.
    assert (Hport : BRIDGE_PORT (Some (String c rest)) = None).
    { unfold BRIDGE_PORT, env_or. cbn [String.eqb]. unfold parseInt.
      cbn [skip_spaces]. rewrite Hs.
      assert (Hread : read_digits None (String c rest) = None)
        by (apply read_digits_stops; exact Hc).
      destruct c as [[] [] [] [] [] [] [] []]; try exact Hread;
        exfalso; (apply Hminus; reflexivity) || (apply Hplus; reflexivity). }
    split; [exact Hport |].
    unfold health_probe, bridge_base. cbn [call_url]. rewrite Hport.
    cbn [number_text].
    rewrite !string_app_assoc. reflexivity.
Qed.

Lemma bridge_address_from_environment_witness :
  BRIDGE_PORT None = Some 3000
  /\ BRIDGE_PORT (Some "8080x") = Some 8080
  /\ call_url (health_probe (Some "port") None) = "http://127.0.0.1:NaN/health".
Proof.
  split; [| split].
  - exact (proj1 (bridge_address_from_environment None None) (or_introl eq_refl)).
  - exact (proj1 (proj2 (proj2 (bridge_address_from_environment (Some "8080x") None)))
             "8"%char "080" "x"%char "" eq_refl eq_refl eq_refl).
  - refine (proj2 (proj2 (proj2 (proj2 (bridge_address_from_environment
                                          (Some "port") None)))
                     "p"%char "ort" eq_refl eq_refl eq_refl _ _));
      discriminate.
Defined.
